(** * Schema inference for custom operators: torch/_library/infer_schema.py

    A shallow embedding of [infer_schema], [parse_return], [tuple_to_list],
    [derived_types], [get_supported_param_types], [supported_param],
    [has_tensor_arg] and [get_device_arg_id], together with the pieces of
    the Python runtime they rely on ([typing] objects and their equality,
    [inspect] signatures, [str] methods, [eval]). *)

From Stdlib Require Import String Ascii List Bool Arith ZArith Lia Sorted.
From Stdlib Require Import DecimalString.
Import ListNotations.
Set Warnings "-register-all".
Local Open Scope list_scope.
Local Open Scope string_scope.

(** ** Python strings

    A [str] is modelled as a [string] of code points below 256. *)

Module PyStr.

(** [sep.join(l)] *)
Definition join (sep : string) (l : list string) : string := String.concat sep l.

(** [s.startswith(p)] *)
Definition startswith (p s : string) : bool := String.prefix p s.

(** [s[n:]] *)
Fixpoint drop (n : nat) (s : string) : string :=
  match n, s with
  | O, _ => s
  | S _, EmptyString => EmptyString
  | S k, String _ s' => drop k s'
  end.

(** [p in s] for strings: [p] occurs in [s] as a substring. *)
Fixpoint contains (p s : string) : bool :=
  String.prefix p s ||
  match s with
  | EmptyString => false
  | String _ s' => contains p s'
  end.

(** [s.split(sep)] for a non-empty [sep]: the scan goes left to right; at an
    occurrence of [sep] the current field is closed and the scan resumes
    after the separator ([skip] counts the separator's remaining
    characters). The result always has at least one field. *)
Fixpoint split_from (sep : string) (skip : nat) (s : string) : list string :=
  match s with
  | EmptyString => [EmptyString]
  | String c s' =>
      match skip with
      | S k => split_from sep k s'
      | O =>
          if String.prefix sep s
          then EmptyString :: split_from sep (String.length sep - 1) s'
          else match split_from sep 0 s' with
               | [] => [String c EmptyString]
               | w :: ws => String c w :: ws
               end
      end
  end.

Definition split (sep s : string) : list string := split_from sep 0 s.

(** [c.isspace()] on code points below 256. *)
Definition isspace (c : ascii) : bool :=
  let n := nat_of_ascii c in
  (((9 <=? n) && (n <=? 13)) || ((28 <=? n) && (n <=? 32))
   || (n =? 133) || (n =? 160))%nat.

(** [s.lstrip()], [s.rstrip()], [s.strip()] *)
Fixpoint lstrip (s : string) : string :=
  match s with
  | EmptyString => EmptyString
  | String c s' => if isspace c then lstrip s' else s
  end.

Fixpoint rstrip (s : string) : string :=
  match s with
  | EmptyString => EmptyString
  | String c s' =>
      match rstrip s' with
      | EmptyString => if isspace c then EmptyString else String c EmptyString
      | r => String c r
      end
  end.

Definition strip (s : string) : string := rstrip (lstrip s).

(** [str(n)] for a non-negative index and for an [int]. *)
Definition str_nat (n : nat) : string := NilZero.string_of_uint (Nat.to_uint n).
Definition str_int (z : Z) : string := NilZero.string_of_int (Z.to_int z).

(** The double-quote character. *)
Definition dquote : string := String (ascii_of_nat 34) EmptyString.

(** The line feed character. *)
Definition nl : string := String (ascii_of_nat 10) EmptyString.

End PyStr.

(** ** Exceptions and results *)

Inductive exn : Type :=
| ValueError (msg : string)
| AttributeError (attr : string)
| AssertionError
| KeyError
| IndexError.

Inductive outcome (A : Type) : Type :=
| Return (a : A)
| Raise (e : exn).
Arguments Return {A} a.
Arguments Raise {A} e.

(** ** typing objects

    The classes the module imports, any other class, and the generic
    aliases of [typing]. A [Union] holds its flattened, duplicate-free
    members; [Optional[t]] is [Union[t, None]]. *)

Inductive pytype : Type :=
| Tensor
| Int
| Float
| Bool
| Str
| Dtype
| Device
| NoneType
| Class (name : string)
| Ellipsis
| Union (args : list pytype)
| Sequence (t : pytype)
| List (t : pytype)
| BareList
| Tuple (args : list pytype)
| BareTuple
| Generic (origin : string) (args : list pytype).

Definition ctor_tag (t : pytype) : nat :=
  match t with
  | Tensor => 0 | Int => 1 | Float => 2 | Bool => 3 | Str => 4
  | Dtype => 5 | Device => 6 | NoneType => 7 | Class _ => 8
  | Ellipsis => 9 | Union _ => 10 | Sequence _ => 11 | List _ => 12
  | BareList => 13 | Tuple _ => 14 | BareTuple => 15 | Generic _ _ => 16
  end.

(** [a == b] on typing objects: classes compare by identity, generic
    aliases by origin and arguments, unions as sets of members. *)
Fixpoint py_eqb (a b : pytype) {struct a} : bool :=
  match a, b with
  | Class n, Class m => String.eqb n m
  | Union xs, Union ys =>
      (fix subset (l : list pytype) : bool :=
         match l with
         | [] => true
         | x :: l' => existsb (py_eqb x) ys && subset l'
         end) xs
      &&
      (fix superset (r : list pytype) : bool :=
         match r with
         | [] => true
         | y :: r' =>
             (fix mem (l : list pytype) : bool :=
                match l with
                | [] => false
                | x :: l' => py_eqb x y || mem l'
                end) xs
             && superset r'
         end) ys
  | Sequence x, Sequence y => py_eqb x y
  | List x, List y => py_eqb x y
  | Tuple xs, Tuple ys =>
      (fix all2 (l r : list pytype) : bool :=
         match l, r with
         | [], [] => true
         | x :: l', y :: r' => py_eqb x y && all2 l' r'
         | _, _ => false
         end) xs ys
  | Generic o xs, Generic p ys =>
      String.eqb o p &&
      (fix all2 (l r : list pytype) : bool :=
         match l, r with
         | [], [] => true
         | x :: l', y :: r' => py_eqb x y && all2 l' r'
         | _, _ => false
         end) xs ys
  | Union _, _ | _, Union _ => false
  | Sequence _, _ | _, Sequence _ => false
  | List _, _ | _, List _ => false
  | Tuple _, _ | _, Tuple _ => false
  | Generic _ _, _ | _, Generic _ _ => false
  | Class _, _ | _, Class _ => false
  | _, _ => Nat.eqb (ctor_tag a) (ctor_tag b)
  end.

(** [typing.Union[params]]: nested unions are flattened, duplicates are
    dropped (first occurrence kept), and a union of one member is that
    member. *)
Definition flatten_union (params : list pytype) : list pytype :=
  flat_map (fun p => match p with Union ms => ms | _ => [p] end) params.

Fixpoint dedup (seen l : list pytype) : list pytype :=
  match l with
  | [] => []
  | x :: l' =>
      if existsb (fun y => py_eqb y x) seen then dedup seen l'
      else x :: dedup (seen ++ [x])%list l'
  end.

Definition mkUnion (params : list pytype) : pytype :=
  match dedup [] (flatten_union params) with
  | [t] => t
  | ms => Union ms
  end.

(** [typing.Optional[t]] *)
Definition Optional (t : pytype) : pytype := mkUnion [t; NoneType].

(** [torch.types.Number], declared in torch/types.py as
    [Union[int, float, bool]]. *)
Definition Number : pytype := mkUnion [Int; Float; Bool].

(** ** Objects found in a signature

    An annotation or a return annotation is [inspect.Parameter.empty]
    (which is also [inspect.Signature.empty]), [None], a string, or a
    typing object. *)

Inductive pyobj : Type :=
| Empty
| PyNone
| PyStr (s : string)
| PyType (t : pytype).

(** A parameter's default: none, or a value of one of the kinds
    [infer_schema] tells apart. A [float] carries its [str()] text, a
    [torch.dtype] its [str()] text, any other value the [str()] of its
    type. *)
Inductive pyvalue : Type :=
| NoDefault
| DNone
| DBool (b : bool)
| DInt (z : Z)
| DFloat (text : string)
| DStr (s : string)
| DDtype (text : string)
| DOther (type_text : string).

Inductive param_kind : Type :=
| POSITIONAL_ONLY
| POSITIONAL_OR_KEYWORD
| VAR_POSITIONAL
| KEYWORD_ONLY
| VAR_KEYWORD.

Definition kind_eqb (a b : param_kind) : bool :=
  match a, b with
  | POSITIONAL_ONLY, POSITIONAL_ONLY
  | POSITIONAL_OR_KEYWORD, POSITIONAL_OR_KEYWORD
  | VAR_POSITIONAL, VAR_POSITIONAL
  | KEYWORD_ONLY, KEYWORD_ONLY
  | VAR_KEYWORD, VAR_KEYWORD => true
  | _, _ => false
  end.

(** [inspect.Parameter] and [inspect.Signature] *)
Record Param : Type := {
  name : string;
  kind : param_kind;
  annotation : pyobj;
  default : pyvalue
}.

Record Signature : Type := {
  parameters : list Param;
  return_annotation : pyobj
}.

(** ** Dictionaries keyed by typing objects

    Insertion order is kept; a key is found through [==]. *)

Definition dict : Type := list (pytype * string).

Definition key_matches (k : pyobj) (entry : pytype * string) : bool :=
  match k with
  | PyType t => py_eqb t (fst entry)
  | _ => false
  end.

(** [k in d] and [k in d.keys()] *)
Definition dict_contains (d : dict) (k : pyobj) : bool := existsb (key_matches k) d.

(** [d[k]], [None] standing for KeyError *)
Definition dict_get (d : dict) (k : pyobj) : option string :=
  option_map snd (find (key_matches k) d).

(** [d[k] = v] *)
Fixpoint dict_set (d : dict) (k : pytype) (v : string) : dict :=
  match d with
  | [] => [(k, v)]
  | (k', v') :: d' =>
      if py_eqb k k' then (k', v) :: d' else (k', v') :: dict_set d' k v
  end.

(** [dict(pairs)] *)
Definition dict_of (pairs : list (pytype * string)) : dict :=
  fold_left (fun d kv => dict_set d (fst kv) (snd kv)) pairs [].

(** ** Sets of names *)

Definition name_in (x : string) (l : list string) : bool := existsb (String.eqb x) l.

(** [s.add(x)] *)
Definition set_add (s : list string) (x : string) : list string :=
  if name_in x s then s else (s ++ [x])%list.

(** [set(l)] *)
Definition set_of (l : list string) : list string := fold_left set_add l [].

(** [a - b] *)
Definition set_diff (a b : list string) : list string :=
  filter (fun x => negb (name_in x b)) a.

(** ** Module state and the Python runtime

    The module-level tables live in the interpreter's state. [eval] runs
    an arbitrary expression: it returns an object or raises ([None], for
    an exception that [except Exception] catches), and it may change the
    state. Texts that Python's own formatting produces
    ([str] of a signature, of an annotation, of a dict, of a set, of a
    type) are left to the runtime. *)

Record module_state : Type := {
  param_types : dict;
  return_types : dict
}.

Record runtime : Type := {
  py_eval : string -> module_state -> option pyobj * module_state;
  str_signature : Signature -> string;
  str_object : pyobj -> string;
  str_keys : dict -> string;
  str_dict : dict -> string;
  str_set : list string -> string
}.

(** Computations: state passing with exceptions. *)
Definition M (A : Type) : Type := module_state -> outcome A * module_state.

Definition ret {A} (a : A) : M A := fun g => (Return a, g).

Definition raise {A} (e : exn) : M A := fun g => (Raise e, g).

Definition bind {A B} (m : M A) (k : A -> M B) : M B :=
  fun g =>
    match m g with
    | (Return a, g') => k a g'
    | (Raise e, g') => (Raise e, g')
    end.

Declare Scope py_scope.
Delimit Scope py_scope with py.
Notation "x <- m ;; k" := (bind m (fun x => k))
  (at level 61, m at next level, right associativity) : py_scope.
Notation "m ;; k" := (bind m (fun _ => k))
  (at level 61, right associativity) : py_scope.
Local Open Scope py_scope.

Definition gets {A} (f : module_state -> A) : M A := fun g => (Return (f g), g).

(** [if b: m] *)
Definition when (b : bool) (m : M unit) : M unit := if b then m else ret tt.

(** [d[k]] as a computation *)
Definition getitem (d : dict) (k : pyobj) : M string :=
  match dict_get d k with
  | Some v => ret v
  | None => raise KeyError
  end.

(** [for x in l: body(x)] *)
Fixpoint for_each {A} (body : A -> M unit) (l : list A) : M unit :=
  match l with
  | [] => ret tt
  | x :: l' => body x ;; for_each body l'
  end.

(** [[f(x) for x in l]] *)
Fixpoint map_m {A B} (f : A -> M B) (l : list A) : M (list B) :=
  match l with
  | [] => ret []
  | x :: l' => y <- f x ;; ys <- map_m f l' ;; ret (y :: ys)
  end.

(** ** The module's tables *)

Definition derived_types (base_type : pytype) (cpp_type : string)
    (list_base optional_base_list optional_list_base : bool)
    : list (pytype * string) :=
  let result :=
    [ (base_type, cpp_type);
      (Optional base_type, cpp_type ++ "?") ] in
  let derived_seq_types (typ : pytype) := [ Sequence typ; List typ ] in
  let result :=
    if list_base
    then app result (map (fun seq_typ => (seq_typ, cpp_type ++ "[]"))
                         (derived_seq_types base_type))
    else result in
  let result :=
    if optional_base_list
    then app result (map (fun seq_typ => (seq_typ, cpp_type ++ "?[]"))
                         (derived_seq_types (Optional base_type)))
    else result in
  let result :=
    if optional_list_base
    then app result (map (fun seq_typ => (Optional seq_typ, cpp_type ++ "[]?"))
                         (derived_seq_types base_type))
    else result in
  result.

Definition get_supported_param_types : dict :=
  let data :=
    [ (Tensor, "Tensor", true, true, false);
      (Int, "SymInt", true, false, true);
      (Float, "float", true, false, true);
      (Bool, "bool", true, false, true);
      (Str, "str", false, false, false);
      (Number, "Scalar", true, false, false);
      (Dtype, "ScalarType", false, false, false);
      (Device, "Device", false, false, false) ] in
  let result :=
    fold_left
      (fun result line =>
         match line with
         | (base_type, cpp_type, list_base, optional_base_list, optional_list_base) =>
             app result (derived_types base_type cpp_type list_base
                                       optional_base_list optional_list_base)
         end)
      data [] in
  dict_of result.

Definition SUPPORTED_RETURN_TYPES : dict :=
  dict_of
    [ (Tensor, "Tensor");
      (List Tensor, "Tensor[]");
      (Int, "SymInt");
      (Float, "float");
      (Bool, "bool");
      (Number, "Scalar") ].

Definition SUPPORTED_PARAM_TYPES : dict := get_supported_param_types.

(** The state once the module has been imported. *)
Definition import_state : module_state :=
  {| param_types := SUPPORTED_PARAM_TYPES;
     return_types := SUPPORTED_RETURN_TYPES |}.

(** ** Reflection on typing objects *)

Inductive origin : Type :=
| OriginTuple
| OriginOther.

(** [t.__origin__] for a generic alias; a [Generic] alias stands for
    [origin[args]] of any other origin, [tuple[...]] included. *)
Definition type_origin (t : pytype) : option origin :=
  match t with
  | Tuple _ | BareTuple => Some OriginTuple
  | Generic o _ => if String.eqb o "tuple" then Some OriginTuple else Some OriginOther
  | Union _ | Sequence _ | List _ | BareList => Some OriginOther
  | _ => None
  end.

(** [o.__origin__], [None] standing for AttributeError *)
Definition origin_attr (o : pyobj) : option origin :=
  match o with
  | PyType t => type_origin t
  | _ => None
  end.

(** [typing.get_origin(o) is tuple] *)
Definition origin_is_tuple (o : pyobj) : bool :=
  match origin_attr o with
  | Some OriginTuple => true
  | _ => false
  end.

(** [getattr(t, "__args__", None)] *)
Definition type_args (t : pytype) : option (list pytype) :=
  match t with
  | Union ms => Some ms
  | Sequence x | List x => Some [x]
  | Tuple xs => Some xs
  | Generic _ xs => Some xs
  | _ => None
  end.

(** [typing.get_args(o)] *)
Definition get_args (o : pyobj) : list pytype :=
  match o with
  | PyType t => match type_args t with Some xs => xs | None => [] end
  | _ => []
  end.

Definition is_ellipsis (t : pytype) : bool :=
  match t with Ellipsis => true | _ => false end.

Definition supported_param (param : Param) : bool :=
  kind_eqb (kind param) POSITIONAL_OR_KEYWORD || kind_eqb (kind param) KEYWORD_ONLY.

Definition tuple_to_list (tuple_type : pytype) : pytype :=
  match tuple_type, type_args tuple_type with
  | BareTuple, _ | _, None | _, Some [] => BareList
  | _, Some [t0] => List t0
  | _, Some ((t0 :: t1 :: _) as args) =>
      if (Nat.eqb (List.length args) 2 && is_ellipsis t1)%bool
      then List t0
      else List (mkUnion args)
  end.

(** ** parse_return and infer_schema *)

Section WithRuntime.

Context (rt : runtime).

(** [str(v)] for the default values rendered through [str]. *)
Definition str_value (v : pyvalue) : string :=
  match v with
  | DNone => "None"
  | DBool true => "True"
  | DBool false => "False"
  | DInt z => PyStr.str_int z
  | DFloat text => text
  | DStr s => s
  | DDtype text => text
  | DOther _ => ""
  | NoDefault => ""
  end.

(** [str(type(v))] *)
Definition str_type_of (v : pyvalue) : string :=
  match v with
  | DNone => "<class 'NoneType'>"
  | DBool _ => "<class 'bool'>"
  | DInt _ => "<class 'int'>"
  | DFloat _ => "<class 'float'>"
  | DStr _ => "<class 'str'>"
  | DDtype _ => "<class 'torch.dtype'>"
  | DOther type_text => type_text
  | NoDefault => "<class 'type'>"
  end.

Definition parse_return (annotation : pyobj) (error_fn : string -> M unit) : M string :=
  match annotation with
  | PyNone => ret "()"
  | _ =>
      if negb (origin_is_tuple annotation) then
        keys <- gets return_types ;;
        when (negb (dict_contains keys annotation))
          (tbl <- gets return_types ;;
           error_fn ("Return has unsupported type " ++ str_object rt annotation ++ ". "
                     ++ "The valid types are: " ++ str_dict rt tbl ++ ".")) ;;
        tbl <- gets return_types ;;
        getitem tbl annotation
      else
        let args := get_args annotation in
        for_each
          (fun arg =>
             tbl <- gets return_types ;;
             when (negb (dict_contains tbl (PyType arg)))
               (tbl <- gets return_types ;;
                error_fn ("Return has unsupported type " ++ str_object rt annotation ++ ". "
                          ++ "The valid types are: " ++ str_dict rt tbl ++ ".")))
          args ;;
        items <- map_m (fun arg => tbl <- gets return_types ;; getitem tbl (PyType arg)) args ;;
        ret ("(" ++ PyStr.join ", " items ++ ")")
  end.

(** The local variables of [infer_schema]'s loop. *)
Record locals : Type := {
  params : list string;
  seen_args : list string;
  saw_kwarg_only_arg : bool
}.

Definition error_fn (sig : Signature) (what : string) : M unit :=
  raise (ValueError ("infer_schema(func): " ++ what ++ " "
                     ++ "Got func with signature " ++ str_signature rt sig ++ ")")).

Definition convert_type_string (sig : Signature) (annotation_type : string) : M pyobj :=
  fun g =>
    match py_eval rt annotation_type g with
    | (Some v, g') => (Return v, g')
    | (None, g') =>
        (error_fn sig ("Unsupported type annotation " ++ annotation_type
                       ++ ". It is not a type.") ;;
         ret PyNone) g'
    end.

(** The rendering of a default value, lines 90-104. *)
Definition render_default (sig : Signature) (param : Param) : M string :=
  match default param with
  | DNone | DInt _ | DFloat _ | DBool _ => ret (str_value (default param))
  | DStr s => ret (PyStr.dquote ++ s ++ PyStr.dquote)
  | DDtype text =>
      let dtype_repr := text in
      let torch_dot := "torch." in
      (if PyStr.startswith torch_dot dtype_repr then ret tt else raise AssertionError) ;;
      ret (PyStr.drop (String.length torch_dot) dtype_repr)
  | _ =>
      error_fn sig ("Parameter " ++ name param ++ " has an unsupported default value type "
                    ++ str_type_of (default param) ++ ". "
                    ++ "Please file an issue on GitHub so we can prioritize this.") ;;
      ret "None"
  end.

(** Lines 56-58 and 114-116: an annotation given as a string is
    converted to the object it evaluates to. *)
Definition resolve_annotation (sig : Signature) (annotation : pyobj) : M pyobj :=
  match annotation with
  | PyStr s => convert_type_string sig s
  | _ => ret annotation
  end.

(** Lines 61-77, run when [annotation_type] is no key of
    [SUPPORTED_PARAM_TYPES]. *)
Definition unsupported_type (sig : Signature) (param : Param) (annotation_type : pyobj)
    : M unit :=
  match origin_attr annotation_type with
  | None => raise (AttributeError "__origin__")
  | Some OriginTuple =>
      let list_type :=
        match annotation_type with
        | PyType t => tuple_to_list t
        | _ => BareList
        end in
      let example_type_str := PyStr.nl ++ PyStr.nl in
      keys <- gets param_types ;;
      let example_type_str :=
        if dict_contains keys (PyType list_type)
        then "For example, " ++ str_object rt (PyType list_type) ++ "."
             ++ PyStr.nl ++ PyStr.nl
        else example_type_str in
      keys <- gets param_types ;;
      error_fn sig
        ("Parameter " ++ name param ++ " has unsupported type "
         ++ str_object rt (annotation param) ++ ". "
         ++ "We do not support Tuple inputs in schema. As a workaround, please try to use List instead. "
         ++ example_type_str
         ++ "The valid types are: " ++ str_keys rt keys ++ ".")
  | Some OriginOther =>
      keys <- gets param_types ;;
      error_fn sig
        ("Parameter " ++ name param ++ " has unsupported type "
         ++ str_object rt (annotation param) ++ ". "
         ++ "The valid types are: " ++ str_keys rt keys ++ ".")
  end.

(** One iteration of [for idx, (name, param) in enumerate(sig.parameters.items())]. *)
Definition loop_body (sig : Signature) (mutates_args : list string)
    (idx : nat) (param : Param) (l : locals) : M locals :=
  let name := name param in
  when (negb (supported_param param))
    (error_fn sig "We do not support positional-only args, varargs, or varkwargs.") ;;
  let l :=
    if kind_eqb (kind param) KEYWORD_ONLY then
      if negb (saw_kwarg_only_arg l)
      then {| params := app (params l) ["*"];
              seen_args := seen_args l;
              saw_kwarg_only_arg := true |}
      else l
    else l in
  when (match annotation param with Empty => true | _ => false end)
    (error_fn sig ("Parameter " ++ name ++ " must have a type annotation.")) ;;
  annotation_type <- resolve_annotation sig (annotation param) ;;
  keys <- gets param_types ;;
  when (negb (dict_contains keys annotation_type))
    (unsupported_type sig param annotation_type) ;;
  tbl <- gets param_types ;;
  schema_type <- getitem tbl annotation_type ;;
  schema_type <-
    (if name_in name mutates_args then
       when (negb (PyStr.startswith "Tensor" schema_type))
         (error_fn sig ("Parameter " ++ name
                        ++ " is in mutable_args but only Tensors or collections of Tensors can be mutated")) ;;
       ret ("Tensor(a" ++ PyStr.str_nat idx ++ "!)"
            ++ PyStr.drop (String.length "Tensor") schema_type)
     else ret schema_type) ;;
  let l := {| params := params l;
              seen_args := set_add (seen_args l) name;
              saw_kwarg_only_arg := saw_kwarg_only_arg l |} in
  match default param with
  | NoDefault =>
      ret {| params := app (params l) [schema_type ++ " " ++ name];
             seen_args := seen_args l;
             saw_kwarg_only_arg := saw_kwarg_only_arg l |}
  | _ =>
      default_repr <- render_default sig param ;;
      ret {| params := app (params l) [schema_type ++ " " ++ name ++ "=" ++ default_repr];
             seen_args := seen_args l;
             saw_kwarg_only_arg := saw_kwarg_only_arg l |}
  end.

(** The loop over the enumerated parameters, from index [idx]. *)
Fixpoint loop (sig : Signature) (mutates_args : list string)
    (idx : nat) (ps : list Param) (l : locals) : M locals :=
  match ps with
  | [] => ret l
  | param :: ps' =>
      l' <- loop_body sig mutates_args idx param l ;;
      loop sig mutates_args (S idx) ps' l'
  end.

Definition initial_locals : locals :=
  {| params := []; seen_args := []; saw_kwarg_only_arg := false |}.

(** [infer_schema(prototype_function, mutates_args)], the prototype
    function being given by [sig = inspect.signature(prototype_function)]. *)
Definition infer_schema (sig : Signature) (mutates_args : list string) : M string :=
  l <- loop sig mutates_args 0 (parameters sig) initial_locals ;;
  let mutates_args_not_seen := set_diff (set_of mutates_args) (seen_args l) in
  when (Nat.ltb 0 (List.length mutates_args_not_seen))
    (error_fn sig (str_set rt mutates_args_not_seen ++ " in mutates_args were not found in "
                   ++ "the custom op's signature. "
                   ++ "mutates_args should contain the names of all args that the "
                   ++ "custom op mutates.")) ;;
  let return_annotation := return_annotation sig in
  return_annotation <- resolve_annotation sig return_annotation ;;
  ret_ <- parse_return return_annotation (error_fn sig) ;;
  ret ("(" ++ PyStr.join ", " (params l) ++ ") -> " ++ ret_).

End WithRuntime.

(** ** The schema inspectors *)

(** [l[i]] *)
Definition item (l : list string) (i : nat) : outcome string :=
  match nth_error l i with
  | Some x => Return x
  | None => Raise IndexError
  end.

Definition and_then {A B} (o : outcome A) (k : A -> outcome B) : outcome B :=
  match o with
  | Return a => k a
  | Raise e => Raise e
  end.

(** [schema.split("->")[0].split("(")[1].split(")")[0].split(",")], the
    first statement of both inspectors. *)
Definition schema_inputs (schema : string) : outcome (list string) :=
  and_then (item (PyStr.split "->" schema) 0) (fun before_arrow =>
  and_then (item (PyStr.split "(" before_arrow) 1) (fun after_paren =>
  and_then (item (PyStr.split ")" after_paren) 0) (fun inside =>
  Return (PyStr.split "," inside)))).

Definition has_tensor_arg (schema : string) : outcome bool :=
  and_then (schema_inputs schema) (fun inputs =>
  and_then
    (fold_right
       (fun input acc =>
          and_then (item (PyStr.split " " (PyStr.strip input)) 0) (fun t =>
          and_then acc (fun ts => Return (t :: ts))))
       (Return []) inputs)
    (fun input_types =>
  Return (existsb (fun s => PyStr.contains "Tensor" s) input_types))).

(** [next((i for i, s in enumerate(inputs) if cond(s)), None)] *)
Fixpoint first_index (cond : string -> bool) (i : nat) (inputs : list string) : option nat :=
  match inputs with
  | [] => None
  | s :: rest => if cond s then Some i else first_index cond (S i) rest
  end.

Definition get_device_arg_id (schema : string) : outcome (option nat) :=
  and_then (schema_inputs schema) (fun inputs =>
  Return (first_index (fun s => String.eqb "Device device" (PyStr.strip s)) 0 inputs)).

(** * Example runtimes and signatures *)

(** A runtime whose [eval] knows the names the module binds and changes
    nothing; the texts of Python's formatting are abbreviated. *)
Definition known_names : list (string * pyobj) :=
  [ ("Tensor", PyType Tensor); ("int", PyType Int); ("float", PyType Float);
    ("bool", PyType Bool); ("str", PyType Str); ("dtype", PyType Dtype);
    ("device", PyType Device); ("None", PyNone) ].

Definition plain_eval (s : string) (g : module_state) : option pyobj * module_state :=
  (option_map snd (find (fun kv => String.eqb s (fst kv)) known_names), g).

Definition plain_runtime : runtime :=
  {| py_eval := plain_eval;
     str_signature := fun _ => "<signature>";
     str_object := fun _ => "<object>";
     str_keys := fun _ => "<keys>";
     str_dict := fun _ => "<dict>";
     str_set := fun _ => "<set>" |}.

(** A runtime in which one annotation string, when evaluated, rebinds
    [SUPPORTED_PARAM_TYPES[int]] before it yields [Tensor]. *)
Definition rebinding_text : string :=
  "SUPPORTED_PARAM_TYPES.__setitem__(int, 'int') or Tensor".

Definition rebinding_eval (s : string) (g : module_state) : option pyobj * module_state :=
  if String.eqb s rebinding_text
  then (Some (PyType Tensor),
        {| param_types := dict_set (param_types g) Int "int";
           return_types := return_types g |})
  else plain_eval s g.

Definition rebinding_runtime : runtime :=
  {| py_eval := rebinding_eval;
     str_signature := fun _ => "<signature>";
     str_object := fun _ => "<object>";
     str_keys := fun _ => "<keys>";
     str_dict := fun _ => "<dict>";
     str_set := fun _ => "<set>" |}.

Definition positional (n : string) (a : pyobj) (d : pyvalue) : Param :=
  {| name := n; kind := POSITIONAL_OR_KEYWORD; annotation := a; default := d |}.

Definition keyword_only (n : string) (a : pyobj) (d : pyvalue) : Param :=
  {| name := n; kind := KEYWORD_ONLY; annotation := a; default := d |}.

(** [def f(x: Tensor, y: "int" = 3, *, s: str = "a", d: Optional[dtype] = torch.float32) -> Tuple[Tensor, int]] *)
Definition sig_mixed : Signature :=
  {| parameters :=
       [ positional "x" (PyType Tensor) NoDefault;
         positional "y" (PyStr "int") (DInt 3);
         keyword_only "s" (PyType Str) (DStr "a");
         keyword_only "d" (PyType (Optional Dtype)) (DDtype "torch.float32") ];
     return_annotation := PyType (Tuple [Tensor; Int]) |}.

Definition entries_mixed : list string :=
  [ "Tensor x"; "SymInt y=3";
    "str s=" ++ PyStr.dquote ++ "a" ++ PyStr.dquote;
    "ScalarType? d=float32" ].

Definition schema_mixed : string :=
  "(Tensor(a0!) x, SymInt y=3, *, str s=" ++ PyStr.dquote ++ "a" ++ PyStr.dquote
  ++ ", ScalarType? d=float32) -> (Tensor, SymInt)".

(** The signature of a function whose only parameter, [x: int], is
    keyword-only and which returns [None]. *)
Definition sig_kwonly : Signature :=
  {| parameters := [ keyword_only "x" (PyType Int) NoDefault ];
     return_annotation := PyNone |}.

(** [def f(x: complex) -> None] *)
Definition sig_complex : Signature :=
  {| parameters := [ positional "x" (PyType (Class "complex")) NoDefault ];
     return_annotation := PyNone |}.

(** [def f(a: int, b: "SUPPORTED_PARAM_TYPES.__setitem__(int, 'int') or Tensor") -> None] *)
Definition sig_rebinding : Signature :=
  {| parameters :=
       [ positional "a" (PyType Int) NoDefault;
         positional "b" (PyStr rebinding_text) NoDefault ];
     return_annotation := PyNone |}.

(** [def f(x: Tensor, t: Tuple[int, float, bool]) -> None] *)
Definition sig_tuple : Signature :=
  {| parameters :=
       [ positional "x" (PyType Tensor) NoDefault;
         positional "t" (PyType (Tuple [Int; Float; Bool])) NoDefault ];
     return_annotation := PyNone |}.

(** [def f(t: Tuple[str, str]) -> None] *)
Definition sig_tuple_str : Signature :=
  {| parameters := [ positional "t" (PyType (Tuple [Str; Str])) NoDefault ];
     return_annotation := PyNone |}.

(** [def f(x: Tensor, device: torch.device) -> None] *)
Definition sig_device : Signature :=
  {| parameters :=
       [ positional "x" (PyType Tensor) NoDefault;
         positional "device" (PyType Device) NoDefault ];
     return_annotation := PyNone |}.

(** [def f(s: str = "(", t: Optional[Tensor] = None) -> None] *)
Definition sig_paren_default : Signature :=
  {| parameters :=
       [ positional "s" (PyType Str) (DStr "(");
         positional "t" (PyType (Optional Tensor)) DNone ];
     return_annotation := PyNone |}.

Definition schema_paren_default : string :=
  "(str s=" ++ PyStr.dquote ++ "(" ++ PyStr.dquote ++ ", Tensor? t=None) -> ()".

(** [def f(x: Tensor, *args: int) -> None] *)
Definition sig_varargs : Signature :=
  {| parameters :=
       [ positional "x" (PyType Tensor) NoDefault;
         {| name := "args"; kind := VAR_POSITIONAL; annotation := PyType Int;
            default := NoDefault |} ];
     return_annotation := PyNone |}.

Definition unknown_name_message : string :=
  "infer_schema(func): "
  ++ ("<set>" ++ " in mutates_args were not found in "
      ++ "the custom op's signature. "
      ++ "mutates_args should contain the names of all args that the "
      ++ "custom op mutates.")
  ++ " " ++ "Got func with signature " ++ "<signature>" ++ ")".

Definition locals_mixed : locals :=
  {| params := [ "Tensor x"; "SymInt y=3"; "*";
                 "str s=" ++ PyStr.dquote ++ "a" ++ PyStr.dquote;
                 "ScalarType? d=float32" ];
     seen_args := [ "x"; "y"; "s"; "d" ];
     saw_kwarg_only_arg := true |}.

(** [def f(x: Tensor, *, device: torch.device) -> None] *)
Definition sig_kw_device : Signature :=
  {| parameters :=
       [ positional "x" (PyType Tensor) NoDefault;
         keyword_only "device" (PyType Device) NoDefault ];
     return_annotation := PyNone |}.

(** [def f(x: Tensor)], without a return annotation *)
Definition sig_no_return : Signature :=
  {| parameters := [ positional "x" (PyType Tensor) NoDefault ];
     return_annotation := Empty |}.

(** * The vocabulary of the statements *)

(** ** Strings *)

(** No occurrence of [sep] in [a ++ tail] starts inside [a]. *)
Fixpoint sep_free (sep a tail : string) : Prop :=
  match a with
  | EmptyString => True
  | String x a' => String.prefix sep (String x a' ++ tail) = false /\ sep_free sep a' tail
  end.

(** The first field of [input.strip().split(" ")]. *)
Definition type_token (input : string) : string :=
  hd "" (PyStr.split " " (PyStr.strip input)).

(** [s] holds none of the characters at which the inspectors cut a
    schema: no parenthesis, no comma, no [>]. *)
Definition separator_free (s : string) : bool :=
  negb (PyStr.contains "(" s) && negb (PyStr.contains ")" s)
  && negb (PyStr.contains "," s) && negb (PyStr.contains ">" s).

(** [s] holds no white space. *)
Fixpoint space_free (s : string) : bool :=
  match s with
  | EmptyString => true
  | String c s' => negb (PyStr.isspace c) && space_free s'
  end.

(** [schema.split("->")[0]] *)
Definition before_arrow (schema : string) : string :=
  hd "" (PyStr.split "->" schema).

(** The type token of an input contains ["Tensor"]. *)
Definition tensor_token (input : string) : bool :=
  PyStr.contains "Tensor" (type_token input).

(** The test of [get_device_arg_id] on an input. *)
Definition is_device_input (input : string) : bool :=
  String.eqb "Device device" (PyStr.strip input).

(** ** Signatures with plain names and defaults *)

(** The text of the default holds no separator (the texts of None, of
    a bool and of an int never do), and the text of a float or of a
    dtype holds no white space. *)
Definition plain_default (d : pyvalue) : bool :=
  match d with
  | DStr s => separator_free s
  | DFloat s | DDtype s => separator_free s && space_free s
  | _ => true
  end.

(** The name of [p] is not empty and holds no separator and no white
    space (as every identifier), and its default holds no separator. *)
Definition plain_param (p : Param) : bool :=
  negb (String.eqb (name p) "") && separator_free (name p) && space_free (name p)
  && plain_default (default p).

(** A schema type of the module's table: not empty, without white space
    and without separators. *)
Definition type_name (v : string) : bool :=
  negb (String.eqb v "") && space_free v && separator_free v.

(** The parameters before the first one named in mutates_args. *)
Fixpoint unmutated_prefix (m : list string) (ps : list Param) : list Param :=
  match ps with
  | [] => []
  | p :: ps' => if name_in (name p) m then [] else p :: unmutated_prefix m ps'
  end.

(** ** typing objects and the tables *)

(** The pairwise comparison of two argument lists, as [py_eqb] compares
    the arguments of tuples and of other aliases. *)
Fixpoint all2 (f : pytype -> pytype -> bool) (l r : list pytype) : bool :=
  match l, r with
  | [], [] => true
  | x :: l', y :: r' => f x y && all2 f l' r'
  | _, _ => false
  end.

(** [x] equals a member of [seen]. *)
Definition seen_in (seen : list pytype) (x : pytype) : bool :=
  existsb (fun y => py_eqb y x) seen.

(** [t] is a class or a bare alias: it has no arguments. *)
Definition is_atom (t : pytype) : Prop :=
  match t with
  | Union _ | Sequence _ | List _ | Tuple _ | Generic _ _ => False
  | _ => True
  end.

(** The value of [SUPPORTED_PARAM_TYPES] once the module is imported. *)
Definition param_table : dict := Eval vm_compute in SUPPORTED_PARAM_TYPES.

(** Tensor, Optional[Tensor], and the sequences and lists of these. *)
Definition tensor_annotations : list pytype :=
  [ Tensor; Optional Tensor; Sequence Tensor; List Tensor;
    Sequence (Optional Tensor); List (Optional Tensor) ].

(** ** Exceptions *)

(** The exceptions [infer_schema] raises: ValueError, AttributeError for
    the attribute [__origin__], AssertionError. *)
Definition expected_exception (e : exn) : Prop :=
  match e with
  | ValueError _ => True
  | AttributeError attr => attr = "__origin__"
  | AssertionError => True
  | KeyError | IndexError => False
  end.

(** The computation [c] raises nothing else. *)
Definition raises_expected {A} (c : M A) : Prop :=
  forall g e g', c g = (Raise e, g') -> expected_exception e.

(** ** Runs of [infer_schema] *)

Section Reasoning.

Context (rt : runtime).

(** What lines 56-58 make of the annotation [a] in state [g]: [a] itself,
    or for a string the object it evaluates to, with the state the
    evaluation leaves; [None] when the evaluation raises. *)
Definition resolve_st (a : pyobj) (g : module_state) : option (pyobj * module_state) :=
  match a with
  | PyStr s => match py_eval rt s g with (Some v, g') => Some (v, g') | (None, _) => None end
  | a => Some (a, g)
  end.

(** In state [g] the annotation [a] denotes [t]: it is [t] itself, or a
    string that evaluates to [t] and leaves the state as it was. *)
Definition denotes (g : module_state) (a t : pyobj) : Prop :=
  resolve_st a g = Some (t, g).

(** What an entry holds after the name: nothing without a default, [=]
    and the default's text for a supported default; [None] for a default
    that is rejected. *)
Definition default_suffix (d : pyvalue) : option string :=
  match d with
  | NoDefault => Some ""
  | DNone | DInt _ | DFloat _ | DBool _ => Some ("=" ++ str_value d)
  | DStr s => Some ("=" ++ PyStr.dquote ++ s ++ PyStr.dquote)
  | DDtype text => if PyStr.startswith "torch." text then Some ("=" ++ PyStr.drop 6 text) else None
  | DOther _ => None
  end.

(** The type an entry starts with: the schema type, or for a name listed
    in mutates_args the schema type with its first six characters
    replaced by the mutability marker. *)
Definition rendered_type (m : list string) (idx : nat) (p : Param) (ty : string) : string :=
  if name_in (name p) m then "Tensor(a" ++ PyStr.str_nat idx ++ "!)" ++ PyStr.drop 6 ty else ty.

(** [param.kind == inspect.Parameter.KEYWORD_ONLY] *)
Definition is_kwonly (p : Param) : bool := kind_eqb (kind p) KEYWORD_ONLY.

(** What is appended before the entry of [p]: ["*"] for the first
    keyword-only parameter. *)
Definition star_entry (p : Param) (l : locals) : list string :=
  if is_kwonly p && negb (saw_kwarg_only_arg l) then ["*"] else [].

(** The local variables once the entry [e] of [p] has been appended. *)
Definition after_param (p : Param) (l : locals) (e : string) : locals :=
  {| params := (params l ++ star_entry p l ++ [e])%list;
     seen_args := set_add (seen_args l) (name p);
     saw_kwarg_only_arg := saw_kwarg_only_arg l || is_kwonly p |}.

(** The entries a successful run of the loop appends: one per parameter,
    with ["*"] before the first keyword-only one. *)
Fixpoint insert_star (saw : bool) (ps : list Param) (es : list string) : list string :=
  match ps, es with
  | p :: ps', e :: es' =>
      if is_kwonly p && negb saw
      then "*" :: e :: insert_star true ps' es'
      else e :: insert_star saw ps' es'
  | _, _ => []
  end.

(** The entry of one parameter, as the loop appends it in state [g]. *)
Definition entry_in (m : list string) (idx : nat) (g g' : module_state)
    (p : Param) (e : string) : Prop :=
  supported_param p = true /\
  exists t ty dflt,
    resolve_st (annotation p) g = Some (t, g') /\
    dict_get (param_types g') t = Some ty /\
    (name_in (name p) m = true -> PyStr.startswith "Tensor" ty = true) /\
    default_suffix (default p) = Some dflt /\
    e = rendered_type m idx p ty ++ " " ++ name p ++ dflt.

(** [e] is the entry of the supported parameter [p]: its kind is
    POSITIONAL_OR_KEYWORD or KEYWORD_ONLY, its annotation denotes a key
    of SUPPORTED_PARAM_TYPES with schema type [ty], its default (if any)
    is supported, and [e] is [ty name] or [ty name=default]. *)
Definition entry_for (g : module_state) (p : Param) (e : string) : Prop :=
  supported_param p = true /\
  exists t ty dflt,
    denotes g (annotation p) t /\
    dict_get (param_types g) t = Some ty /\
    default_suffix (default p) = Some dflt /\
    e = ty ++ " " ++ name p ++ dflt.

(** A run of the loop that returns, with the states it goes through. *)
Inductive run (m : list string) : nat -> module_state -> list Param -> list string -> module_state -> Prop :=
| run_nil idx g : run m idx g [] [] g
| run_cons idx g p e g1 ps es g' :
    entry_in m idx g g1 p e ->
    run m (S idx) g1 ps es g' ->
    run m idx g (p :: ps) (e :: es) g'.

(** The local variables once the entries [es] of the parameters [ps] have
    been appended. *)
Definition locals_after (l : locals) (ps : list Param) (es : list string) : locals :=
  {| params := (params l ++ insert_star (saw_kwarg_only_arg l) ps es)%list;
     seen_args := fold_left set_add (map name ps) (seen_args l);
     saw_kwarg_only_arg := saw_kwarg_only_arg l || existsb is_kwonly ps |}.

(** The text [parse_return] renders for an annotation, [None] when it
    rejects it: ["()"] for [None]; for a tuple annotation the
    parenthesised, comma-joined names of its components when each is a
    key of the table; for any other annotation its name in the table. *)
Definition return_rendering (tbl : dict) (annotation : pyobj) : option string :=
  match annotation with
  | PyNone => Some "()"
  | _ =>
      if origin_is_tuple annotation then
        if forallb (fun c => dict_contains tbl (PyType c)) (get_args annotation)
        then Some ("(" ++ PyStr.join ", "
                     (map (fun c => match dict_get tbl (PyType c) with
                                    | Some v => v
                                    | None => ""
                                    end) (get_args annotation)) ++ ")")
        else None
      else dict_get tbl annotation
  end.

(** The exception [parse_return] raises through [error_fn]. *)
Definition return_error (sig : Signature) (annotation : pyobj) (tbl : dict) : exn :=
  ValueError ("infer_schema(func): "
              ++ ("Return has unsupported type " ++ str_object rt annotation ++ ". "
                  ++ "The valid types are: " ++ str_dict rt tbl ++ ".")
              ++ " " ++ "Got func with signature " ++ str_signature rt sig ++ ")").

(** [set(mutates_args) - seen_args] *)
Definition not_seen (m : list string) (l : locals) : list string :=
  set_diff (set_of m) (seen_args l).

(** The exception of lines 107-113. *)
Definition not_seen_error (sig : Signature) (m : list string) (l : locals) : exn :=
  ValueError ("infer_schema(func): "
              ++ (str_set rt (not_seen m l) ++ " in mutates_args were not found in "
                  ++ "the custom op's signature. "
                  ++ "mutates_args should contain the names of all args that the "
                  ++ "custom op mutates.")
              ++ " " ++ "Got func with signature " ++ str_signature rt sig ++ ")").

(** The computation [c] ends in the state it started in. *)
Definition state_kept {A} (c : M A) : Prop := forall g, snd (c g) = g.

(** Evaluating the string [s] changes nothing. *)
Definition eval_pure_at (s : string) : Prop := forall g, snd (py_eval rt s g) = g.

Definition annotation_pure (a : pyobj) : Prop :=
  match a with
  | PyStr s => eval_pure_at s
  | _ => True
  end.

(** Every string annotation of the signature evaluates without changing
    the interpreter's state. *)
Definition evals_purely (sig : Signature) : Prop :=
  Forall (fun p => annotation_pure (annotation p)) (parameters sig) /\
  annotation_pure (return_annotation sig).

(** The exception of lines 62-72, raised for a tuple annotation. *)
Definition tuple_error (sig : Signature) (p : Param) (t : pytype) (keys : dict) : exn :=
  ValueError
    ("infer_schema(func): "
     ++ ("Parameter " ++ name p ++ " has unsupported type "
         ++ str_object rt (annotation p) ++ ". "
         ++ "We do not support Tuple inputs in schema. As a workaround, please try to use List instead. "
         ++ (if dict_contains keys (PyType (tuple_to_list t))
             then "For example, " ++ str_object rt (PyType (tuple_to_list t)) ++ "."
                  ++ PyStr.nl ++ PyStr.nl
             else PyStr.nl ++ PyStr.nl)
         ++ "The valid types are: " ++ str_keys rt keys ++ ".")
     ++ " " ++ "Got func with signature " ++ str_signature rt sig ++ ")").

(** The exception of lines 81-84. *)
Definition mutable_error (sig : Signature) (p : Param) : exn :=
  ValueError
    ("infer_schema(func): "
     ++ ("Parameter " ++ name p
         ++ " is in mutable_args but only Tensors or collections of Tensors can be mutated")
     ++ " " ++ "Got func with signature " ++ str_signature rt sig ++ ")").

(** [e] is an entry for the parameter [p]: a type, a space, the
    parameter's name, and possibly a default. *)
Definition is_entry_of (p : Param) (e : string) : Prop :=
  exists ty tail, e = ty ++ " " ++ name p ++ tail.

(** The order of the kinds in [inspect]. *)
Definition kind_rank (k : param_kind) : nat :=
  match k with
  | POSITIONAL_ONLY => 0
  | POSITIONAL_OR_KEYWORD => 1
  | VAR_POSITIONAL => 2
  | KEYWORD_ONLY => 3
  | VAR_KEYWORD => 4
  end.

(** [inspect.Signature] keeps its parameters ordered by kind. *)
Definition kinds_ordered (ps : list Param) : Prop :=
  StronglySorted (fun a b => kind_rank (kind a) <= kind_rank (kind b)) ps.

(** The schema type of the parameter [p] in state [g]: what
    [SUPPORTED_PARAM_TYPES[annotation_type]] holds for its annotation,
    [None] when the annotation does not evaluate or is no key. *)
Definition schema_type_of (g : module_state) (p : Param) : option string :=
  match resolve_st (annotation p) g with
  | Some (t, g') => dict_get (param_types g') t
  | None => None
  end.

(** The entry the loop appends for the parameter [p] at index [idx],
    [None] when the loop raises at [p]. *)
Definition entry_of (m : list string) (g : module_state) (idx : nat) (p : Param)
    : option string :=
  if supported_param p then
    match schema_type_of g p, default_suffix (default p) with
    | Some ty, Some dflt =>
        if name_in (name p) m && negb (PyStr.startswith "Tensor" ty) then None
        else Some (rendered_type m idx p ty ++ " " ++ name p ++ dflt)
    | _, _ => None
    end
  else None.

Fixpoint entries_of (m : list string) (g : module_state) (idx : nat) (ps : list Param)
    : option (list string) :=
  match ps with
  | [] => Some []
  | p :: ps' =>
      match entry_of m g idx p, entries_of m g (S idx) ps' with
      | Some e, Some es => Some (e :: es)
      | _, _ => None
      end
  end.

(** The schema of a signature whose annotations evaluate without side
    effect, [None] when [infer_schema] raises. *)
Definition schema_of (sig : Signature) (m : list string) (g : module_state)
    : option string :=
  match entries_of m g 0 (parameters sig) with
  | Some es =>
      if forallb (fun n => name_in n (map name (parameters sig))) m then
        match resolve_st (return_annotation sig) g with
        | Some (r, _) =>
            match return_rendering (return_types g) r with
            | Some text =>
                Some ("(" ++ PyStr.join ", " (insert_star false (parameters sig) es)
                      ++ ") -> " ++ text)
            | None => None
            end
        | None => None
        end
      else None
  | None => None
  end.

(** [p] is rendered as ["Device device"]: its schema type is ["Device"],
    its name is [device] and it has no default. *)
Definition is_device_param (g : module_state) (p : Param) : bool :=
  match schema_type_of g p with
  | Some ty => String.eqb ty "Device"
  | None => false
  end
  && String.eqb (name p) "device"
  && match default p with NoDefault => true | _ => false end.

(** The index, among the entries of the schema, of the first parameter
    rendered as ["Device device"]; the entry ["*"] counts. *)
Fixpoint device_index (g : module_state) (saw : bool) (i : nat) (ps : list Param)
    : option nat :=
  match ps with
  | [] => None
  | p :: ps' =>
      let i := if is_kwonly p && negb saw then S i else i in
      if is_device_param g p then Some i
      else device_index g (saw || is_kwonly p) (S i) ps'
  end.

(** The schema type of [p] mentions Tensor. *)
Definition has_tensor_type (g : module_state) (p : Param) : bool :=
  match schema_type_of g p with
  | Some ty => PyStr.contains "Tensor" ty
  | None => false
  end.

(** The message [error_fn] builds from [what]. *)
Definition error_text (sig : Signature) (what : string) : string :=
  "infer_schema(func): " ++ what ++ " "
  ++ "Got func with signature " ++ str_signature rt sig ++ ")".

(** A ValueError's message starts with ["infer_schema(func): "] and ends
    with ["Got func with signature "], the signature's text and [")"]. *)
Definition formatted (sig : Signature) (e : exn) : Prop :=
  match e with
  | ValueError msg =>
      exists what,
        msg = "infer_schema(func): " ++ what ++ " "
              ++ "Got func with signature " ++ str_signature rt sig ++ ")"
  | _ => True
  end.

Definition raises_formatted (sig : Signature) {A} (c : M A) : Prop :=
  forall g e g', c g = (Raise e, g') -> formatted sig e.

(** * Lemmas *)

Lemma bind_returns {A B} (m : M A) (k : A -> M B) g b g' :
  bind m k g = (Return b, g') <->
  exists a g1, m g = (Return a, g1) /\ k a g1 = (Return b, g').
Proof.
  unfold bind. split.
  - destruct (m g) as [[a|e] g1]; intros H; [eauto | discriminate].
  - intros (a & g1 & H1 & H2). rewrite H1. exact H2.
Qed.

Lemma bind_raises {A B} (m : M A) (k : A -> M B) g e g' :
  bind m k g = (Raise e, g') <->
  m g = (Raise e, g') \/ exists a g1, m g = (Return a, g1) /\ k a g1 = (Raise e, g').
Proof.
  unfold bind. split.
  - destruct (m g) as [[a|e0] g1]; intros H; [right; eauto | left; congruence].
  - intros [H | (a & g1 & H1 & H2)]; rewrite ?H; [reflexivity|]. rewrite H1. exact H2.
Qed.

Lemma dict_contains_get d k : dict_contains d k = true <-> exists v, dict_get d k = Some v.
Proof.
  unfold dict_contains, dict_get. induction d as [|[k' v'] d IH]; simpl.
  - split; [discriminate | intros [v H]; discriminate].
  - destruct (key_matches k (k', v')); simpl.
    + split; eauto.
    + exact IH.
Qed.

Lemma dict_contains_false d k : dict_contains d k = false <-> dict_get d k = None.
Proof.
  destruct (dict_contains d k) eqn:E.
  - apply dict_contains_get in E as [v Hv]. rewrite Hv. split; discriminate.
  - split; [|reflexivity]. intros _. destruct (dict_get d k) eqn:G; [|reflexivity].
    assert (dict_contains d k = true) by (apply dict_contains_get; eauto). congruence.
Qed.

Lemma dict_get_not_type d k : (forall t, k <> PyType t) -> dict_get d k = None.
Proof.
  intros Hk. unfold dict_get. induction d as [|e d IH]; [reflexivity|].
  cbn [find]. destruct k; try exact IH. exfalso; eapply Hk; reflexivity.
Qed.

Lemma append_empty_r s : s ++ "" = s.
Proof. induction s; simpl; congruence. Qed.

Lemma ret_returns {A} (a b : A) g g' : ret a g = (Return b, g') <-> b = a /\ g' = g.
Proof. unfold ret. split; [intros H; inversion H; auto | intros [-> ->]; reflexivity]. Qed.

Lemma gets_returns {A} (f : module_state -> A) a g g' :
  gets f g = (Return a, g') <-> a = f g /\ g' = g.
Proof. unfold gets. split; [intros H; inversion H; auto | intros [-> ->]; reflexivity]. Qed.

Lemma error_fn_raises sig what g :
  error_fn rt sig what g =
  (Raise (ValueError ("infer_schema(func): " ++ what ++ " " ++ "Got func with signature "
                      ++ str_signature rt sig ++ ")")), g).
Proof. reflexivity. Qed.

Lemma when_returns b (c : M unit) u g g' :
  when b c g = (Return u, g') <->
  (b = false /\ g' = g) \/ (b = true /\ c g = (Return u, g')).
Proof.
  unfold when. destruct b.
  - split; [auto | intros [[? _] | [_ ?]]; [discriminate | assumption]].
  - unfold ret. destruct u.
    split; [intros H; inversion H; auto | intros [[_ ->] | [? _]]; [reflexivity | discriminate]].
Qed.

Lemma when_error_returns b sig what u g g' :
  when b (error_fn rt sig what) g = (Return u, g') <-> b = false /\ g' = g.
Proof.
  rewrite when_returns. rewrite error_fn_raises.
  split; [intros [H | [_ H]]; [exact H | discriminate] | auto].
Qed.

Lemma getitem_returns d k v g g' :
  getitem d k g = (Return v, g') <-> dict_get d k = Some v /\ g' = g.
Proof.
  unfold getitem. destruct (dict_get d k) as [v0|]; unfold ret, raise.
  - split; [intros H; inversion H; auto | intros [H ->]; inversion H; reflexivity].
  - split; [discriminate | intros [? _]; discriminate].
Qed.

Lemma convert_type_string_returns sig s v g g' :
  convert_type_string rt sig s g = (Return v, g') <-> py_eval rt s g = (Some v, g').
Proof.
  unfold convert_type_string. destruct (py_eval rt s g) as [[v0|] g0].
  - split; intros H; inversion H; reflexivity.
  - unfold bind. rewrite error_fn_raises. split; discriminate.
Qed.

Lemma render_default_returns sig p r g g' :
  default p <> NoDefault ->
  render_default rt sig p g = (Return r, g') <->
  default_suffix (default p) = Some ("=" ++ r) /\ g' = g.
Proof.
  intros Hd. unfold render_default, default_suffix.
  destruct (default p) as [| |b|z|text|s|text|ty]; try congruence;
    try (rewrite ret_returns; split; [intros [-> ->]; auto | intros [H ->]; inversion H; auto]).
  - unfold bind. destruct (PyStr.startswith "torch." text).
    + unfold ret. split; [intros H; inversion H; auto | intros [H ->]; inversion H; auto].
    + unfold raise. split; [discriminate | intros [? _]; discriminate].
  - unfold bind. rewrite error_fn_raises. split; [discriminate | intros [? _]; discriminate].
Qed.

Lemma resolve_annotation_returns sig a v g g' :
  resolve_annotation rt sig a g = (Return v, g') <-> resolve_st a g = Some (v, g').
Proof.
  unfold resolve_annotation, resolve_st. destruct a as [| |s|t].
  - rewrite ret_returns. split; [intros [-> ->]; auto | intros H; inversion H; auto].
  - rewrite ret_returns. split; [intros [-> ->]; auto | intros H; inversion H; auto].
  - rewrite convert_type_string_returns. destruct (py_eval rt s g) as [[v0|] g0];
      split; intros H; inversion H; auto.
  - rewrite ret_returns. split; [intros [-> ->]; auto | intros H; inversion H; auto].
Qed.

Lemma unsupported_type_never_returns sig p a u g g' :
  unsupported_type rt sig p a g <> (Return u, g').
Proof.
  unfold unsupported_type.
  destruct (origin_attr a) as [[|]|]; unfold bind, gets, raise; cbv zeta; rewrite ?error_fn_raises; discriminate.
Qed.

Ltac finish_locals :=
  unfold after_param, star_entry, is_kwonly;
  match goal with l : locals |- _ => destruct l as [? ? []] end;
  cbn [params seen_args saw_kwarg_only_arg];
  match goal with p : Param |- _ => destruct (kind_eqb (kind p) KEYWORD_ONLY) end;
  cbn [negb andb orb app params seen_args saw_kwarg_only_arg];
  rewrite <- ?app_assoc; cbn [app]; reflexivity.

Lemma loop_body_returns sig m idx p l g l' g' :
  loop_body rt sig m idx p l g = (Return l', g') <->
  supported_param p = true /\
  exists t ty dflt,
    resolve_st (annotation p) g = Some (t, g') /\
    dict_get (param_types g') t = Some ty /\
    (name_in (name p) m = true -> PyStr.startswith "Tensor" ty = true) /\
    default_suffix (default p) = Some dflt /\
    l' = after_param p l (rendered_type m idx p ty ++ " " ++ name p ++ dflt).
Proof.
  unfold loop_body. cbv zeta.
  split.
  - intros H.
    apply bind_returns in H as (u1 & g1 & H1 & H).
    apply when_error_returns in H1 as [Hs ->]. apply negb_false_iff in Hs.
    split; [exact Hs|].
    apply bind_returns in H as (u2 & g2 & H2 & H).
    apply when_error_returns in H2 as [He ->].
    apply bind_returns in H as (t & g3 & H3 & H).
    apply resolve_annotation_returns in H3.
    apply bind_returns in H as (keys & g4 & H4 & H).
    apply gets_returns in H4 as [-> ->].
    apply bind_returns in H as (u5 & g5 & H5 & H).
    apply when_returns in H5 as [[Hc ->] | [_ Hbad]];
      [| exfalso; revert Hbad; apply unsupported_type_never_returns].
    apply bind_returns in H as (tbl & g6 & H6 & H).
    apply gets_returns in H6 as [-> ->].
    apply bind_returns in H as (ty & g7 & H7 & H).
    apply getitem_returns in H7 as [Hty ->].
    apply bind_returns in H as (ty' & g8 & H8 & H).
    exists t, ty.
    assert (Hm : (name_in (name p) m = true -> PyStr.startswith "Tensor" ty = true)
                 /\ ty' = rendered_type m idx p ty /\ g8 = g3).
    { unfold rendered_type. destruct (name_in (name p) m).
      - apply bind_returns in H8 as (u & g9 & H9 & H8).
        apply when_error_returns in H9 as [Hst ->]. apply negb_false_iff in Hst.
        apply ret_returns in H8 as [-> ->]. auto.
      - apply ret_returns in H8 as [-> ->]. split; [discriminate | auto]. }
    destruct Hm as (Hm & -> & ->).
    destruct (default p) eqn:Hd.
    1: { apply ret_returns in H as [-> ->]. exists "".
         repeat split; auto. rewrite append_empty_r. finish_locals. }
    all: apply bind_returns in H as (r & g9 & H9 & H);
         apply render_default_returns in H9 as [Hr ->]; [|congruence];
         apply ret_returns in H as [-> ->]; rewrite Hd in Hr; exists ("=" ++ r);
         (repeat split; auto); finish_locals.
  - intros (Hs & t & ty & dflt & Hr & Hty & Hm & Hd & ->).
    assert (Hne : annotation p <> Empty).
    { intros E. rewrite E in Hr. cbn in Hr. inversion Hr; subst.
      rewrite dict_get_not_type in Hty; [discriminate | intros ? ?; discriminate]. }
    apply bind_returns. exists tt, g. split.
    { apply when_error_returns. rewrite Hs. auto. }
    apply bind_returns. exists tt, g. split.
    { apply when_error_returns. split; [|reflexivity]. destruct (annotation p); congruence. }
    apply bind_returns. exists t, g'. split.
    { apply resolve_annotation_returns; assumption. }
    apply bind_returns. exists (param_types g'), g'. split.
    { apply gets_returns; auto. }
    apply bind_returns. exists tt, g'. split.
    { apply when_returns. left. split; [|reflexivity].
      apply negb_false_iff, dict_contains_get. eauto. }
    apply bind_returns. exists (param_types g'), g'. split.
    { apply gets_returns; auto. }
    apply bind_returns. exists ty, g'. split.
    { apply getitem_returns; auto. }
    apply bind_returns. exists (rendered_type m idx p ty), g'. split.
    { unfold rendered_type. destruct (name_in (name p) m).
      - apply bind_returns. exists tt, g'. split.
        + apply when_error_returns. rewrite Hm by reflexivity. auto.
        + apply ret_returns. auto.
      - apply ret_returns. auto. }
    destruct (default p) eqn:Hdp.
    1: { apply ret_returns. split; [|reflexivity]. cbn [default_suffix] in Hd. inversion Hd; subst.
         rewrite append_empty_r. finish_locals. }
    all: assert (Hx : exists r, dflt = "=" ++ r) by
           (cbn [default_suffix] in Hd; try discriminate;
            try (destruct (PyStr.startswith "torch." text); try discriminate);
            injection Hd as <-; eexists; reflexivity);
         destruct Hx as [r ->];
         apply bind_returns; exists r, g'; split;
         [ apply render_default_returns; [congruence | rewrite Hdp; auto]
         | apply ret_returns; split; [|reflexivity]; finish_locals ].
Qed.

(** *** The loop *)

Lemma bind_step {A B} (c : M A) (k : A -> M B) g a g1 :
  c g = (Return a, g1) -> bind c k g = k a g1.
Proof. unfold bind. intros ->. reflexivity. Qed.

Lemma bind_abort {A B} (c : M A) (k : A -> M B) g e g1 :
  c g = (Raise e, g1) -> bind c k g = (Raise e, g1).
Proof. unfold bind. intros ->. reflexivity. Qed.

Lemma loop_app sig m idx pre post l g l1 g1 :
  loop rt sig m idx pre l g = (Return l1, g1) ->
  loop rt sig m idx (pre ++ post) l g = loop rt sig m (idx + List.length pre) post l1 g1.
Proof.
  revert idx l g. induction pre as [|p pre IH]; intros idx l g H; cbn [loop app List.length] in *.
  - apply ret_returns in H as [-> ->]. rewrite Nat.add_0_r. reflexivity.
  - apply bind_returns in H as (l2 & g2 & H2 & H).
    rewrite (bind_step _ _ _ _ _ H2). rewrite (IH _ _ _ H).
    rewrite Nat.add_succ_r. reflexivity.
Qed.

Lemma loop_cons_raises sig m idx p post l g e g1 :
  loop_body rt sig m idx p l g = (Raise e, g1) ->
  loop rt sig m idx (p :: post) l g = (Raise e, g1).
Proof. intros H. cbn [loop]. apply bind_abort. exact H. Qed.

Lemma loop_body_returns' sig m idx p l g l' g' :
  loop_body rt sig m idx p l g = (Return l', g') <->
  exists e, entry_in m idx g g' p e /\ l' = after_param p l e.
Proof.
  rewrite loop_body_returns. unfold entry_in. split.
  - intros (Hs & t & ty & d & H1 & H2 & H3 & H4 & ->). eexists. split; [|reflexivity].
    split; [exact Hs|]. exists t, ty, d. auto.
  - intros (e & (Hs & t & ty & d & H1 & H2 & H3 & H4 & ->) & ->).
    split; [exact Hs|]. exists t, ty, d. auto.
Qed.

Lemma loop_returns sig m idx ps l g l' g' :
  loop rt sig m idx ps l g = (Return l', g') <->
  exists es, run m idx g ps es g' /\ l' = locals_after l ps es.
Proof.
  revert idx l g. induction ps as [|p ps IH]; intros idx l g; cbn [loop].
  - rewrite ret_returns. split.
    + intros [-> ->]. exists []. split; [constructor|].
      unfold locals_after. cbn. rewrite app_nil_r, orb_false_r. destruct l; reflexivity.
    + intros (es & Hrun & ->). inversion Hrun; subst. split; [|reflexivity].
      unfold locals_after. cbn. rewrite app_nil_r, orb_false_r. destruct l; reflexivity.
  - rewrite bind_returns. split.
    + intros (l1 & g1 & H1 & H2). apply loop_body_returns' in H1 as (e & He & ->).
      apply IH in H2 as (es & Hrun & ->). exists (e :: es). split; [econstructor; eauto|].
      unfold locals_after, after_param, star_entry. cbn [params seen_args saw_kwarg_only_arg insert_star map fold_left existsb].
      destruct (is_kwonly p), (saw_kwarg_only_arg l); cbn [andb negb orb app];
        rewrite <- ?app_assoc; reflexivity.
    + intros (es & Hrun & ->). inversion Hrun; subst.
      exists (after_param p l e), g1. split.
      * apply loop_body_returns'. eauto.
      * apply IH. eexists. split; [eassumption|].
        unfold locals_after, after_param, star_entry. cbn [params seen_args saw_kwarg_only_arg insert_star map fold_left existsb].
        destruct (is_kwonly p), (saw_kwarg_only_arg l); cbn [andb negb orb app];
          rewrite <- ?app_assoc; reflexivity.
Qed.

(** *** parse_return *)

Lemma check_components sig annotation args g :
  for_each
    (fun arg =>
       bind (gets return_types) (fun tbl =>
       when (negb (dict_contains tbl (PyType arg)))
         (bind (gets return_types) (fun tbl =>
          error_fn rt sig ("Return has unsupported type " ++ str_object rt annotation ++ ". "
                           ++ "The valid types are: " ++ str_dict rt tbl ++ ".")))))
    args g =
  if forallb (fun c => dict_contains (return_types g) (PyType c)) args
  then (Return tt, g)
  else (Raise (return_error sig annotation (return_types g)), g).
Proof.
  induction args as [|c args IH]; [reflexivity|].
  cbn [for_each forallb]. unfold bind at 1. unfold bind at 1. unfold gets at 1.
  destruct (dict_contains (return_types g) (PyType c)); cbn [negb when andb].
  - unfold ret at 1. exact IH.
  - reflexivity.
Qed.

Lemma collect_components args g :
  forallb (fun c => dict_contains (return_types g) (PyType c)) args = true ->
  map_m (fun arg => bind (gets return_types) (fun tbl => getitem tbl (PyType arg))) args g =
  (Return (map (fun c => match dict_get (return_types g) (PyType c) with
                         | Some v => v
                         | None => ""
                         end) args), g).
Proof.
  induction args as [|c args IH]; [reflexivity|].
  cbn [forallb map_m map]. intros H. apply andb_true_iff in H as [Hc Hrest].
  apply dict_contains_get in Hc as [v Hv].
  unfold bind at 1. unfold bind at 1. unfold gets at 1. unfold getitem at 1. rewrite Hv.
  unfold ret at 1. unfold bind at 1. rewrite (IH Hrest). reflexivity.
Qed.

Lemma parse_return_eq sig annotation g :
  parse_return rt annotation (error_fn rt sig) g =
  (match return_rendering (return_types g) annotation with
   | Some text => Return text
   | None => Raise (return_error sig annotation (return_types g))
   end, g).
Proof.
  assert (Hgen : annotation <> PyNone ->
    (if negb (origin_is_tuple annotation) then
        bind (gets return_types) (fun keys =>
        bind (when (negb (dict_contains keys annotation))
          (bind (gets return_types) (fun tbl =>
           error_fn rt sig ("Return has unsupported type " ++ str_object rt annotation ++ ". "
                     ++ "The valid types are: " ++ str_dict rt tbl ++ ".")))) (fun _ =>
        bind (gets return_types) (fun tbl =>
        getitem tbl annotation)))
      else
        let args := get_args annotation in
        bind (for_each
          (fun arg =>
             bind (gets return_types) (fun tbl =>
             when (negb (dict_contains tbl (PyType arg)))
               (bind (gets return_types) (fun tbl =>
                error_fn rt sig ("Return has unsupported type " ++ str_object rt annotation ++ ". "
                          ++ "The valid types are: " ++ str_dict rt tbl ++ ".")))))
          args) (fun _ =>
        bind (map_m (fun arg => bind (gets return_types) (fun tbl => getitem tbl (PyType arg))) args) (fun items =>
        ret ("(" ++ PyStr.join ", " items ++ ")")))) g =
    (match return_rendering (return_types g) annotation with
     | Some text => Return text
     | None => Raise (return_error sig annotation (return_types g))
     end, g)).
  { intros Hne.
    assert (Hr : return_rendering (return_types g) annotation =
                 if origin_is_tuple annotation then
                   if forallb (fun c => dict_contains (return_types g) (PyType c)) (get_args annotation)
                   then Some ("(" ++ PyStr.join ", "
                     (map (fun c => match dict_get (return_types g) (PyType c) with
                                    | Some v => v
                                    | None => ""
                                    end) (get_args annotation)) ++ ")")
                   else None
                 else dict_get (return_types g) annotation).
    { unfold return_rendering. destruct annotation; try reflexivity. congruence. }
    rewrite Hr. clear Hr.
    destruct (origin_is_tuple annotation); cbn [negb].
    - cbv zeta. unfold bind at 1. rewrite check_components.
      destruct (forallb _ (get_args annotation)) eqn:Hall; [|reflexivity].
      unfold bind at 1. rewrite (collect_components _ _ Hall). reflexivity.
    - unfold bind at 1. unfold gets at 1. unfold bind at 1.
      destruct (dict_contains (return_types g) annotation) eqn:Hc; cbn [negb when].
      + unfold ret at 1. unfold bind, gets, getitem.
        apply dict_contains_get in Hc as [v Hv]. rewrite Hv. reflexivity.
      + apply dict_contains_false in Hc. rewrite Hc. reflexivity. }
  destruct annotation; try (apply Hgen; discriminate). reflexivity.
Qed.

(** *** infer_schema *)

Lemma infer_schema_loop_raises sig m g e g1 :
  loop rt sig m 0 (parameters sig) initial_locals g = (Raise e, g1) ->
  infer_schema rt sig m g = (Raise e, g1).
Proof. intros H. unfold infer_schema. apply bind_abort. exact H. Qed.

Lemma infer_schema_after_loop sig m g l g1 :
  loop rt sig m 0 (parameters sig) initial_locals g = (Return l, g1) ->
  infer_schema rt sig m g =
  match not_seen m l with
  | [] =>
      match resolve_annotation rt sig (return_annotation sig) g1 with
      | (Return r, g2) =>
          (match return_rendering (return_types g2) r with
           | Some text => Return ("(" ++ PyStr.join ", " (params l) ++ ") -> " ++ text)
           | None => Raise (return_error sig r (return_types g2))
           end, g2)
      | (Raise e, g2) => (Raise e, g2)
      end
  | _ :: _ => (Raise (not_seen_error sig m l), g1)
  end.
Proof.
  intros H. unfold infer_schema. rewrite (bind_step _ _ _ _ _ H). cbv zeta.
  fold (not_seen m l). unfold bind at 1.
  destruct (not_seen m l) as [|x xs] eqn:Hn; cbn [List.length Nat.ltb Nat.leb when].
  - unfold ret at 1. unfold bind at 1.
    destruct (resolve_annotation rt sig (return_annotation sig) g1) as [[r|e] g2]; [|reflexivity].
    unfold bind at 1. rewrite parse_return_eq.
    destruct (return_rendering (return_types g2) r); reflexivity.
  - unfold not_seen_error. rewrite Hn. reflexivity.
Qed.

Lemma infer_schema_returns sig m g s g' :
  infer_schema rt sig m g = (Return s, g') <->
  exists l g1 r text,
    loop rt sig m 0 (parameters sig) initial_locals g = (Return l, g1) /\
    not_seen m l = [] /\
    resolve_st (return_annotation sig) g1 = Some (r, g') /\
    return_rendering (return_types g') r = Some text /\
    s = "(" ++ PyStr.join ", " (params l) ++ ") -> " ++ text.
Proof.
  split.
  - intros H.
    destruct (loop rt sig m 0 (parameters sig) initial_locals g) as [[l|e] g1] eqn:Hl.
    + rewrite (infer_schema_after_loop _ _ _ _ _ Hl) in H.
      destruct (not_seen m l) eqn:Hn; [|discriminate].
      destruct (resolve_annotation rt sig (return_annotation sig) g1) as [[r|e] g2] eqn:Hr;
        [|discriminate].
      apply resolve_annotation_returns in Hr.
      destruct (return_rendering (return_types g2) r) as [text|] eqn:Ht; [|discriminate].
      inversion H; subst. exists l, g1, r, text. auto.
    + rewrite (infer_schema_loop_raises _ _ _ _ _ Hl) in H. discriminate.
  - intros (l & g1 & r & text & Hl & Hn & Hr & Ht & ->).
    rewrite (infer_schema_after_loop _ _ _ _ _ Hl), Hn.
    apply (resolve_annotation_returns sig) in Hr. rewrite Hr, Ht. reflexivity.
Qed.

(** *** Computations that leave the state alone *)

Lemma kept_ret {A} (a : A) : state_kept (ret a).
Proof. intros g. reflexivity. Qed.

Lemma kept_raise {A} e : state_kept (@raise A e).
Proof. intros g. reflexivity. Qed.

Lemma kept_gets {A} (f : module_state -> A) : state_kept (gets f).
Proof. intros g. reflexivity. Qed.

Lemma kept_bind {A B} (c : M A) (k : A -> M B) :
  state_kept c -> (forall a, state_kept (k a)) -> state_kept (bind c k).
Proof.
  intros Hc Hk g. unfold bind. specialize (Hc g).
  destruct (c g) as [[a|e] g1]; cbn [snd] in *; subst; [apply Hk | reflexivity].
Qed.

Lemma kept_when b (c : M unit) : state_kept c -> state_kept (when b c).
Proof. intros Hc. destruct b; [exact Hc | apply kept_ret]. Qed.

Lemma kept_error_fn sig what : state_kept (error_fn rt sig what).
Proof. apply kept_raise. Qed.

Lemma kept_getitem d k : state_kept (getitem d k).
Proof. unfold getitem. destruct (dict_get d k); [apply kept_ret | apply kept_raise]. Qed.

Lemma kept_for_each {A} (body : A -> M unit) l :
  (forall a, state_kept (body a)) -> state_kept (for_each body l).
Proof.
  intros Hb. induction l as [|a l IH]; cbn [for_each]; [apply kept_ret|].
  apply kept_bind; auto.
Qed.

Lemma kept_map_m {A B} (f : A -> M B) l :
  (forall a, state_kept (f a)) -> state_kept (map_m f l).
Proof.
  intros Hf. induction l as [|a l IH]; cbn [map_m]; [apply kept_ret|].
  apply kept_bind; [auto|]. intros b. apply kept_bind; [auto|]. intros bs. apply kept_ret.
Qed.

Create HintDb kept.
#[local] Hint Resolve kept_ret kept_raise kept_gets kept_when kept_error_fn kept_getitem : kept.

Lemma kept_parse_return sig annotation :
  state_kept (parse_return rt annotation (error_fn rt sig)).
Proof. intros g. rewrite parse_return_eq. reflexivity. Qed.

Lemma kept_render_default sig p : state_kept (render_default rt sig p).
Proof.
  unfold render_default.
  destruct (default p) as [| |b|z|text|s|text|ty]; auto with kept.
  - apply kept_bind; auto with kept.
  - apply kept_bind; [|auto with kept].
    destruct (PyStr.startswith "torch." text); auto with kept.
  - apply kept_bind; auto with kept.
Qed.

Lemma kept_unsupported_type sig p a : state_kept (unsupported_type rt sig p a).
Proof.
  unfold unsupported_type. destruct (origin_attr a) as [[|]|]; cbv zeta; auto with kept.
  - apply kept_bind; [auto with kept|]. intros keys.
    apply kept_bind; auto with kept.
  - apply kept_bind; auto with kept.
Qed.

Lemma kept_resolve_annotation sig a :
  annotation_pure a -> state_kept (resolve_annotation rt sig a).
Proof.
  intros Ha. unfold resolve_annotation. destruct a; auto with kept.
  intros g. unfold convert_type_string. specialize (Ha g).
  destruct (py_eval rt s g) as [[v|] g1]; cbn [snd] in *; subst; reflexivity.
Qed.

Lemma kept_loop_body sig m idx p l :
  annotation_pure (annotation p) -> state_kept (loop_body rt sig m idx p l).
Proof.
  intros Ha. unfold loop_body. cbv zeta.
  apply kept_bind; [auto with kept|]. intros _.
  apply kept_bind; [auto with kept|]. intros _.
  apply kept_bind; [apply kept_resolve_annotation; exact Ha|]. intros t.
  apply kept_bind; [auto with kept|]. intros keys.
  apply kept_bind; [apply kept_when, kept_unsupported_type|]. intros _.
  apply kept_bind; [auto with kept|]. intros tbl.
  apply kept_bind; [auto with kept|]. intros ty.
  apply kept_bind.
  { destruct (name_in (name p) m); [|auto with kept].
    apply kept_bind; auto with kept. }
  intros ty'. destruct (default p); auto with kept;
    (apply kept_bind; [apply kept_render_default | auto with kept]).
Qed.

Lemma kept_loop sig m ps : forall idx l,
  Forall (fun p => annotation_pure (annotation p)) ps ->
  state_kept (loop rt sig m idx ps l).
Proof.
  induction ps as [|p ps IH]; intros idx l Hps; cbn [loop]; [apply kept_ret|].
  inversion Hps; subst. apply kept_bind; [apply kept_loop_body; assumption|].
  intros l1. apply IH. assumption.
Qed.

Lemma kept_infer_schema sig m : evals_purely sig -> state_kept (infer_schema rt sig m).
Proof.
  intros [Hps Hr]. unfold infer_schema.
  apply kept_bind; [apply kept_loop; exact Hps|]. intros l. cbv zeta.
  apply kept_bind; [auto with kept|]. intros _.
  apply kept_bind; [apply kept_resolve_annotation; exact Hr|]. intros r.
  apply kept_bind; [apply kept_parse_return|]. intros text. apply kept_ret.
Qed.

(** *** Rejections inside the loop *)

Lemma when_skip b (c : M unit) g : b = false -> when b c g = (Return tt, g).
Proof. intros ->. reflexivity. Qed.

Lemma resolve_st_not_empty a g t g1 d v :
  resolve_st a g = Some (t, g1) -> dict_get d t = Some v -> a <> Empty.
Proof.
  intros Hr Hd E. subst a. cbn in Hr. inversion Hr; subst.
  rewrite dict_get_not_type in Hd; [discriminate | intros ? ?; discriminate].
Qed.

Lemma loop_body_tuple sig m idx p l g t g1 :
  supported_param p = true ->
  resolve_st (annotation p) g = Some (PyType t, g1) ->
  type_origin t = Some OriginTuple ->
  dict_contains (param_types g1) (PyType t) = false ->
  loop_body rt sig m idx p l g = (Raise (tuple_error sig p t (param_types g1)), g1).
Proof.
  intros Hs Hr Ho Hc.
  assert (Hne : annotation p <> Empty).
  { intros E. rewrite E in Hr. discriminate. }
  unfold loop_body. cbv zeta.
  rewrite (bind_step _ _ g tt g) by (apply when_skip; rewrite Hs; reflexivity).
  rewrite (bind_step _ _ g tt g) by (apply when_skip; destruct (annotation p); congruence).
  apply (resolve_annotation_returns sig) in Hr.
  rewrite (bind_step _ _ _ _ _ Hr).
  rewrite (bind_step _ _ g1 (param_types g1) g1) by reflexivity.
  apply bind_abort. rewrite Hc. cbn [negb when].
  unfold unsupported_type. cbn [origin_attr]. rewrite Ho. cbv zeta.
  unfold bind, gets. rewrite error_fn_raises. unfold tuple_error.
  destruct (dict_contains (param_types g1) (PyType (tuple_to_list t))); reflexivity.
Qed.

Lemma loop_body_mutable sig m idx p l g t g1 ty :
  supported_param p = true ->
  resolve_st (annotation p) g = Some (t, g1) ->
  dict_get (param_types g1) t = Some ty ->
  name_in (name p) m = true ->
  PyStr.startswith "Tensor" ty = false ->
  loop_body rt sig m idx p l g = (Raise (mutable_error sig p), g1).
Proof.
  intros Hs Hr Hty Hm Hst.
  pose proof (resolve_st_not_empty _ _ _ _ _ _ Hr Hty) as Hne.
  unfold loop_body. cbv zeta.
  rewrite (bind_step _ _ g tt g) by (apply when_skip; rewrite Hs; reflexivity).
  rewrite (bind_step _ _ g tt g) by (apply when_skip; destruct (annotation p); congruence).
  apply (resolve_annotation_returns sig) in Hr.
  rewrite (bind_step _ _ _ _ _ Hr).
  rewrite (bind_step _ _ g1 (param_types g1) g1) by reflexivity.
  rewrite (bind_step _ _ g1 tt g1)
    by (apply when_skip, negb_false_iff, dict_contains_get; eauto).
  rewrite (bind_step _ _ g1 (param_types g1) g1) by reflexivity.
  rewrite (bind_step _ _ g1 ty g1) by (apply getitem_returns; auto).
  apply bind_abort. rewrite Hm. apply bind_abort. rewrite Hst. reflexivity.
Qed.

Lemma infer_schema_raises_at sig m g pre p post l1 g1 e g2 :
  parameters sig = (pre ++ p :: post)%list ->
  loop rt sig m 0 pre initial_locals g = (Return l1, g1) ->
  loop_body rt sig m (List.length pre) p l1 g1 = (Raise e, g2) ->
  infer_schema rt sig m g = (Raise e, g2).
Proof.
  intros Hps Hpre Hbody. apply infer_schema_loop_raises.
  rewrite Hps, (loop_app _ _ _ _ _ _ _ _ _ Hpre). cbn [Nat.add].
  apply loop_cons_raises. exact Hbody.
Qed.

(** *** The entries and the place of ["*"] *)

Lemma entry_not_star p e : is_entry_of p e -> e <> "*".
Proof.
  intros (ty & tail & ->) H. destruct ty as [|c ty]; cbn in H; [discriminate|].
  injection H as _ H. destruct ty; discriminate.
Qed.

Lemma entry_in_is_entry m idx g g' p e : entry_in m idx g g' p e -> is_entry_of p e.
Proof. intros (_ & t & ty & d & _ & _ & _ & _ & ->). eexists _, _. reflexivity. Qed.

Lemma entry_in_supported m idx g g' p e : entry_in m idx g g' p e -> supported_param p = true.
Proof. intros [H _]. exact H. Qed.

Lemma run_entries m idx g ps es g' :
  run m idx g ps es g' ->
  Forall2 is_entry_of ps es /\ Forall (fun p => supported_param p = true) ps.
Proof.
  induction 1 as [|idx g p e g1 ps es g' He _ [IH1 IH2]]; [split; constructor|].
  split; constructor; eauto using entry_in_is_entry, entry_in_supported.
Qed.

Lemma insert_star_seen ps es :
  Forall2 is_entry_of ps es -> insert_star true ps es = es.
Proof.
  induction 1 as [|p e ps es _ _ IH]; [reflexivity|].
  cbn [insert_star negb]. rewrite andb_false_r, IH. reflexivity.
Qed.

Lemma insert_star_none saw ps es :
  Forall2 is_entry_of ps es -> existsb is_kwonly ps = false -> insert_star saw ps es = es.
Proof.
  induction 1 as [|p e ps es _ _ IH]; [reflexivity|].
  cbn [insert_star existsb]. intros H. apply orb_false_iff in H as [Hp Hps].
  rewrite Hp, (IH Hps). reflexivity.
Qed.

Lemma insert_star_first pre p post es :
  Forall2 is_entry_of (pre ++ p :: post) es ->
  existsb is_kwonly pre = false ->
  is_kwonly p = true ->
  exists es_pre es_rest,
    es = (es_pre ++ es_rest)%list /\
    Forall2 is_entry_of pre es_pre /\
    Forall2 is_entry_of (p :: post) es_rest /\
    insert_star false (pre ++ p :: post) es = (es_pre ++ "*" :: es_rest)%list.
Proof.
  intros H Hpre Hp. apply Forall2_app_inv_l in H as (es_pre & es_rest & H1 & H2 & ->).
  exists es_pre, es_rest. repeat split; auto.
  clear -H1 H2 Hpre Hp. induction H1 as [|q e pre es_pre Hq _ IH]; cbn [app].
  - inversion H2 as [|? e ? es_post He Hpost]; subst. cbn [insert_star negb].
    rewrite Hp. cbn [andb]. rewrite (insert_star_seen _ _ Hpost). reflexivity.
  - cbn [existsb] in Hpre. apply orb_false_iff in Hpre as [Hq' Hpre].
    cbn [insert_star]. rewrite Hq'. cbn [andb]. rewrite (IH Hpre). reflexivity.
Qed.

Lemma no_star_in_entries ps es : Forall2 is_entry_of ps es -> ~ In "*" es.
Proof.
  induction 1 as [|p e ps es He _ IH]; [intros []|].
  intros [H|H]; [|auto]. apply (entry_not_star _ _ He). exact H.
Qed.

Lemma count_no_star ps es :
  Forall2 is_entry_of ps es -> count_occ string_dec es "*" = 0.
Proof. intros H. apply count_occ_not_In. eapply no_star_in_entries; eauto. Qed.

Lemma existsb_split ps :
  existsb is_kwonly ps = true ->
  exists pre p post, ps = (pre ++ p :: post)%list /\ existsb is_kwonly pre = false /\ is_kwonly p = true.
Proof.
  induction ps as [|q ps IH]; [discriminate|].
  cbn [existsb]. destruct (is_kwonly q) eqn:Hq.
  - intros _. exists [], q, ps. auto.
  - cbn [orb]. intros H. destruct (IH H) as (pre & p & post & -> & Hpre & Hp).
    exists (q :: pre), p, post. cbn [existsb]. rewrite Hq. auto.
Qed.

Lemma star_count ps es :
  Forall2 is_entry_of ps es ->
  count_occ string_dec (insert_star false ps es) "*" = if existsb is_kwonly ps then 1 else 0.
Proof.
  intros H. destruct (existsb is_kwonly ps) eqn:Hk.
  - destruct (existsb_split _ Hk) as (pre & p & post & -> & Hpre & Hp).
    destruct (insert_star_first _ _ _ _ H Hpre Hp) as (e1 & e2 & -> & H1 & H2 & ->).
    rewrite count_occ_app. cbn [count_occ].
    destruct (string_dec "*" "*"); [|congruence].
    rewrite (count_no_star _ _ H1), (count_no_star _ _ H2). reflexivity.
  - rewrite (insert_star_none _ _ _ H Hk). eapply count_no_star; eauto.
Qed.

Lemma is_kwonly_kind p : is_kwonly p = true <-> kind p = KEYWORD_ONLY.
Proof. unfold is_kwonly. destruct (kind p); cbn; split; congruence. Qed.

Lemma supported_not_kwonly p :
  supported_param p = true -> is_kwonly p = false -> kind p = POSITIONAL_OR_KEYWORD.
Proof. unfold supported_param, is_kwonly. destruct (kind p); cbn; congruence. Qed.

Lemma kinds_after_kwonly pre p post :
  kinds_ordered (pre ++ p :: post) ->
  kind p = KEYWORD_ONLY ->
  Forall (fun q => supported_param q = true) post ->
  Forall (fun q => kind q = KEYWORD_ONLY) post.
Proof.
  intros Hs Hp Hsup. unfold kinds_ordered in Hs.
  induction pre as [|q pre IH]; cbn [app] in Hs.
  - apply StronglySorted_inv in Hs as [_ Hle]. rewrite Hp in Hle. cbn in Hle.
    rewrite Forall_forall in *. intros q Hq. specialize (Hle q Hq). specialize (Hsup q Hq).
    unfold supported_param in Hsup. destruct (kind q); cbn in *; try lia; congruence.
  - apply StronglySorted_inv in Hs as [Hs _]. auto.
Qed.

(** ** The form of the error messages *)

Section Messages.

Context (sig : Signature).

Lemma rf_ret {A} (a : A) : raises_formatted sig (ret a).
Proof. intros g e g' H. discriminate. Qed.

Lemma rf_gets {A} (f : module_state -> A) : raises_formatted sig (gets f).
Proof. intros g e g' H. discriminate. Qed.

Lemma rf_raise {A} e : formatted sig e -> raises_formatted sig (@raise A e).
Proof. intros He g e' g' H. inversion H; subst. exact He. Qed.

Lemma rf_error_fn what : raises_formatted sig (error_fn rt sig what).
Proof. apply rf_raise. unfold formatted. eexists. reflexivity. Qed.

Lemma rf_bind {A B} (c : M A) (k : A -> M B) :
  raises_formatted sig c -> (forall a, raises_formatted sig (k a)) -> raises_formatted sig (bind c k).
Proof.
  intros Hc Hk g e g' H. apply bind_raises in H as [H | (a & g1 & _ & H)].
  - exact (Hc _ _ _ H).
  - exact (Hk _ _ _ _ H).
Qed.

Lemma rf_when b (c : M unit) : raises_formatted sig c -> raises_formatted sig (when b c).
Proof. intros Hc. destruct b; [exact Hc | apply rf_ret]. Qed.

Lemma rf_getitem d k : raises_formatted sig (getitem d k).
Proof. unfold getitem. destruct (dict_get d k); [apply rf_ret | apply rf_raise; exact I]. Qed.

Create HintDb formatted.
#[local] Hint Resolve rf_ret rf_gets rf_error_fn rf_when rf_getitem : formatted.

Lemma rf_resolve_annotation a : raises_formatted sig (resolve_annotation rt sig a).
Proof.
  unfold resolve_annotation. destruct a; auto with formatted.
  intros g e g' H. unfold convert_type_string in H.
  destruct (py_eval rt s g) as [[v|] g1]; [discriminate|].
  apply bind_raises in H as [H | (a & g2 & H & _)].
  - eapply rf_error_fn; eauto.
  - rewrite error_fn_raises in H. discriminate.
Qed.

Lemma rf_unsupported_type p a : raises_formatted sig (unsupported_type rt sig p a).
Proof.
  unfold unsupported_type. destruct (origin_attr a) as [[|]|]; cbv zeta.
  - apply rf_bind; [auto with formatted|]. intros keys.
    apply rf_bind; auto with formatted.
  - apply rf_bind; auto with formatted.
  - apply rf_raise. exact I.
Qed.

Lemma rf_render_default p : raises_formatted sig (render_default rt sig p).
Proof.
  unfold render_default.
  destruct (default p) as [| |b|z|text|s|text|ty]; auto with formatted.
  - apply rf_bind; auto with formatted.
  - apply rf_bind; [|auto with formatted].
    destruct (PyStr.startswith "torch." text); [auto with formatted | apply rf_raise; exact I].
  - apply rf_bind; auto with formatted.
Qed.

Lemma rf_loop_body m idx p l : raises_formatted sig (loop_body rt sig m idx p l).
Proof.
  unfold loop_body. cbv zeta.
  apply rf_bind; [auto with formatted|]. intros _.
  apply rf_bind; [auto with formatted|]. intros _.
  apply rf_bind; [apply rf_resolve_annotation|]. intros t.
  apply rf_bind; [auto with formatted|]. intros keys.
  apply rf_bind; [apply rf_when, rf_unsupported_type|]. intros _.
  apply rf_bind; [auto with formatted|]. intros tbl.
  apply rf_bind; [auto with formatted|]. intros ty.
  apply rf_bind.
  { destruct (name_in (name p) m); [|auto with formatted].
    apply rf_bind; auto with formatted. }
  intros ty'. destruct (default p); auto with formatted;
    (apply rf_bind; [apply rf_render_default | auto with formatted]).
Qed.

Lemma rf_loop m ps : forall idx l, raises_formatted sig (loop rt sig m idx ps l).
Proof.
  induction ps as [|p ps IH]; intros idx l; cbn [loop]; [apply rf_ret|].
  apply rf_bind; [apply rf_loop_body | intros l1; apply IH].
Qed.

Lemma rf_parse_return a : raises_formatted sig (parse_return rt a (error_fn rt sig)).
Proof.
  intros g e g' H. rewrite parse_return_eq in H.
  destruct (return_rendering (return_types g) a); [discriminate|].
  inversion H; subst. unfold formatted. eexists. reflexivity.
Qed.

Lemma rf_infer_schema m : raises_formatted sig (infer_schema rt sig m).
Proof.
  unfold infer_schema.
  apply rf_bind; [apply rf_loop|]. intros l. cbv zeta.
  apply rf_bind; [auto with formatted|]. intros _.
  apply rf_bind; [apply rf_resolve_annotation|]. intros r.
  apply rf_bind; [apply rf_parse_return|]. intros text. apply rf_ret.
Qed.

End Messages.

(** ** The rejections that raise ValueError *)

Section Rejections.

Context (sig : Signature) (m : list string).

Lemma loop_body_unsupported_kind idx p l g :
  supported_param p = false ->
  loop_body rt sig m idx p l g
  = (Raise (ValueError (error_text sig
       "We do not support positional-only args, varargs, or varkwargs.")), g).
Proof.
  intros Hs. unfold loop_body. cbv zeta. apply bind_abort. rewrite Hs. reflexivity.
Qed.

Lemma loop_body_no_annotation idx p l g :
  supported_param p = true ->
  annotation p = Empty ->
  loop_body rt sig m idx p l g
  = (Raise (ValueError (error_text sig
       ("Parameter " ++ name p ++ " must have a type annotation."))), g).
Proof.
  intros Hs Ha. unfold loop_body. cbv zeta.
  rewrite (bind_step _ _ g tt g) by (apply when_skip; rewrite Hs; reflexivity).
  apply bind_abort. rewrite Ha. reflexivity.
Qed.

Lemma loop_body_not_a_type idx p l g s g1 :
  supported_param p = true ->
  annotation p = PyStr s ->
  py_eval rt s g = (None, g1) ->
  loop_body rt sig m idx p l g
  = (Raise (ValueError (error_text sig
       ("Unsupported type annotation " ++ s ++ ". It is not a type."))), g1).
Proof.
  intros Hs Ha He. unfold loop_body. cbv zeta.
  rewrite (bind_step _ _ g tt g) by (apply when_skip; rewrite Hs; reflexivity).
  rewrite (bind_step _ _ g tt g) by (apply when_skip; rewrite Ha; reflexivity).
  apply bind_abort. rewrite Ha. unfold resolve_annotation, convert_type_string.
  rewrite He. reflexivity.
Qed.

Lemma loop_body_unsupported_alias idx p l g t g1 :
  supported_param p = true ->
  annotation p <> Empty ->
  resolve_st (annotation p) g = Some (t, g1) ->
  dict_contains (param_types g1) t = false ->
  origin_attr t = Some OriginOther ->
  loop_body rt sig m idx p l g
  = (Raise (ValueError (error_text sig
       ("Parameter " ++ name p ++ " has unsupported type "
        ++ str_object rt (annotation p) ++ ". "
        ++ "The valid types are: " ++ str_keys rt (param_types g1) ++ "."))), g1).
Proof.
  intros Hs Hne Hr Hc Ho. unfold loop_body. cbv zeta.
  rewrite (bind_step _ _ g tt g) by (apply when_skip; rewrite Hs; reflexivity).
  rewrite (bind_step _ _ g tt g) by (apply when_skip; destruct (annotation p); congruence).
  apply (resolve_annotation_returns sig) in Hr.
  rewrite (bind_step _ _ _ _ _ Hr).
  rewrite (bind_step _ _ g1 (param_types g1) g1) by reflexivity.
  apply bind_abort. rewrite Hc. cbn [negb when]. unfold unsupported_type. rewrite Ho.
  reflexivity.
Qed.

Lemma loop_body_unsupported_default idx p l g t g1 ty type_text :
  supported_param p = true ->
  resolve_st (annotation p) g = Some (t, g1) ->
  dict_get (param_types g1) t = Some ty ->
  (name_in (name p) m = true -> PyStr.startswith "Tensor" ty = true) ->
  default p = DOther type_text ->
  loop_body rt sig m idx p l g
  = (Raise (ValueError (error_text sig
       ("Parameter " ++ name p ++ " has an unsupported default value type "
        ++ type_text ++ ". "
        ++ "Please file an issue on GitHub so we can prioritize this."))), g1).
Proof.
  intros Hs Hr Hty Hm Hd.
  pose proof (resolve_st_not_empty _ _ _ _ _ _ Hr Hty) as Hne.
  unfold loop_body. cbv zeta.
  rewrite (bind_step _ _ g tt g) by (apply when_skip; rewrite Hs; reflexivity).
  rewrite (bind_step _ _ g tt g) by (apply when_skip; destruct (annotation p); congruence).
  apply (resolve_annotation_returns sig) in Hr.
  rewrite (bind_step _ _ _ _ _ Hr).
  rewrite (bind_step _ _ g1 (param_types g1) g1) by reflexivity.
  rewrite (bind_step _ _ g1 tt g1)
    by (apply when_skip, negb_false_iff, dict_contains_get; eauto).
  rewrite (bind_step _ _ g1 (param_types g1) g1) by reflexivity.
  rewrite (bind_step _ _ g1 ty g1) by (apply getitem_returns; auto).
  rewrite (bind_step _ _ g1 (rendered_type m idx p ty) g1).
  2: { unfold rendered_type. destruct (name_in (name p) m); [|reflexivity].
       rewrite (bind_step _ _ g1 tt g1)
         by (apply when_skip; rewrite Hm by reflexivity; reflexivity).
       reflexivity. }
  rewrite Hd. apply bind_abort. unfold render_default. rewrite Hd. reflexivity.
Qed.

End Rejections.

End Reasoning.

(** ** Splitting strings *)

Lemma append_assoc (a b c : string) : (a ++ b) ++ c = a ++ b ++ c.
Proof. induction a as [|x a IH]; cbn; [reflexivity | rewrite IH; reflexivity]. Qed.

Lemma prefix_append (sep b : string) : String.prefix sep (sep ++ b) = true.
Proof.
  induction sep as [|c sep IH]; cbn; [destruct b; reflexivity|].
  destruct (ascii_dec c c); [exact IH | congruence].
Qed.

Lemma split_from_nonempty sep s : forall k, PyStr.split_from sep k s <> [].
Proof.
  induction s as [|c s IH]; intros k; cbn [PyStr.split_from]; [discriminate|].
  destruct k; [|apply IH].
  destruct (String.prefix sep (String c s)); [discriminate|].
  destruct (PyStr.split_from sep 0 s); discriminate.
Qed.

Lemma split_from_skip sep r b :
  PyStr.split_from sep (String.length r) (r ++ b) = PyStr.split_from sep 0 b.
Proof. induction r as [|c r IH]; cbn; [destruct b; reflexivity | exact IH]. Qed.

Lemma split_first sep a b :
  sep <> "" ->
  sep_free sep a (sep ++ b) ->
  PyStr.split sep (a ++ sep ++ b) = a :: PyStr.split sep b.
Proof.
  intros Hsep. unfold PyStr.split. induction a as [|x a IH]; intros Hfree.
  - destruct sep as [|c r]; [congruence|].
    change ("" ++ String c r ++ b) with (String c (r ++ b)).
    cbn [PyStr.split_from].
    change (String c (r ++ b)) with (String c r ++ b). rewrite prefix_append.
    replace (String.length (String c r) - 1) with (String.length r) by (cbn; lia).
    rewrite split_from_skip. reflexivity.
  - destruct Hfree as [Hx Hfree]. change (String x a ++ sep ++ b) with (String x (a ++ sep ++ b)).
    cbn [PyStr.split_from]. change (String x (a ++ sep ++ b)) with (String x a ++ sep ++ b).
    rewrite Hx, (IH Hfree). reflexivity.
Qed.

Lemma split_absent sep a :
  sep_free sep a "" -> PyStr.split sep a = [a].
Proof.
  unfold PyStr.split. induction a as [|x a IH]; intros Hfree; [reflexivity|].
  destruct Hfree as [Hx Hfree]. rewrite append_empty_r in Hx.
  cbn [PyStr.split_from]. rewrite Hx, (IH Hfree). reflexivity.
Qed.

Lemma sep_free_app sep a1 a2 tail :
  sep_free sep a1 (a2 ++ tail) -> sep_free sep a2 tail -> sep_free sep (a1 ++ a2) tail.
Proof.
  induction a1 as [|x a1 IH]; cbn [sep_free append]; [auto|].
  intros [Hx H1] H2. split; [|auto].
  change (String x (a1 ++ a2) ++ tail) with (String x ((a1 ++ a2) ++ tail)).
  rewrite append_assoc. exact Hx.
Qed.

(** A separator of one character. *)
Lemma contains_char_cons c x s :
  PyStr.contains (String c "") (String x s)
  = (Ascii.eqb c x || PyStr.contains (String c "") s).
Proof.
  cbn [PyStr.contains String.prefix].
  destruct (ascii_dec c x) as [->|Hne].
  - rewrite Ascii.eqb_refl. destruct s; reflexivity.
  - apply Ascii.eqb_neq in Hne. rewrite Hne. reflexivity.
Qed.

Lemma char_free c a tail :
  PyStr.contains (String c "") a = false -> sep_free (String c "") a tail.
Proof.
  induction a as [|x a IH]; [constructor|].
  rewrite contains_char_cons. intros H. apply orb_false_iff in H as [Hx Ha].
  split; [|auto]. cbn [append String.prefix].
  destruct (ascii_dec c x) as [->|_]; [rewrite Ascii.eqb_refl in Hx; discriminate | reflexivity].
Qed.

(** The separator ["->"]. *)
Lemma arrow_free a tail :
  PyStr.contains "->" a = false ->
  String.prefix ">" tail = false ->
  sep_free "->" a tail.
Proof.
  intros Ha Htail. induction a as [|x a IH]; [constructor|].
  cbn [PyStr.contains] in Ha. apply orb_false_iff in Ha as [Hx Ha].
  split; [|auto]. cbn [append String.prefix] in *.
  destruct (ascii_dec "-" x); [|reflexivity].
  destruct a as [|y a]; [exact Htail|]. clear -Hx.
  cbn [append String.prefix] in *. destruct (ascii_dec ">" y); [|reflexivity].
  destruct a; discriminate.
Qed.

Lemma contains_char_app c a b :
  PyStr.contains (String c "") (a ++ b)
  = (PyStr.contains (String c "") a || PyStr.contains (String c "") b).
Proof.
  induction a as [|x a IH].
  - cbn [append]. destruct b; reflexivity.
  - change (String x a ++ b) with (String x (a ++ b)).
    rewrite !contains_char_cons, IH, orb_assoc. reflexivity.
Qed.

Lemma schema_inputs_plain inputs returns :
  PyStr.contains "(" inputs = false ->
  PyStr.contains ")" inputs = false ->
  PyStr.contains "->" inputs = false ->
  schema_inputs ("(" ++ inputs ++ ") -> " ++ returns) = Return (PyStr.split "," inputs).
Proof.
  intros Hopen Hclose Harrow. unfold schema_inputs.
  assert (H1 : PyStr.split "->" ("(" ++ inputs ++ ") -> " ++ returns)
               = ("(" ++ inputs ++ ") ") :: PyStr.split "->" (" " ++ returns)).
  { replace ("(" ++ inputs ++ ") -> " ++ returns)
      with (("(" ++ inputs ++ ") ") ++ "->" ++ " " ++ returns)
      by (rewrite !append_assoc; reflexivity).
    apply split_first; [discriminate|].
    split; [reflexivity|].
    apply (sep_free_app "->" inputs ") "); [|repeat split].
    apply arrow_free; [exact Harrow | reflexivity]. }
  rewrite H1. cbn [item nth_error and_then].
  assert (H2 : PyStr.split "(" ("(" ++ inputs ++ ") ") = [""; inputs ++ ") "]).
  { change ("(" ++ inputs ++ ") ") with ("" ++ "(" ++ (inputs ++ ") ")).
    rewrite split_first; [|discriminate|constructor].
    rewrite split_absent; [reflexivity|].
    apply char_free. rewrite contains_char_app, Hopen. reflexivity. }
  rewrite H2. cbn [item nth_error and_then].
  assert (H3 : PyStr.split ")" (inputs ++ ") ") = [inputs; " "]).
  { change (inputs ++ ") ") with (inputs ++ ")" ++ " ").
    rewrite split_first; [reflexivity | discriminate | apply char_free; exact Hclose]. }
  rewrite H3. reflexivity.
Qed.

Lemma collect_type_tokens inputs :
  fold_right
    (fun input acc =>
       and_then (item (PyStr.split " " (PyStr.strip input)) 0) (fun t =>
       and_then acc (fun ts => Return (t :: ts))))
    (Return []) inputs
  = Return (map type_token inputs).
Proof.
  induction inputs as [|i inputs IH]; [reflexivity|].
  cbn [fold_right map]. rewrite IH. unfold type_token, item, PyStr.split.
  pose proof (split_from_nonempty " " (PyStr.strip i) 0) as Hne.
  destruct (PyStr.split_from " " 0 (PyStr.strip i)); [congruence | reflexivity].
Qed.

(** ** Sets of names *)

Lemma name_in_In x l : name_in x l = true <-> In x l.
Proof.
  unfold name_in. rewrite existsb_exists. split.
  - intros (y & Hy & E). apply String.eqb_eq in E. subst. exact Hy.
  - intros H. exists x. split; [exact H | apply String.eqb_refl].
Qed.

Lemma set_add_In s x y : In y (set_add s x) <-> In y s \/ y = x.
Proof.
  unfold set_add. destruct (name_in x s) eqn:E.
  - apply name_in_In in E. split; [auto | intros [H | ->]; auto].
  - rewrite in_app_iff. cbn [In]. split.
    + intros [H | [<- | []]]; [left; exact H | right; reflexivity].
    + intros [H | ->]; [left; exact H | right; left; reflexivity].
Qed.

Lemma fold_set_add_In l : forall s y, In y (fold_left set_add l s) <-> In y s \/ In y l.
Proof.
  induction l as [|x l IH]; intros s y; cbn [fold_left].
  - split; [auto | intros [H | []]; exact H].
  - rewrite IH, set_add_In. cbn [In]. split; intros H; intuition auto.
Qed.

Lemma set_diff_In a b y : In y (set_diff a b) <-> In y a /\ ~ In y b.
Proof.
  unfold set_diff. rewrite filter_In. split; intros [H1 H2]; split; auto.
  - intros Hb. apply name_in_In in Hb. rewrite Hb in H2. discriminate.
  - destruct (name_in y b) eqn:E; [|reflexivity]. apply name_in_In in E. contradiction.
Qed.

(** ** Facts about the examples and the tables *)

Lemma plain_runtime_pure sig : evals_purely plain_runtime sig.
Proof.
  split.
  - apply Forall_forall. intros p _. destruct (annotation p); cbn; auto. intros g. reflexivity.
  - destruct (return_annotation sig); cbn; auto. intros g. reflexivity.
Defined.

Lemma entries_run rt g ps es :
  Forall2 (entry_for rt g) ps es -> forall idx, run rt [] idx g ps es g.
Proof.
  induction 1 as [|p e ps es (Hs & t & ty & d & H1 & H2 & H3 & ->) _ IH]; intros idx;
    [constructor|].
  econstructor; [|apply IH].
  split; [exact Hs|]. exists t, ty, d. repeat split; auto. discriminate.
Qed.

Lemma entries_for_are_entries rt g ps es :
  Forall2 (entry_for rt g) ps es -> Forall2 is_entry_of ps es.
Proof.
  induction 1 as [|p e ps es (_ & t & ty & d & _ & _ & _ & ->) _ IH]; constructor; [|exact IH].
  exists ty, d. reflexivity.
Qed.

Lemma tuple_not_supported t :
  type_origin t = Some OriginTuple ->
  dict_contains SUPPORTED_PARAM_TYPES (PyType t) = false.
Proof. destruct t; try discriminate; intros _; reflexivity. Qed.

Lemma resolve_st_pure rt a g t g1 :
  annotation_pure rt a -> resolve_st rt a g = Some (t, g1) -> g1 = g.
Proof.
  unfold resolve_st. intros Hp H. destruct a as [| |s|ty];
    try (inversion H; reflexivity).
  cbn [annotation_pure] in Hp. specialize (Hp g).
  destruct (py_eval rt s g) as [[v|] g2]; [|discriminate].
  cbn [snd] in Hp. inversion H. congruence.
Qed.

Lemma run_pure rt m idx g ps es g' :
  Forall (fun p => annotation_pure rt (annotation p)) ps ->
  run rt m idx g ps es g' ->
  g' = g /\ forall p, In p ps -> exists i e, entry_in rt m i g g p e.
Proof.
  intros Hps Hrun. induction Hrun as [|idx g p e g1 ps es g' He _ IH].
  - split; [reflexivity | intros p []].
  - inversion Hps as [|? ? Hp Hrest]; subst.
    assert (Hg : g1 = g).
    { destruct He as (_ & t & ty & d & Hr & _). eapply resolve_st_pure; eauto. }
    subst g1. destruct (IH Hrest) as [-> Hin]. split; [reflexivity|].
    intros q [<- | Hq]; [exists idx, e; exact He | apply Hin; exact Hq].
Qed.

Lemma accepted_entries rt sig m g s g' :
  evals_purely rt sig ->
  infer_schema rt sig m g = (Return s, g') ->
  forall p, In p (parameters sig) -> exists i e, entry_in rt m i g g p e.
Proof.
  intros [Hps _] H.
  apply infer_schema_returns in H as (l & g1 & r & text & Hl & _).
  apply loop_returns in Hl as (es & Hrun & _).
  exact (proj2 (run_pure _ _ _ _ _ _ _ Hps Hrun)).
Qed.

Ltac solve_entry :=
  split; [reflexivity | do 3 eexists; split; [reflexivity | split; [reflexivity | split; reflexivity]]].

Ltac solve_entries := repeat (apply Forall2_cons; [solve_entry|]); apply Forall2_nil.

(** * Lemmas for the further properties *)

(** ** The schema as a function of the signature *)

Lemma entry_in_of rt m idx g p e :
  annotation_pure rt (annotation p) ->
  entry_in rt m idx g g p e <-> entry_of rt m g idx p = Some e.
Proof.
  intros Hp. unfold entry_in, entry_of, schema_type_of. split.
  - intros (Hs & t & ty & d & Hr & Hty & Hm & Hd & ->).
    rewrite Hs, Hr, Hty, Hd.
    destruct (name_in (name p) m); [rewrite (Hm eq_refl)|]; reflexivity.
  - destruct (supported_param p); [|discriminate].
    destruct (resolve_st rt (annotation p) g) as [[t g1]|] eqn:Hr; [|discriminate].
    pose proof (resolve_st_pure _ _ _ _ _ Hp Hr) as ->.
    destruct (dict_get (param_types g) t) as [ty|] eqn:Hty; [|discriminate].
    destruct (default_suffix (default p)) as [d|] eqn:Hd; [|discriminate].
    destruct (name_in (name p) m) eqn:Hm; cbn [andb].
    + destruct (PyStr.startswith "Tensor" ty) eqn:Hst; cbn [negb]; [|discriminate].
      intros H. inversion H. split; [reflexivity|]. exists t, ty, d. auto.
    + intros H. inversion H. split; [reflexivity|]. exists t, ty, d.
      repeat split; auto. discriminate.
Qed.

Lemma run_entries_of rt m ps : forall idx g es g',
  Forall (fun p => annotation_pure rt (annotation p)) ps ->
  run rt m idx g ps es g' <-> g' = g /\ entries_of rt m g idx ps = Some es.
Proof.
  induction ps as [|p ps IH]; intros idx g es g' Hps.
  - cbn [entries_of]. split.
    + intros H. inversion H; subst. auto.
    + intros [-> H]. inversion H. constructor.
  - inversion Hps as [|? ? Hp Hrest]; subst. cbn [entries_of]. split.
    + intros H. inversion H as [|? ? ? e g1 ? es' ? He Hrun]; subst.
      assert (g1 = g) as ->.
      { destruct He as (_ & t & ty & d & Hr & _). eapply resolve_st_pure; eauto. }
      apply (IH _ _ _ _ Hrest) in Hrun as [-> Hes].
      apply (entry_in_of _ _ _ _ _ _ Hp) in He. rewrite He, Hes. auto.
    + intros [-> H].
      destruct (entry_of rt m g idx p) as [e|] eqn:He; [|discriminate].
      destruct (entries_of rt m g (S idx) ps) as [es'|] eqn:Hes; [|discriminate].
      inversion H; subst. econstructor.
      * apply (entry_in_of _ _ _ _ _ _ Hp). exact He.
      * apply (IH _ _ _ _ Hrest). auto.
Qed.

Lemma set_diff_nil a b : set_diff a b = [] <-> forall y, In y a -> In y b.
Proof.
  split.
  - intros H y Hy. destruct (name_in y b) eqn:E; [apply name_in_In; exact E|].
    assert (Hin : In y (set_diff a b)).
    { apply set_diff_In. split; [exact Hy|]. intros Hb. apply name_in_In in Hb. congruence. }
    rewrite H in Hin. destruct Hin.
  - intros H. destruct (set_diff a b) as [|y l] eqn:E; [reflexivity|].
    assert (Hin : In y (set_diff a b)) by (rewrite E; left; reflexivity).
    apply set_diff_In in Hin as [Ha Hb]. destruct (Hb (H y Ha)).
Qed.

Lemma not_seen_nil m l ps :
  seen_args l = fold_left set_add (map name ps) [] ->
  not_seen m l = [] <-> forallb (fun n => name_in n (map name ps)) m = true.
Proof.
  intros Hl. unfold not_seen. rewrite set_diff_nil, forallb_forall, Hl. split.
  - intros H n Hn. apply name_in_In.
    specialize (H n). rewrite fold_set_add_In in H. destruct H as [[]|H]; [|exact H].
    unfold set_of. apply fold_set_add_In. auto.
  - intros H n Hn. apply fold_set_add_In. right. apply name_in_In, H.
    unfold set_of in Hn. apply fold_set_add_In in Hn as [[]|Hn]. exact Hn.
Qed.

Lemma infer_schema_returns_pure rt sig m g s g' :
  evals_purely rt sig ->
  infer_schema rt sig m g = (Return s, g') <-> g' = g /\ schema_of rt sig m g = Some s.
Proof.
  intros [Hps Hr]. rewrite infer_schema_returns. unfold schema_of. split.
  - intros (l & g1 & r & text & Hl & Hn & Hret & Htext & ->).
    apply loop_returns in Hl as (es & Hrun & ->).
    apply (run_entries_of _ _ _ _ _ _ _ Hps) in Hrun as [-> Hes].
    pose proof (resolve_st_pure _ _ _ _ _ Hr Hret) as ->.
    split; [reflexivity|]. rewrite Hes.
    apply (not_seen_nil _ _ (parameters sig)) in Hn; [|reflexivity].
    rewrite Hn, Hret, Htext. reflexivity.
  - intros [-> H].
    destruct (entries_of rt m g 0 (parameters sig)) as [es|] eqn:Hes; [|discriminate].
    destruct (forallb (fun n => name_in n (map name (parameters sig))) m) eqn:Hn;
      [|discriminate].
    destruct (resolve_st rt (return_annotation sig) g) as [[r g1]|] eqn:Hret; [|discriminate].
    pose proof (resolve_st_pure _ _ _ _ _ Hr Hret) as ->.
    destruct (return_rendering (return_types g) r) as [text|] eqn:Htext; [|discriminate].
    inversion H; subst s.
    exists (locals_after initial_locals (parameters sig) es), g, r, text.
    split; [|split; [|auto]].
    + apply loop_returns. exists es. split; [|reflexivity].
      apply (run_entries_of _ _ _ _ _ _ _ Hps). auto.
    + apply (not_seen_nil _ _ (parameters sig)); [reflexivity | exact Hn].
Qed.

(** ** mutates_args as a set *)

Lemma loop_body_ext rt sig m m' idx p l :
  (forall n, name_in n m = name_in n m') ->
  loop_body rt sig m idx p l = loop_body rt sig m' idx p l.
Proof. intros H. unfold loop_body. rewrite (H (name p)). reflexivity. Qed.

Lemma loop_ext rt sig m m' ps :
  (forall n, name_in n m = name_in n m') ->
  forall idx l g, loop rt sig m idx ps l g = loop rt sig m' idx ps l g.
Proof.
  intros H. induction ps as [|p ps IH]; intros idx l g; cbn [loop]; [reflexivity|].
  unfold bind. rewrite (loop_body_ext _ _ _ _ _ _ _ H).
  destruct (loop_body rt sig m' idx p l g) as [[l1|e] g1]; [apply IH | reflexivity].
Qed.

Lemma name_in_ext m m' :
  (forall n, In n m <-> In n m') -> forall n, name_in n m = name_in n m'.
Proof.
  intros H n. destruct (name_in n m) eqn:E1, (name_in n m') eqn:E2; try reflexivity.
  - apply name_in_In, H, name_in_In in E1. congruence.
  - apply name_in_In, H, name_in_In in E2. congruence.
Qed.

Lemma not_seen_ext m m' l :
  (forall n, In n m <-> In n m') -> not_seen m l = [] -> not_seen m' l = [].
Proof.
  intros H. unfold not_seen. rewrite !set_diff_nil. intros Hm y Hy. apply Hm.
  unfold set_of in *. apply fold_set_add_In. apply fold_set_add_In in Hy as [[]|Hy].
  right. apply H. exact Hy.
Qed.

Lemma infer_schema_ext rt sig m m' g s g' :
  (forall n, In n m <-> In n m') ->
  infer_schema rt sig m g = (Return s, g') ->
  infer_schema rt sig m' g = (Return s, g').
Proof.
  intros H. rewrite !infer_schema_returns.
  intros (l & g1 & r & text & Hl & Hn & Hrest).
  exists l, g1, r, text. split; [|split; [|exact Hrest]].
  - rewrite <- Hl. symmetry. apply loop_ext, name_in_ext, H.
  - eapply not_seen_ext; eauto.
Qed.

(** ** Texts without separators *)

Lemma separator_free_app a b :
  separator_free (a ++ b) = separator_free a && separator_free b.
Proof.
  unfold separator_free. rewrite !contains_char_app.
  destruct (PyStr.contains "(" a), (PyStr.contains ")" a), (PyStr.contains "," a),
    (PyStr.contains ">" a), (PyStr.contains "(" b), (PyStr.contains ")" b),
    (PyStr.contains "," b), (PyStr.contains ">" b); reflexivity.
Qed.

Lemma separator_free_parts s :
  separator_free s = true ->
  PyStr.contains "(" s = false /\ PyStr.contains ")" s = false
  /\ PyStr.contains "," s = false /\ PyStr.contains ">" s = false.
Proof.
  unfold separator_free.
  destruct (PyStr.contains "(" s), (PyStr.contains ")" s), (PyStr.contains "," s),
    (PyStr.contains ">" s); cbn; intros H; try discriminate; auto.
Qed.

Lemma space_free_app a b : space_free (a ++ b) = space_free a && space_free b.
Proof.
  induction a as [|c a IH]; [reflexivity|].
  cbn [append space_free]. rewrite IH, andb_assoc. reflexivity.
Qed.

Lemma contains_gt_arrow s : PyStr.contains ">" s = false -> PyStr.contains "->" s = false.
Proof.
  induction s as [|x s IH]; [reflexivity|].
  rewrite contains_char_cons. intros H. apply orb_false_iff in H as [_ Hs].
  cbn [PyStr.contains]. rewrite (IH Hs), orb_false_r.
  cbn [String.prefix]. destruct (ascii_dec "-" x); [|reflexivity].
  destruct s as [|y s]; [reflexivity|].
  rewrite contains_char_cons in Hs. apply orb_false_iff in Hs as [Hy _].
  cbn [String.prefix]. destruct (ascii_dec ">" y) as [<-|]; [|reflexivity].
  rewrite Ascii.eqb_refl in Hy. discriminate.
Qed.

Lemma contains_char_drop c n s :
  PyStr.contains (String c "") s = false -> PyStr.contains (String c "") (PyStr.drop n s) = false.
Proof.
  revert s. induction n as [|n IH]; intros s; [destruct s; auto|].
  destruct s as [|x s]; [auto|]. rewrite contains_char_cons. intros H.
  apply orb_false_iff in H as [_ H]. cbn [PyStr.drop]. auto.
Qed.

Lemma separator_free_drop n s : separator_free s = true -> separator_free (PyStr.drop n s) = true.
Proof.
  intros H. apply separator_free_parts in H as (H1 & H2 & H3 & H4).
  unfold separator_free. rewrite !contains_char_drop by assumption. reflexivity.
Qed.

(** Decimal numerals hold digits and at most a sign. *)
Lemma separator_free_uint d : separator_free (NilEmpty.string_of_uint d) = true.
Proof.
  induction d; cbn [NilEmpty.string_of_uint]; [reflexivity|..];
    match goal with
    | |- separator_free (String ?c ?s) = true =>
        change (String c s) with (String c "" ++ s); rewrite separator_free_app, IHd; reflexivity
    end.
Qed.

Lemma separator_free_str_nat n : separator_free (PyStr.str_nat n) = true.
Proof.
  unfold PyStr.str_nat, NilZero.string_of_uint.
  destruct (Nat.to_uint n); try reflexivity; apply separator_free_uint.
Qed.

Lemma separator_free_str_int z : separator_free (PyStr.str_int z) = true.
Proof.
  unfold PyStr.str_int, NilZero.string_of_int.
  destruct (Z.to_int z) as [d|d].
  - unfold NilZero.string_of_uint. destruct d; try reflexivity; apply separator_free_uint.
  - change (String "-" (NilZero.string_of_uint d)) with ("-" ++ NilZero.string_of_uint d).
    rewrite separator_free_app. cbn [andb].
    change (separator_free "-") with true. cbn [andb].
    unfold NilZero.string_of_uint. destruct d; try reflexivity; apply separator_free_uint.
Qed.

(** *** Stripping and the first field *)

Lemma lstrip_head c s : PyStr.isspace c = false -> PyStr.lstrip (String c s) = String c s.
Proof. intros H. cbn [PyStr.lstrip]. rewrite H. reflexivity. Qed.

Lemma rstrip_cons c s :
  PyStr.isspace c = false -> PyStr.rstrip (String c s) = String c (PyStr.rstrip s).
Proof. intros H. cbn [PyStr.rstrip]. rewrite H. destruct (PyStr.rstrip s); reflexivity. Qed.

Lemma rstrip_app a b : space_free a = true -> PyStr.rstrip (a ++ b) = a ++ PyStr.rstrip b.
Proof.
  induction a as [|c a IH]; [reflexivity|].
  cbn [space_free append]. intros H. apply andb_true_iff in H as [Hc Ha].
  apply negb_true_iff in Hc. rewrite (rstrip_cons _ _ Hc), (IH Ha). reflexivity.
Qed.

Lemma rstrip_space_free a : space_free a = true -> PyStr.rstrip a = a.
Proof.
  intros H. rewrite <- (append_empty_r a) at 1. rewrite (rstrip_app _ _ H).
  apply append_empty_r.
Qed.

Lemma space_free_no_blank s : space_free s = true -> PyStr.contains " " s = false.
Proof.
  induction s as [|c s IH]; [reflexivity|].
  cbn [space_free]. intros H. apply andb_true_iff in H as [Hc Hs].
  rewrite contains_char_cons, (IH Hs), orb_false_r.
  destruct (Ascii.eqb " " c) eqn:E; [|reflexivity].
  apply Ascii.eqb_eq in E. subst c. discriminate.
Qed.

(** The type token of an entry is its type. *)
Lemma type_token_entry ty rest :
  ty <> "" -> space_free ty = true ->
  type_token (ty ++ " " ++ rest) = ty /\ type_token (" " ++ ty ++ " " ++ rest) = ty.
Proof.
  intros Hne Hty.
  assert (H : type_token (ty ++ " " ++ rest) = ty).
  { unfold type_token, PyStr.strip.
    destruct ty as [|c ty]; [congruence|].
    pose proof Hty as Hty'. cbn [space_free] in Hty'.
    apply andb_true_iff in Hty' as [Hc _]. apply negb_true_iff in Hc.
    change (String c ty ++ " " ++ rest) with (String c (ty ++ " " ++ rest)).
    rewrite (lstrip_head _ _ Hc).
    change (String c (ty ++ " " ++ rest)) with (String c ty ++ " " ++ rest).
    rewrite (rstrip_app _ _ Hty).
    change (" " ++ rest) with (String " " rest). cbn [PyStr.rstrip].
    destruct (PyStr.rstrip rest) as [|r0 r] eqn:Er.
    - change (if PyStr.isspace " " then "" else " ") with "".
      rewrite append_empty_r.
      rewrite split_absent; [reflexivity|].
      apply char_free, space_free_no_blank. exact Hty.
    - change (String " " (String r0 r)) with (" " ++ String r0 r).
      rewrite split_first; [reflexivity | discriminate|].
      apply char_free, space_free_no_blank. exact Hty. }
  split; [exact H|].
  unfold type_token, PyStr.strip in *.
  change (" " ++ ty ++ " " ++ rest) with (String " " (ty ++ " " ++ rest)).
  cbn [PyStr.lstrip]. change (PyStr.isspace " ") with true. cbn iota. exact H.
Qed.

Lemma strip_blank s : PyStr.strip (" " ++ s) = PyStr.strip s.
Proof. reflexivity. Qed.

(** *** Splitting what was joined *)

Lemma split_cons_other sep c s :
  String.prefix sep (String c s) = false ->
  PyStr.split sep (String c s)
  = match PyStr.split sep s with
    | [] => [String c ""]
    | w :: ws => String c w :: ws
    end.
Proof. intros H. unfold PyStr.split. cbn [PyStr.split_from]. rewrite H. reflexivity. Qed.

Lemma join_cons sep e e' es :
  PyStr.join sep (e :: e' :: es) = e ++ sep ++ PyStr.join sep (e' :: es).
Proof. reflexivity. Qed.

Lemma split_join es :
  Forall (fun e => PyStr.contains "," e = false) es ->
  PyStr.split "," (PyStr.join ", " es)
  = match es with
    | [] => [""]
    | e :: rest => e :: map (fun x => " " ++ x) rest
    end.
Proof.
  induction es as [|e es IH]; [reflexivity|].
  intros H. inversion H as [|? ? He Hes]; subst.
  destruct es as [|e' es'].
  - cbn [PyStr.join String.concat map]. apply split_absent, char_free. exact He.
  - rewrite join_cons.
    change (e ++ ", " ++ PyStr.join ", " (e' :: es'))
      with (e ++ "," ++ String " " (PyStr.join ", " (e' :: es'))).
    rewrite split_first; [|discriminate | apply char_free; exact He].
    rewrite split_cons_other by reflexivity.
    rewrite (IH Hes). reflexivity.
Qed.

Lemma join_cut sep l1 a b l2 :
  PyStr.join sep (l1 ++ (a ++ b)%string :: l2)%list
  = PyStr.join sep (l1 ++ [a])%list ++ b
    ++ match l2 with [] => "" | _ => sep ++ PyStr.join sep l2 end.
Proof.
  induction l1 as [|x l1 IH]; cbn [app].
  - destruct l2 as [|y l2].
    + cbn [PyStr.join String.concat]. rewrite append_empty_r. reflexivity.
    + rewrite join_cons. cbn [PyStr.join String.concat]. rewrite append_assoc. reflexivity.
  - destruct l1 as [|x' l1]; cbn [app] in *.
    + rewrite !join_cons, IH, !append_assoc. reflexivity.
    + rewrite !join_cons, IH, !append_assoc. reflexivity.
Qed.

Lemma contains_char_join c sep es :
  PyStr.contains (String c "") sep = false ->
  Forall (fun e => PyStr.contains (String c "") e = false) es ->
  PyStr.contains (String c "") (PyStr.join sep es) = false.
Proof.
  intros Hsep. induction es as [|e es IH]; [reflexivity|].
  intros H. inversion H as [|? ? He Hes]; subst.
  destruct es as [|e' es']; [exact He|].
  rewrite join_cons, !contains_char_app, He, Hsep, (IH Hes). reflexivity.
Qed.

(** *** The inputs of a schema *)

(** The inputs the inspectors see: the text between the first
    parenthesis and the next one, whichever it is. *)
Lemma schema_inputs_cut x y returns :
  PyStr.contains "(" x = false ->
  PyStr.contains ")" x = false ->
  PyStr.contains "->" (x ++ y) = false ->
  y = "" \/ String.prefix "(" y = true ->
  schema_inputs ("(" ++ (x ++ y) ++ ") -> " ++ returns) = Return (PyStr.split "," x).
Proof.
  intros Hopen Hclose Harrow Hy. unfold schema_inputs.
  assert (H1 : PyStr.split "->" ("(" ++ (x ++ y) ++ ") -> " ++ returns)
               = ("(" ++ (x ++ y) ++ ") ") :: PyStr.split "->" (" " ++ returns)).
  { replace ("(" ++ (x ++ y) ++ ") -> " ++ returns)
      with (("(" ++ (x ++ y) ++ ") ") ++ "->" ++ " " ++ returns)
      by (rewrite !append_assoc; reflexivity).
    apply split_first; [discriminate|].
    split; [reflexivity|].
    apply (sep_free_app "->" (x ++ y) ") "); [|repeat split].
    apply arrow_free; [exact Harrow | reflexivity]. }
  rewrite H1. cbn [item nth_error and_then].
  destruct Hy as [-> | Hy].
  - rewrite append_empty_r.
    assert (H2 : PyStr.split "(" ("(" ++ x ++ ") ") = [""; x ++ ") "]).
    { change ("(" ++ x ++ ") ") with ("" ++ "(" ++ (x ++ ") ")).
      rewrite split_first; [|discriminate|constructor].
      rewrite split_absent; [reflexivity|].
      apply char_free. rewrite contains_char_app, Hopen. reflexivity. }
    rewrite H2. cbn [item nth_error and_then].
    assert (H3 : PyStr.split ")" (x ++ ") ") = [x; " "]).
    { change (x ++ ") ") with (x ++ ")" ++ " ").
      rewrite split_first; [reflexivity | discriminate | apply char_free; exact Hclose]. }
    rewrite H3. reflexivity.
  - destruct y as [|c y]; [discriminate|].
    cbn [String.prefix] in Hy. destruct (ascii_dec "(" c) as [<-|]; [|discriminate].
    assert (H2 : PyStr.split "(" ("(" ++ (x ++ String "(" y) ++ ") ")
                 = "" :: x :: PyStr.split "(" (y ++ ") ")).
    { change ("(" ++ (x ++ String "(" y) ++ ") ")
        with ("" ++ "(" ++ ((x ++ "(" ++ y) ++ ") ")).
      rewrite split_first; [|discriminate|constructor].
      rewrite !append_assoc.
      rewrite split_first; [reflexivity | discriminate | apply char_free; exact Hopen]. }
    rewrite H2. cbn [item nth_error and_then].
    rewrite split_absent by (apply char_free; exact Hclose). reflexivity.
Qed.

(** ** The entries of a schema *)

Lemma dict_get_In d k v : dict_get d k = Some v -> In v (map snd d).
Proof.
  unfold dict_get. destruct (find (key_matches k) d) as [[k' v']|] eqn:E; [|discriminate].
  cbn. intros H. inversion H; subst. apply find_some in E as [E _].
  apply in_map_iff. exists (k', v). auto.
Qed.

Lemma param_type_names : Forall (fun v => type_name v = true) (map snd SUPPORTED_PARAM_TYPES).
Proof.
  apply Forall_forall. apply forallb_forall. vm_compute. reflexivity.
Qed.

Lemma schema_type_name rt p ty :
  annotation_pure rt (annotation p) ->
  schema_type_of rt import_state p = Some ty ->
  ty <> "" /\ space_free ty = true /\ separator_free ty = true.
Proof.
  intros Hp. unfold schema_type_of.
  destruct (resolve_st rt (annotation p) import_state) as [[t g1]|] eqn:Hr; [|discriminate].
  pose proof (resolve_st_pure _ _ _ _ _ Hp Hr) as ->. intros H.
  apply dict_get_In in H. pose proof param_type_names as Hall.
  rewrite Forall_forall in Hall. specialize (Hall _ H). unfold type_name in Hall.
  apply andb_true_iff in Hall as [Hall H3]. apply andb_true_iff in Hall as [H1 H2].
  repeat split; auto. intros ->. discriminate.
Qed.

Lemma default_suffix_form d dflt :
  default_suffix d = Some dflt ->
  (d = NoDefault /\ dflt = "") \/ (d <> NoDefault /\ exists r, dflt = "=" ++ r).
Proof.
  unfold default_suffix. destruct d as [| |b|z|text|s|text|ty]; intros H.
  - inversion H. left. split; reflexivity.
  - right. split; [discriminate|]. inversion H; subst. eexists; reflexivity.
  - right. split; [discriminate|]. inversion H; subst. eexists; reflexivity.
  - right. split; [discriminate|]. inversion H; subst. eexists; reflexivity.
  - right. split; [discriminate|]. inversion H; subst. eexists; reflexivity.
  - right. split; [discriminate|]. inversion H; subst. eexists; reflexivity.
  - right. split; [discriminate|].
    destruct (PyStr.startswith "torch." text); inversion H; subst. eexists; reflexivity.
  - discriminate.
Qed.

Lemma separator_free_cons c s :
  separator_free (String c s) = separator_free (String c "") && separator_free s.
Proof. change (String c s) with (String c "" ++ s). apply separator_free_app. Qed.

Lemma default_suffix_plain d dflt :
  plain_default d = true -> default_suffix d = Some dflt -> separator_free dflt = true.
Proof.
  unfold default_suffix, plain_default.
  destruct d as [| |b|z|text|s|text|ty]; intros Hp H.
  - injection H as <-. reflexivity.
  - injection H as <-. reflexivity.
  - injection H as <-. destruct b; reflexivity.
  - injection H as <-. cbn [str_value].
    rewrite separator_free_cons, separator_free_str_int. reflexivity.
  - injection H as <-. cbn [str_value]. apply andb_true_iff in Hp as [Hp _].
    rewrite separator_free_cons, Hp. reflexivity.
  - injection H as <-.
    rewrite (separator_free_cons "="), (separator_free_cons (ascii_of_nat 34)).
    rewrite separator_free_app, Hp. reflexivity.
  - destruct (PyStr.startswith "torch." text); [|discriminate].
    assert (E : dflt = String "=" (PyStr.drop 6 text)) by (inversion H; reflexivity).
    subst dflt. apply andb_true_iff in Hp as [Hp _].
    rewrite separator_free_cons, (separator_free_drop _ _ Hp). reflexivity.
  - discriminate.
Qed.

Lemma startswith_contains p s : PyStr.startswith p s = true -> PyStr.contains p s = true.
Proof. unfold PyStr.startswith. intros H. destruct s; cbn [PyStr.contains]; rewrite H; reflexivity. Qed.

(** The forms of an entry of a parameter with a plain name and default:
    a type of the table, a blank and a text without separators; for a
    mutated parameter, the type carries the marker after ["Tensor"]. *)
Lemma entry_of_form rt m idx p e :
  annotation_pure rt (annotation p) ->
  plain_param p = true ->
  entry_of rt m import_state idx p = Some e ->
  exists ty dflt,
    schema_type_of rt import_state p = Some ty /\
    default_suffix (default p) = Some dflt /\
    ty <> "" /\ space_free ty = true /\ separator_free ty = true /\
    separator_free (name p ++ dflt) = true /\
    ((name_in (name p) m = false /\ e = ty ++ " " ++ name p ++ dflt) \/
     (name_in (name p) m = true /\ PyStr.startswith "Tensor" ty = true /\
      e = "Tensor" ++ "(a" ++ PyStr.str_nat idx ++ "!)" ++ PyStr.drop 6 ty
          ++ " " ++ name p ++ dflt)).
Proof.
  intros Hpure Hplain. unfold entry_of.
  destruct (supported_param p); [|discriminate].
  destruct (schema_type_of rt import_state p) as [ty|] eqn:Hty; [|discriminate].
  destruct (default_suffix (default p)) as [dflt|] eqn:Hd; [|discriminate].
  destruct (schema_type_name _ _ _ Hpure Hty) as (H1 & H2 & H3).
  unfold plain_param in Hplain.
  apply andb_true_iff in Hplain as [Hplain Hpd].
  apply andb_true_iff in Hplain as [Hplain Hsp].
  apply andb_true_iff in Hplain as [Hne Hsep].
  assert (Hrest : separator_free (name p ++ dflt) = true).
  { rewrite separator_free_app, Hsep, (default_suffix_plain _ _ Hpd Hd). reflexivity. }
  unfold rendered_type.
  destruct (name_in (name p) m) eqn:Hm; cbn [andb].
  - destruct (PyStr.startswith "Tensor" ty) eqn:Hst; cbn [negb]; [|discriminate].
    intros H. inversion H. exists ty, dflt. repeat split; auto.
    right. repeat split; auto. rewrite !append_assoc. reflexivity.
  - intros H. inversion H. exists ty, dflt. repeat split; auto.
Qed.

Lemma entries_of_cons rt m g idx p ps es :
  entries_of rt m g idx (p :: ps) = Some es ->
  exists e es', es = e :: es' /\ entry_of rt m g idx p = Some e
                /\ entries_of rt m g (S idx) ps = Some es'.
Proof.
  cbn [entries_of]. destruct (entry_of rt m g idx p) as [e|]; [|discriminate].
  destruct (entries_of rt m g (S idx) ps) as [es'|]; [|discriminate].
  intros H. inversion H. eauto.
Qed.

(** The entries either hold no separator at all, or the first one that
    does is the entry of a mutated parameter, cut after ["Tensor"]. *)
Lemma entries_cut rt m ps : forall idx saw es,
  Forall (fun p => annotation_pure rt (annotation p)) ps ->
  Forall (fun p => plain_param p = true) ps ->
  entries_of rt m import_state idx ps = Some es ->
  (Forall (fun e => separator_free e = true) (insert_star saw ps es) /\
   existsb tensor_token (insert_star saw ps es)
   = existsb (has_tensor_type rt import_state) ps /\
   existsb (fun p => name_in (name p) m) ps = false)
  \/
  (exists l1 b l2,
     insert_star saw ps es = (l1 ++ ("Tensor" ++ "(" ++ b)%string :: l2)%list /\
     Forall (fun e => separator_free e = true) l1 /\
     existsb (has_tensor_type rt import_state) ps = true).
Proof.
  induction ps as [|p ps IH]; intros idx saw es Hpure Hplain Hes.
  - cbn in Hes. inversion Hes. left. cbn. auto.
  - apply entries_of_cons in Hes as (e & es' & -> & He & Hes').
    inversion Hpure as [|? ? Hp Hpure']; subst.
    inversion Hplain as [|? ? Hpl Hplain']; subst.
    destruct (entry_of_form _ _ _ _ _ Hp Hpl He)
      as (ty & dflt & Hty & Hd & H1 & H2 & H3 & Hrest & Hform).
    assert (Hstar : exists st saw',
               insert_star saw (p :: ps) (e :: es') = (st ++ e :: insert_star saw' ps es')%list
               /\ Forall (fun e => separator_free e = true) st
               /\ existsb tensor_token st = false).
    { cbn [insert_star]. destruct (is_kwonly p && negb saw).
      - exists ["*"], true. repeat split; auto.
      - exists [], saw. repeat split; auto. }
    destruct Hstar as (st & saw' & -> & Hst1 & Hst2).
    destruct Hform as [(Hm & ->) | (Hm & Hstart & ->)].
    + assert (Hsep : separator_free (ty ++ " " ++ name p ++ dflt) = true).
      { rewrite !separator_free_app in *. rewrite H3. cbn [andb].
        change (separator_free " ") with true. exact Hrest. }
      assert (Htok : tensor_token (ty ++ " " ++ name p ++ dflt)
                     = has_tensor_type rt import_state p).
      { unfold tensor_token, has_tensor_type.
        rewrite (proj1 (type_token_entry ty (name p ++ dflt) H1 H2)), Hty. reflexivity. }
      destruct (IH (S idx) saw' es' Hpure' Hplain' Hes')
        as [(Hall & Hex & Hmut) | (l1 & b & l2 & Heq & Hl1 & Hex)].
      * left. split; [|split].
        -- apply Forall_app. split; [exact Hst1|]. constructor; assumption.
        -- rewrite existsb_app, Hst2. cbn [existsb orb]. rewrite Htok, Hex. reflexivity.
        -- cbn [existsb]. rewrite Hm, Hmut. reflexivity.
      * right. exists (st ++ (ty ++ " " ++ name p ++ dflt)%string :: l1)%list, b, l2.
        split; [|split].
        -- rewrite Heq, <- app_assoc. reflexivity.
        -- apply Forall_app. split; [exact Hst1|]. constructor; assumption.
        -- cbn [existsb]. rewrite Hex. apply orb_true_r.
    + right. exists st, ("a" ++ PyStr.str_nat idx ++ "!)" ++ PyStr.drop 6 ty
                          ++ " " ++ name p ++ dflt), (insert_star saw' ps es').
      split; [reflexivity | split; [exact Hst1|]].
      cbn [existsb]. unfold has_tensor_type at 1. rewrite Hty.
      rewrite (startswith_contains _ _ Hstart). reflexivity.
Qed.

Lemma gt_free_entries rt m ps : forall idx saw es,
  Forall (fun p => annotation_pure rt (annotation p)) ps ->
  Forall (fun p => plain_param p = true) ps ->
  entries_of rt m import_state idx ps = Some es ->
  Forall (fun e => PyStr.contains ">" e = false) (insert_star saw ps es).
Proof.
  induction ps as [|p ps IH]; intros idx saw es Hpure Hplain Hes.
  - cbn in Hes. inversion Hes. constructor.
  - apply entries_of_cons in Hes as (e & es' & -> & He & Hes').
    inversion Hpure as [|? ? Hp Hpure']; subst.
    inversion Hplain as [|? ? Hpl Hplain']; subst.
    destruct (entry_of_form _ _ _ _ _ Hp Hpl He)
      as (ty & dflt & Hty & Hd & H1 & H2 & H3 & Hrest & Hform).
    assert (He' : PyStr.contains ">" e = false).
    { apply separator_free_parts in Hrest as (_ & _ & _ & Hrest).
      pose proof (separator_free_parts _ H3) as (_ & _ & _ & H3').
      pose proof (separator_free_parts _ (separator_free_str_nat idx)) as (_ & _ & _ & Hn).
      destruct Hform as [(_ & ->) | (_ & _ & ->)].
      - rewrite !contains_char_app in *. rewrite H3'. cbn [orb].
        change (PyStr.contains ">" " ") with false. exact Hrest.
      - rewrite !contains_char_app in *. rewrite Hn, (contains_char_drop _ 6 _ H3').
        cbn [orb]. exact Hrest. }
    cbn [insert_star]. destruct (is_kwonly p && negb saw).
    + constructor; [reflexivity|]. constructor; [exact He'|]. eapply IH; eauto.
    + constructor; [exact He'|]. eapply IH; eauto.
Qed.

(** ** The inspectors on the schemas that [infer_schema] returns *)

Lemma schema_of_form rt sig m g s :
  schema_of rt sig m g = Some s ->
  exists es text,
    entries_of rt m g 0 (parameters sig) = Some es /\
    forallb (fun n => name_in n (map name (parameters sig))) m = true /\
    s = "(" ++ PyStr.join ", " (insert_star false (parameters sig) es) ++ ") -> " ++ text.
Proof.
  unfold schema_of.
  destruct (entries_of rt m g 0 (parameters sig)) as [es|]; [|discriminate].
  destruct (forallb (fun n => name_in n (map name (parameters sig))) m); [|discriminate].
  destruct (resolve_st rt (return_annotation sig) g) as [[r g1]|]; [|discriminate].
  destruct (return_rendering (return_types g) r) as [text|]; [|discriminate].
  intros H. exists es, text. split; [reflexivity | split; [reflexivity|]].
  congruence.
Qed.

Lemma has_tensor_arg_cut x y returns :
  PyStr.contains "(" x = false ->
  PyStr.contains ")" x = false ->
  PyStr.contains "->" (x ++ y) = false ->
  y = "" \/ String.prefix "(" y = true ->
  has_tensor_arg ("(" ++ (x ++ y) ++ ") -> " ++ returns)
  = Return (existsb tensor_token (PyStr.split "," x)).
Proof.
  intros H1 H2 H3 H4. unfold has_tensor_arg.
  rewrite (schema_inputs_cut _ _ _ H1 H2 H3 H4). cbn [and_then].
  rewrite collect_type_tokens. cbn [and_then]. f_equal.
  induction (PyStr.split "," x) as [|i l IH]; [reflexivity|].
  cbn [map existsb]. rewrite IH. reflexivity.
Qed.

Lemma separator_free_join l :
  Forall (fun e => separator_free e = true) l ->
  PyStr.contains "(" (PyStr.join ", " l) = false
  /\ PyStr.contains ")" (PyStr.join ", " l) = false
  /\ PyStr.contains ">" (PyStr.join ", " l) = false
  /\ Forall (fun e => PyStr.contains "," e = false) l.
Proof.
  intros H. repeat split.
  - apply contains_char_join; [reflexivity|].
    eapply Forall_impl; [|exact H]. intros e He. apply (separator_free_parts _ He).
  - apply contains_char_join; [reflexivity|].
    eapply Forall_impl; [|exact H]. intros e He. apply (separator_free_parts _ He).
  - apply contains_char_join; [reflexivity|].
    eapply Forall_impl; [|exact H]. intros e He. apply (separator_free_parts _ He).
  - eapply Forall_impl; [|exact H]. intros e He. apply (separator_free_parts _ He).
Qed.

Lemma tokens_of_join l :
  Forall (fun e => PyStr.contains "," e = false) l ->
  existsb tensor_token (PyStr.split "," (PyStr.join ", " l)) = existsb tensor_token l.
Proof.
  intros H. rewrite (split_join _ H). destruct l as [|e rest]; [reflexivity|].
  cbn [existsb]. f_equal. clear. induction rest as [|x rest IH]; [reflexivity|].
  cbn [map existsb]. rewrite IH. reflexivity.
Qed.

Lemma get_device_arg_id_cut x y returns :
  PyStr.contains "(" x = false ->
  PyStr.contains ")" x = false ->
  PyStr.contains "->" (x ++ y) = false ->
  y = "" \/ String.prefix "(" y = true ->
  get_device_arg_id ("(" ++ (x ++ y) ++ ") -> " ++ returns)
  = Return (first_index is_device_input 0 (PyStr.split "," x)).
Proof.
  intros H1 H2 H3 H4. unfold get_device_arg_id.
  rewrite (schema_inputs_cut _ _ _ H1 H2 H3 H4). reflexivity.
Qed.

Lemma first_index_blank i l :
  first_index is_device_input i (map (fun x => " " ++ x) l) = first_index is_device_input i l.
Proof.
  revert i. induction l as [|x l IH]; intros i; [reflexivity|].
  cbn [map first_index]. rewrite IH. reflexivity.
Qed.

Lemma first_index_join l :
  Forall (fun e => PyStr.contains "," e = false) l ->
  first_index is_device_input 0 (PyStr.split "," (PyStr.join ", " l))
  = first_index is_device_input 0 l.
Proof.
  intros H. rewrite (split_join _ H). destruct l as [|e rest]; [reflexivity|].
  cbn [first_index]. rewrite first_index_blank. reflexivity.
Qed.

Lemma split_at_blank a : forall a' b b',
  space_free a = true -> space_free a' = true ->
  a ++ " " ++ b = a' ++ " " ++ b' -> a = a' /\ b = b'.
Proof.
  induction a as [|c a IH]; intros [|c' a'] b b' Ha Ha' H.
  - cbn in H. inversion H. auto.
  - cbn in H. inversion H; subst c'. discriminate.
  - cbn in H. inversion H; subst c. discriminate.
  - cbn [append] in H. inversion H; subst c'.
    cbn [space_free] in Ha, Ha'.
    apply andb_true_iff in Ha as [_ Ha]. apply andb_true_iff in Ha' as [_ Ha'].
    destruct (IH _ _ _ Ha Ha' H2) as [-> ->]. auto.
Qed.

(** What [strip] leaves of an entry. *)
Lemma strip_entry ty n dflt :
  ty <> "" -> space_free ty = true -> n <> "" -> space_free n = true ->
  PyStr.strip (ty ++ " " ++ n ++ dflt) = ty ++ " " ++ n ++ PyStr.rstrip dflt.
Proof.
  intros Hty1 Hty2 Hn1 Hn2. unfold PyStr.strip.
  destruct ty as [|c ty]; [congruence|].
  pose proof Hty2 as Hc. cbn [space_free] in Hc.
  apply andb_true_iff in Hc as [Hc _]. apply negb_true_iff in Hc.
  change (String c ty ++ " " ++ n ++ dflt) with (String c (ty ++ " " ++ n ++ dflt)).
  rewrite (lstrip_head _ _ Hc).
  change (String c (ty ++ " " ++ n ++ dflt)) with (String c ty ++ " " ++ n ++ dflt).
  rewrite (rstrip_app _ _ Hty2). f_equal.
  change (" " ++ n ++ dflt) with (String " " (n ++ dflt)).
  cbn [PyStr.rstrip]. rewrite (rstrip_app _ _ Hn2).
  destruct n as [|d n]; [congruence | reflexivity].
Qed.

Lemma device_entry p ty dflt :
  ty <> "" -> space_free ty = true ->
  plain_param p = true ->
  default_suffix (default p) = Some dflt ->
  is_device_input (ty ++ " " ++ name p ++ dflt)
  = String.eqb ty "Device" && String.eqb (name p) "device"
    && match default p with NoDefault => true | _ => false end.
Proof.
  intros Hty1 Hty2 Hplain Hd. unfold plain_param in Hplain.
  apply andb_true_iff in Hplain as [Hplain _].
  apply andb_true_iff in Hplain as [Hplain Hsp].
  apply andb_true_iff in Hplain as [Hne _].
  apply negb_true_iff, String.eqb_neq in Hne.
  unfold is_device_input. rewrite (strip_entry _ _ _ Hty1 Hty2 Hne Hsp).
  destruct (default_suffix_form _ _ Hd) as [[Hnd ->] | [Hnd [r ->]]].
  - rewrite Hnd. cbn [PyStr.rstrip]. rewrite append_empty_r, andb_true_r.
    destruct (String.eqb_spec "Device device" (ty ++ " " ++ name p)) as [E|E].
    + change "Device device" with ("Device" ++ " " ++ "device") in E.
      apply split_at_blank in E as [<- <-]; [reflexivity | reflexivity | exact Hty2].
    + destruct (String.eqb_spec ty "Device") as [->|]; [|reflexivity].
      destruct (String.eqb_spec (name p) "device") as [En|]; [|reflexivity].
      exfalso. apply E. rewrite En. reflexivity.
  - assert (Hfalse : match default p with NoDefault => true | _ => false end = false)
      by (destruct (default p); congruence).
    rewrite Hfalse, andb_false_r.
    apply String.eqb_neq. intros E.
    change "Device device" with ("Device" ++ " " ++ "device") in E.
    apply split_at_blank in E as [_ E]; [|reflexivity | exact Hty2].
    assert (Hc : PyStr.contains "=" "device" = true).
    { rewrite E. change ("=" ++ r) with (String "=" r).
      rewrite (rstrip_cons "=" r eq_refl).
      change (String "=" (PyStr.rstrip r)) with ("=" ++ PyStr.rstrip r).
      rewrite !contains_char_app. apply orb_true_iff. right. reflexivity. }
    discriminate.
Qed.

(** The inputs [get_device_arg_id] sees are the entries of the
    parameters before the first mutated one, and possibly a cut one. *)
Lemma entries_device rt m ps : forall idx saw es,
  Forall (fun p => annotation_pure rt (annotation p)) ps ->
  Forall (fun p => plain_param p = true) ps ->
  entries_of rt m import_state idx ps = Some es ->
  exists l y,
    PyStr.join ", " (insert_star saw ps es) = PyStr.join ", " l ++ y /\
    (y = "" \/ String.prefix "(" y = true) /\
    Forall (fun e => separator_free e = true) l /\
    forall i, first_index is_device_input i l
              = device_index rt import_state saw i (unmutated_prefix m ps).
Proof.
  assert (Hgen : forall ps idx saw es,
    Forall (fun p => annotation_pure rt (annotation p)) ps ->
    Forall (fun p => plain_param p = true) ps ->
    entries_of rt m import_state idx ps = Some es ->
    (Forall (fun e => separator_free e = true) (insert_star saw ps es) /\
     forall i, first_index is_device_input i (insert_star saw ps es)
               = device_index rt import_state saw i (unmutated_prefix m ps))
    \/
    (exists l1 b l2,
       insert_star saw ps es = (l1 ++ ("Tensor" ++ "(" ++ b)%string :: l2)%list /\
       Forall (fun e => separator_free e = true) l1 /\
       forall i, first_index is_device_input i (l1 ++ ["Tensor"])%list
                 = device_index rt import_state saw i (unmutated_prefix m ps))).
  { clear ps. induction ps as [|p ps IH]; intros idx saw es Hpure Hplain Hes.
    - cbn in Hes. inversion Hes. left. cbn. auto.
    - apply entries_of_cons in Hes as (e & es' & -> & He & Hes').
      inversion Hpure as [|? ? Hp Hpure']; subst.
      inversion Hplain as [|? ? Hpl Hplain']; subst.
      destruct (entry_of_form _ _ _ _ _ Hp Hpl He)
        as (ty & dflt & Hty & Hd & H1 & H2 & H3 & Hrest & Hform).
      cbn [insert_star unmutated_prefix].
      destruct Hform as [(Hm & ->) | (Hm & Hstart & ->)]; rewrite Hm.
      + assert (Hsep : separator_free (ty ++ " " ++ name p ++ dflt) = true).
        { rewrite !separator_free_app in *. rewrite H3. cbn [andb].
          change (separator_free " ") with true. exact Hrest. }
        assert (Hdev : is_device_input (ty ++ " " ++ name p ++ dflt)
                       = is_device_param rt import_state p).
        { rewrite (device_entry _ _ _ H1 H2 Hpl Hd). unfold is_device_param.
          rewrite Hty. reflexivity. }
        cbn [device_index].
        destruct (is_kwonly p && negb saw) eqn:Hstar.
        * assert (Hsaw : saw || is_kwonly p = true).
          { apply andb_true_iff in Hstar as [-> _]. apply orb_true_r. }
          rewrite Hsaw.
          destruct (IH (S idx) true es' Hpure' Hplain' Hes')
            as [(Hall & Hidx) | (l1 & b & l2 & Heq & Hl1 & Hidx)].
          -- left. split; [repeat constructor; assumption|].
             intros i. cbn [first_index].
             change (is_device_input "*") with false. cbn iota.
             rewrite Hdev, Hidx. reflexivity.
          -- right. exists ("*" :: (ty ++ " " ++ name p ++ dflt)%string :: l1), b, l2.
             split; [rewrite Heq; reflexivity|].
             split; [repeat constructor; assumption|].
             intros i. cbn [first_index app].
             change (is_device_input "*") with false. cbn iota.
             rewrite Hdev, Hidx. reflexivity.
        * assert (Hsaw : saw || is_kwonly p = saw).
          { destruct saw, (is_kwonly p); cbn in *; congruence. }
          rewrite Hsaw.
          destruct (IH (S idx) saw es' Hpure' Hplain' Hes')
            as [(Hall & Hidx) | (l1 & b & l2 & Heq & Hl1 & Hidx)].
          -- left. split; [repeat constructor; assumption|].
             intros i. cbn [first_index]. rewrite Hdev, Hidx. reflexivity.
          -- right. exists ((ty ++ " " ++ name p ++ dflt)%string :: l1), b, l2.
             split; [rewrite Heq; reflexivity|].
             split; [repeat constructor; assumption|].
             intros i. cbn [first_index app]. rewrite Hdev, Hidx. reflexivity.
      + right. cbn [device_index].
        destruct (is_kwonly p && negb saw).
        * exists ["*"], ("a" ++ PyStr.str_nat idx ++ "!)" ++ PyStr.drop 6 ty
                          ++ " " ++ name p ++ dflt), (insert_star true ps es').
          split; [reflexivity | split; [repeat constructor | reflexivity]].
        * exists [], ("a" ++ PyStr.str_nat idx ++ "!)" ++ PyStr.drop 6 ty
                       ++ " " ++ name p ++ dflt), (insert_star saw ps es').
          split; [reflexivity | split; [constructor | reflexivity]]. }
  intros idx saw es Hpure Hplain Hes.
  destruct (Hgen ps idx saw es Hpure Hplain Hes)
    as [(Hall & Hidx) | (l1 & b & l2 & Heq & Hl1 & Hidx)].
  - exists (insert_star saw ps es), "". rewrite append_empty_r. auto.
  - exists (l1 ++ ["Tensor"])%list,
      (("(" ++ b) ++ match l2 with [] => "" | _ => ", " ++ PyStr.join ", " l2 end).
    split; [rewrite Heq; apply join_cut|].
    split; [right; apply (prefix_append "(")|].
    split; [|exact Hidx].
    apply Forall_app. split; [exact Hl1 | repeat constructor].
Qed.

Lemma unmutated_prefix_nil ps : unmutated_prefix [] ps = ps.
Proof.
  induction ps as [|p ps IH]; [reflexivity|].
  cbn [unmutated_prefix name_in existsb]. rewrite IH. reflexivity.
Qed.

(** ** Schemas without an opening parenthesis *)

Lemma contains_char_split c a :
  PyStr.contains (String c "") a = true ->
  exists a1 a2, a = a1 ++ String c "" ++ a2 /\ PyStr.contains (String c "") a1 = false.
Proof.
  induction a as [|x a IH]; [discriminate|].
  rewrite contains_char_cons. destruct (Ascii.eqb c x) eqn:E.
  - intros _. apply Ascii.eqb_eq in E. subst x. exists "", a. auto.
  - cbn [orb]. intros H. destruct (IH H) as (a1 & a2 & -> & Ha1).
    exists (String x a1), a2. split; [reflexivity|].
    rewrite contains_char_cons, E, Ha1. reflexivity.
Qed.

Lemma split_second c a :
  nth_error (PyStr.split (String c "") a) 1 = None
  <-> PyStr.contains (String c "") a = false.
Proof.
  destruct (PyStr.contains (String c "") a) eqn:E.
  - split; [|discriminate]. apply contains_char_split in E as (a1 & a2 & -> & Ha1).
    rewrite split_first; [|discriminate | apply char_free; exact Ha1].
    cbn [nth_error]. pose proof (split_from_nonempty (String c "") a2 0) as Hne.
    unfold PyStr.split. destruct (PyStr.split_from (String c "") 0 a2); [congruence|].
    discriminate.
  - split; [reflexivity|]. intros _.
    rewrite split_absent; [reflexivity | apply char_free; exact E].
Qed.

Lemma split_head sep s : exists w ws, PyStr.split sep s = w :: ws.
Proof.
  pose proof (split_from_nonempty sep s 0) as Hne. unfold PyStr.split.
  destruct (PyStr.split_from sep 0 s) as [|w ws]; [congruence | eauto].
Qed.

Lemma schema_inputs_outcome schema :
  if PyStr.contains "(" (before_arrow schema)
  then exists inputs, schema_inputs schema = Return inputs
  else schema_inputs schema = Raise IndexError.
Proof.
  unfold schema_inputs, before_arrow.
  destruct (split_head "->" schema) as (w & ws & ->). cbn [hd item nth_error and_then].
  destruct (PyStr.contains "(" w) eqn:E.
  - unfold item. destruct (nth_error (PyStr.split "(" w) 1) as [after|] eqn:E1.
    + cbn [and_then]. destruct (split_head ")" after) as (i & rest & ->).
      cbn [nth_error and_then]. eauto.
    + apply split_second in E1. congruence.
  - apply split_second in E. unfold item. rewrite E. reflexivity.
Qed.

(** ** parse_return and its callback *)

Section Callback.

Context (rt : runtime) (callback : string -> M unit).

Lemma check_components_supported annotation args g :
  forallb (fun c => dict_contains (return_types g) (PyType c)) args = true ->
  for_each
    (fun arg =>
       bind (gets return_types) (fun tbl =>
       when (negb (dict_contains tbl (PyType arg)))
         (bind (gets return_types) (fun tbl =>
          callback ("Return has unsupported type " ++ str_object rt annotation ++ ". "
                    ++ "The valid types are: " ++ str_dict rt tbl ++ ".")))))
    args g = (Return tt, g).
Proof.
  induction args as [|c args IH]; [reflexivity|].
  cbn [for_each forallb]. intros H. apply andb_true_iff in H as [Hc Hrest].
  unfold bind at 1. unfold bind at 1. unfold gets at 1. rewrite Hc. cbn [negb when].
  unfold ret at 1. exact (IH Hrest).
Qed.

Lemma check_components_quiet annotation args g :
  (forall what g0, callback what g0 = (Return tt, g0)) ->
  for_each
    (fun arg =>
       bind (gets return_types) (fun tbl =>
       when (negb (dict_contains tbl (PyType arg)))
         (bind (gets return_types) (fun tbl =>
          callback ("Return has unsupported type " ++ str_object rt annotation ++ ". "
                    ++ "The valid types are: " ++ str_dict rt tbl ++ ".")))))
    args g = (Return tt, g).
Proof.
  intros Hcb. induction args as [|c args IH]; [reflexivity|].
  cbn [for_each]. unfold bind at 1. unfold bind at 1. unfold gets at 1.
  destruct (dict_contains (return_types g) (PyType c)); cbn [negb when].
  - unfold ret at 1. exact IH.
  - unfold bind at 1. unfold gets at 1. rewrite Hcb. exact IH.
Qed.

Lemma collect_components_missing args g :
  forallb (fun c => dict_contains (return_types g) (PyType c)) args = false ->
  map_m (fun arg => bind (gets return_types) (fun tbl => getitem tbl (PyType arg))) args g
  = (Raise KeyError, g).
Proof.
  induction args as [|c args IH]; [discriminate|].
  cbn [forallb map_m]. intros H.
  unfold bind at 1. unfold bind at 1. unfold gets at 1. unfold getitem at 1.
  destruct (dict_get (return_types g) (PyType c)) as [v|] eqn:Hv.
  - assert (Hc : dict_contains (return_types g) (PyType c) = true)
      by (apply dict_contains_get; eauto).
    rewrite Hc in H. cbn [andb] in H.
    unfold ret at 1. unfold bind at 1. rewrite (IH H). reflexivity.
  - reflexivity.
Qed.

Lemma parse_return_rendered annotation g text :
  return_rendering (return_types g) annotation = Some text ->
  parse_return rt annotation callback g = (Return text, g).
Proof.
  unfold parse_return, return_rendering.
  destruct annotation as [| |s|t]; intros H;
    try (inversion H; reflexivity);
    (destruct (origin_is_tuple _); cbn [negb];
     [ destruct (forallb _ _) eqn:Hall; [|discriminate];
       cbv zeta; unfold bind at 1;
       rewrite (check_components_supported _ _ _ Hall);
       unfold bind at 1; rewrite (collect_components _ _ Hall);
       inversion H; reflexivity
     | unfold bind at 1; unfold gets at 1;
       match type of H with
       | dict_get ?d ?k = _ =>
           assert (Hc : dict_contains d k = true) by (apply dict_contains_get; eauto);
           rewrite Hc
       end;
       cbn [negb when]; unfold bind, ret, gets, getitem; rewrite H; reflexivity ]).
Qed.

Lemma parse_return_quiet annotation g :
  (forall what g0, callback what g0 = (Return tt, g0)) ->
  return_rendering (return_types g) annotation = None ->
  parse_return rt annotation callback g = (Raise KeyError, g).
Proof.
  intros Hcb. unfold parse_return, return_rendering.
  destruct annotation as [| |s|t]; intros H;
    try discriminate;
    (destruct (origin_is_tuple _); cbn [negb];
     [ destruct (forallb _ _) eqn:Hall; [discriminate|];
       cbv zeta; unfold bind at 1;
       rewrite (check_components_quiet _ _ _ Hcb);
       unfold bind at 1; rewrite (collect_components_missing _ _ Hall); reflexivity
     | unfold bind at 1; unfold gets at 1;
       match type of H with
       | dict_get ?d ?k = _ =>
           pose proof (proj2 (dict_contains_false d k) H) as Hc; rewrite Hc
       end;
       cbn [negb when]; unfold bind at 1; unfold bind at 1; unfold gets at 1;
       rewrite Hcb; unfold bind, gets, getitem; rewrite H; reflexivity ]).
Qed.

End Callback.

(** ** Equality of typing objects *)

Section PytypeInduction.

Variable P : pytype -> Prop.
Hypothesis Hatom :
  forall t,
    match t with
    | Union _ | Sequence _ | List _ | Tuple _ | Generic _ _ => False
    | _ => True
    end -> P t.
Hypothesis HUnion : forall args, Forall P args -> P (Union args).
Hypothesis HSequence : forall t, P t -> P (Sequence t).
Hypothesis HList : forall t, P t -> P (List t).
Hypothesis HTuple : forall args, Forall P args -> P (Tuple args).
Hypothesis HGeneric : forall o args, Forall P args -> P (Generic o args).

Lemma pytype_induction : forall t, P t.
Proof.
  fix IH 1. intros t.
  assert (Hall : forall l, Forall P l).
  { induction l as [|x l IHl]; constructor; [apply IH | exact IHl]. }
  destruct t as [| | | | | | | | | |args|x|x| |args| |o args];
    try (apply Hatom; exact I).
  - apply HUnion, Hall.
  - apply HSequence, IH.
  - apply HList, IH.
  - apply HTuple, Hall.
  - apply HGeneric, Hall.
Qed.

End PytypeInduction.

Lemma py_eqb_union xs ys :
  py_eqb (Union xs) (Union ys)
  = forallb (fun x => existsb (py_eqb x) ys) xs
    && forallb (fun y => existsb (fun x => py_eqb x y) xs) ys.
Proof. reflexivity. Qed.

Lemma py_eqb_tuple xs ys : py_eqb (Tuple xs) (Tuple ys) = all2 py_eqb xs ys.
Proof.
  cbn [py_eqb]. revert ys. induction xs as [|x xs IH]; intros [|y ys]; try reflexivity.
  cbn [all2]. rewrite <- IH. reflexivity.
Qed.

Lemma py_eqb_generic o p xs ys :
  py_eqb (Generic o xs) (Generic p ys) = String.eqb o p && all2 py_eqb xs ys.
Proof.
  cbn [py_eqb]. f_equal. revert ys.
  induction xs as [|x xs IH]; intros [|y ys]; try reflexivity.
  cbn [all2]. rewrite <- IH. reflexivity.
Qed.

Lemma all2_refl l : Forall (fun t => py_eqb t t = true) l -> all2 py_eqb l l = true.
Proof. induction 1 as [|x l Hx _ IH]; [reflexivity|]. cbn [all2]. rewrite Hx, IH. reflexivity. Qed.

(** [t == t] *)
Lemma py_eqb_refl t : py_eqb t t = true.
Proof.
  induction t as [t Ht|args IH|t IH|t IH|args IH|o args IH] using pytype_induction.
  - destruct t; try contradiction; try reflexivity. apply String.eqb_refl.
  - rewrite py_eqb_union. rewrite Forall_forall in IH.
    apply andb_true_iff. split; apply forallb_forall; intros x Hx;
      apply existsb_exists; exists x; auto.
  - exact IH.
  - exact IH.
  - rewrite py_eqb_tuple. apply all2_refl, IH.
  - rewrite py_eqb_generic, String.eqb_refl. apply all2_refl, IH.
Qed.

(** *** Unions *)

Lemma dedup_app l : forall seen l',
  dedup seen (l ++ l') = (dedup seen l ++ dedup (seen ++ dedup seen l) l')%list.
Proof.
  induction l as [|x l IH]; intros seen l'; cbn [dedup app].
  - rewrite app_nil_r. reflexivity.
  - destruct (existsb (fun y => py_eqb y x) seen).
    + apply IH.
    + cbn [app]. rewrite IH. f_equal. f_equal. rewrite <- app_assoc. reflexivity.
Qed.

Lemma dedup_covers l : forall seen x,
  In x l -> seen_in (seen ++ dedup seen l) x = true.
Proof.
  unfold seen_in. induction l as [|y l IH]; intros seen x Hx; [destruct Hx|].
  cbn [dedup]. destruct (existsb (fun z => py_eqb z y) seen) eqn:E.
  - destruct Hx as [<- | Hx]; [|apply IH; exact Hx].
    rewrite existsb_app, E. reflexivity.
  - replace (seen ++ y :: dedup (seen ++ [y]) l)%list
      with ((seen ++ [y]) ++ dedup (seen ++ [y]) l)%list
      by (rewrite <- app_assoc; reflexivity).
    destruct Hx as [<- | Hx]; [|apply IH; exact Hx].
    rewrite !existsb_app. cbn [existsb]. rewrite py_eqb_refl.
    rewrite orb_true_l, orb_true_r. reflexivity.
Qed.

Lemma dedup_all_seen l : forall seen,
  (forall x, In x l -> seen_in seen x = true) -> dedup seen l = [].
Proof.
  unfold seen_in. induction l as [|x l IH]; intros seen H; [reflexivity|].
  cbn [dedup]. rewrite (H x (or_introl eq_refl)). apply IH.
  intros y Hy. apply H. right. exact Hy.
Qed.

Lemma flatten_union_repeat t n :
  forall x, In x (flatten_union (repeat t n)) -> In x (flatten_union [t]).
Proof.
  induction n as [|n IH]; intros x; [intros []|].
  unfold flatten_union in *. cbn [repeat flat_map]. rewrite app_nil_r.
  rewrite in_app_iff. intros [H | H]; [exact H|].
  specialize (IH x H). cbn [flat_map] in IH. rewrite app_nil_r in IH. exact IH.
Qed.

(** [Union[t, t, ..., t]] is [Union[t]]. *)
Lemma mkUnion_repeat t n : mkUnion (repeat t (S n)) = mkUnion [t].
Proof.
  unfold mkUnion.
  assert (E : dedup [] (flatten_union (repeat t (S n))) = dedup [] (flatten_union [t]));
    [|rewrite E; reflexivity].
  change (repeat t (S n)) with ([t] ++ repeat t n)%list.
  unfold flatten_union at 1. rewrite flat_map_app.
  change (flat_map (fun p => match p with Union ms => ms | _ => [p] end) [t])
    with (flatten_union [t]).
  change (flat_map (fun p => match p with Union ms => ms | _ => [p] end) (repeat t n))
    with (flatten_union (repeat t n)).
  rewrite dedup_app. rewrite (dedup_all_seen (flatten_union (repeat t n))).
  - apply app_nil_r.
  - intros x Hx. apply dedup_covers. eapply flatten_union_repeat. exact Hx.
Qed.

(** *** [==] is an equivalence *)

Lemma py_eqb_atom a b : is_atom a -> py_eqb a b = true -> b = a.
Proof.
  destruct a; try contradiction; intros _; destruct b; try discriminate; try reflexivity.
  cbn [py_eqb]. intros H. apply String.eqb_eq in H. congruence.
Qed.

Lemma py_eqb_atom_sym a b : is_atom a -> py_eqb a b = py_eqb b a.
Proof.
  destruct a; try contradiction; intros _; destruct b; try reflexivity.
  cbn [py_eqb]. apply String.eqb_sym.
Qed.

Lemma existsb_ext_in {A} (f g : A -> bool) l :
  (forall x, In x l -> f x = g x) -> existsb f l = existsb g l.
Proof.
  induction l as [|x l IH]; intros H; [reflexivity|].
  cbn [existsb]. rewrite (H x (or_introl eq_refl)), IH; [reflexivity|].
  intros y Hy. apply H. right. exact Hy.
Qed.

Lemma forallb_ext_in {A} (f g : A -> bool) l :
  (forall x, In x l -> f x = g x) -> forallb f l = forallb g l.
Proof.
  induction l as [|x l IH]; intros H; [reflexivity|].
  cbn [forallb]. rewrite (H x (or_introl eq_refl)), IH; [reflexivity|].
  intros y Hy. apply H. right. exact Hy.
Qed.

Lemma all2_sym xs : forall ys,
  Forall (fun x => forall b, py_eqb x b = py_eqb b x) xs ->
  all2 py_eqb xs ys = all2 py_eqb ys xs.
Proof.
  induction xs as [|x xs IH]; intros [|y ys] H; try reflexivity.
  inversion H as [|? ? Hx Hxs]; subst. cbn [all2]. rewrite Hx, (IH _ Hxs). reflexivity.
Qed.

(** [a == b] is [b == a] *)
Lemma py_eqb_sym a : forall b, py_eqb a b = py_eqb b a.
Proof.
  induction a as [a Ha|xs IH|a IH|a IH|xs IH|o xs IH] using pytype_induction; intros b.
  - apply py_eqb_atom_sym, Ha.
  - destruct b as [| | | | | | | | | |ys|y|y| |ys| |p ys]; try reflexivity.
    rewrite !py_eqb_union, andb_comm. rewrite Forall_forall in IH. f_equal.
    + apply forallb_ext_in. intros y _. apply existsb_ext_in. intros x Hx. apply IH, Hx.
    + apply forallb_ext_in. intros x Hx. apply existsb_ext_in. intros y _. apply IH, Hx.
  - destruct b; try reflexivity. apply IH.
  - destruct b; try reflexivity. apply IH.
  - destruct b as [| | | | | | | | | |ys|y|y| |ys| |p ys]; try reflexivity.
    rewrite !py_eqb_tuple. apply all2_sym, IH.
  - destruct b as [| | | | | | | | | |ys|y|y| |ys| |p ys]; try reflexivity.
    rewrite !py_eqb_generic, String.eqb_sym. f_equal. apply all2_sym, IH.
Qed.

Lemma all2_trans xs : forall ys zs,
  Forall (fun x => forall b c, py_eqb x b = true -> py_eqb b c = true -> py_eqb x c = true) xs ->
  all2 py_eqb xs ys = true -> all2 py_eqb ys zs = true -> all2 py_eqb xs zs = true.
Proof.
  induction xs as [|x xs IH]; intros [|y ys] [|z zs] H H1 H2; try discriminate; try reflexivity.
  inversion H as [|? ? Hx Hxs]; subst. cbn [all2] in *.
  apply andb_true_iff in H1 as [H1 H1']. apply andb_true_iff in H2 as [H2 H2'].
  rewrite (Hx _ _ H1 H2), (IH _ _ Hxs H1' H2'). reflexivity.
Qed.

(** [a == b] and [b == c] give [a == c] *)
Lemma py_eqb_trans a : forall b c,
  py_eqb a b = true -> py_eqb b c = true -> py_eqb a c = true.
Proof.
  induction a as [a Ha|xs IH|a IH|a IH|xs IH|o xs IH] using pytype_induction;
    intros b c H1 H2.
  - apply (py_eqb_atom _ _ Ha) in H1. subst b. exact H2.
  - destruct b as [| | | | | | | | | |ys|y|y| |ys| |p ys]; try discriminate.
    destruct c as [| | | | | | | | | |zs|z|z| |zs| |q zs]; try discriminate.
    rewrite py_eqb_union in *. rewrite Forall_forall in IH.
    apply andb_true_iff in H1 as [H1 H1']. apply andb_true_iff in H2 as [H2 H2'].
    rewrite forallb_forall in *. apply andb_true_iff. split; apply forallb_forall.
    + intros x Hx. specialize (H1 x Hx). apply existsb_exists in H1 as (y & Hy & Hxy).
      specialize (H2 y Hy). apply existsb_exists in H2 as (z & Hz & Hyz).
      apply existsb_exists. exists z. split; [exact Hz|]. eapply IH; eauto.
    + intros z Hz. specialize (H2' z Hz). apply existsb_exists in H2' as (y & Hy & Hyz).
      specialize (H1' y Hy). apply existsb_exists in H1' as (x & Hx & Hxy).
      apply existsb_exists. exists x. split; [exact Hx|]. eapply IH; eauto.
  - destruct b; try discriminate. destruct c; try discriminate. eapply IH; eauto.
  - destruct b; try discriminate. destruct c; try discriminate. eapply IH; eauto.
  - destruct b as [| | | | | | | | | |ys|y|y| |ys| |p ys]; try discriminate.
    destruct c as [| | | | | | | | | |zs|z|z| |zs| |q zs]; try discriminate.
    rewrite py_eqb_tuple in *. eapply all2_trans; eauto.
  - destruct b as [| | | | | | | | | |ys|y|y| |ys| |p ys]; try discriminate.
    destruct c as [| | | | | | | | | |zs|z|z| |zs| |q zs]; try discriminate.
    rewrite py_eqb_generic in *.
    apply andb_true_iff in H1 as [H1 H1']. apply andb_true_iff in H2 as [H2 H2'].
    apply String.eqb_eq in H1, H2. subst. rewrite String.eqb_refl.
    eapply all2_trans; eauto.
Qed.

(** Equal objects are equal to the same keys. *)
Lemma py_eqb_congruence a b k : py_eqb a b = true -> py_eqb a k = py_eqb b k.
Proof.
  intros H. destruct (py_eqb b k) eqn:E.
  - eapply py_eqb_trans; eauto.
  - destruct (py_eqb a k) eqn:E'; [|reflexivity].
    rewrite py_eqb_sym in H. rewrite (py_eqb_trans _ _ _ H E') in E. discriminate.
Qed.

(** Equal objects are looked up alike. *)
Lemma dict_get_respects d a b :
  py_eqb a b = true -> dict_get d (PyType a) = dict_get d (PyType b).
Proof.
  intros H. unfold dict_get. f_equal. induction d as [|[k v] d IH]; [reflexivity|].
  cbn [find key_matches fst]. rewrite (py_eqb_congruence _ _ k H), IH. reflexivity.
Qed.

(** ** The tables *)

Lemma param_table_eq : SUPPORTED_PARAM_TYPES = param_table.
Proof. vm_compute. reflexivity. Qed.

Lemma dict_get_key d t v :
  dict_get d (PyType t) = Some v -> exists k, In (k, v) d /\ py_eqb t k = true.
Proof.
  unfold dict_get. destruct (find (key_matches (PyType t)) d) as [[k v']|] eqn:E; [|discriminate].
  cbn. intros H. inversion H; subst. apply find_some in E as [Hin Hk]. eauto.
Qed.

Lemma union_members_eq xs ys :
  (forall x, In x xs <-> In x ys) -> py_eqb (Union xs) (Union ys) = true.
Proof.
  intros H. rewrite py_eqb_union. apply andb_true_iff.
  split; apply forallb_forall; intros x Hx; apply existsb_exists; exists x;
    (split; [apply H; exact Hx | apply py_eqb_refl]).
Qed.

(** ** From the schema back to the entries *)

Lemma space_free_uint d : space_free (NilEmpty.string_of_uint d) = true.
Proof. induction d; cbn [NilEmpty.string_of_uint space_free]; auto. Qed.

Lemma space_free_str_int z : space_free (PyStr.str_int z) = true.
Proof.
  unfold PyStr.str_int, NilZero.string_of_int, NilZero.string_of_uint.
  destruct (Z.to_int z) as [d|d]; destruct d; try reflexivity;
    cbn [space_free NilEmpty.string_of_uint]; try apply space_free_uint.
Qed.

Lemma space_free_drop n : forall s, space_free s = true -> space_free (PyStr.drop n s) = true.
Proof.
  induction n as [|n IH]; intros s H; [destruct s; exact H|].
  destruct s as [|c s]; [reflexivity|]. cbn [space_free] in H.
  apply andb_true_iff in H as [_ H]. cbn [PyStr.drop]. auto.
Qed.

Lemma rstrip_app_keep a b :
  b <> "" -> PyStr.rstrip b = b -> PyStr.rstrip (a ++ b) = a ++ b.
Proof.
  intros Hne Hb. induction a as [|c a IH]; [exact Hb|].
  cbn [append PyStr.rstrip]. rewrite IH.
  destruct (a ++ b) eqn:E; [|reflexivity].
  destruct a; [cbn in E; congruence | discriminate].
Qed.

(** The text of a plain default has no trailing white space. *)
Lemma rstrip_default d dflt :
  plain_default d = true -> default_suffix d = Some dflt -> PyStr.rstrip dflt = dflt.
Proof.
  unfold default_suffix, plain_default.
  destruct d as [| |b|z|text|s|text|ty]; intros Hp H.
  - injection H as <-. reflexivity.
  - injection H as <-. reflexivity.
  - injection H as <-. destruct b; reflexivity.
  - injection H as <-. cbn [str_value].
    rewrite (rstrip_cons "=" _ eq_refl), (rstrip_space_free _ (space_free_str_int z)).
    reflexivity.
  - injection H as <-. cbn [str_value]. apply andb_true_iff in Hp as [_ Hp].
    rewrite (rstrip_cons "=" _ eq_refl), (rstrip_space_free _ Hp). reflexivity.
  - injection H as <-.
    rewrite (rstrip_cons "=" _ eq_refl), (rstrip_cons (ascii_of_nat 34) _ eq_refl).
    rewrite rstrip_app_keep; [reflexivity | discriminate | reflexivity].
  - destruct (PyStr.startswith "torch." text); [|discriminate].
    assert (E : dflt = String "=" (PyStr.drop 6 text)) by (inversion H; reflexivity).
    subst dflt. apply andb_true_iff in Hp as [_ Hp].
    rewrite (rstrip_cons "=" _ eq_refl), (rstrip_space_free _ (space_free_drop 6 _ Hp)).
    reflexivity.
  - discriminate.
Qed.

(** With no mutated parameter every entry is free of separators and is
    what [strip] leaves of it. *)
Lemma entries_plain rt ps : forall idx saw es,
  Forall (fun p => annotation_pure rt (annotation p)) ps ->
  Forall (fun p => plain_param p = true) ps ->
  entries_of rt [] import_state idx ps = Some es ->
  Forall (fun e => separator_free e = true /\ PyStr.strip e = e) (insert_star saw ps es).
Proof.
  induction ps as [|p ps IH]; intros idx saw es Hpure Hplain Hes.
  - cbn in Hes. inversion Hes. constructor.
  - apply entries_of_cons in Hes as (e & es' & -> & He & Hes').
    inversion Hpure as [|? ? Hp Hpure']; subst.
    inversion Hplain as [|? ? Hpl Hplain']; subst.
    destruct (entry_of_form _ _ _ _ _ Hp Hpl He)
      as (ty & dflt & Hty & Hd & H1 & H2 & H3 & Hrest & Hform).
    destruct Hform as [(_ & ->) | (Hm & _)]; [|discriminate].
    assert (Hsep : separator_free (ty ++ " " ++ name p ++ dflt) = true).
    { rewrite !separator_free_app in *. rewrite H3. cbn [andb].
      change (separator_free " ") with true. exact Hrest. }
    assert (Hstrip : PyStr.strip (ty ++ " " ++ name p ++ dflt) = ty ++ " " ++ name p ++ dflt).
    { unfold plain_param in Hpl.
      apply andb_true_iff in Hpl as [Hpl Hpd].
      apply andb_true_iff in Hpl as [Hpl Hsp].
      apply andb_true_iff in Hpl as [Hne _].
      apply negb_true_iff, String.eqb_neq in Hne.
      rewrite (strip_entry _ _ _ H1 H2 Hne Hsp), (rstrip_default _ _ Hpd Hd). reflexivity. }
    cbn [insert_star]. destruct (is_kwonly p && negb saw).
    + constructor; [split; reflexivity|]. constructor; [auto|]. eapply IH; eauto.
    + constructor; [auto|]. eapply IH; eauto.
Qed.

Lemma strip_inputs l :
  Forall (fun e => separator_free e = true /\ PyStr.strip e = e) l ->
  map PyStr.strip (PyStr.split "," (PyStr.join ", " l))
  = match l with [] => [""] | _ => l end.
Proof.
  intros H.
  assert (Hc : Forall (fun e => PyStr.contains "," e = false) l).
  { eapply Forall_impl; [|exact H]. intros e [He _]. apply (separator_free_parts _ He). }
  rewrite (split_join _ Hc). destruct l as [|e rest]; [reflexivity|].
  inversion H as [|? ? [_ He] Hrest]; subst. cbn [map]. rewrite He. f_equal.
  clear -Hrest. induction Hrest as [|x rest [_ Hx] _ IH]; [reflexivity|].
  cbn [map]. rewrite strip_blank, Hx, IH. reflexivity.
Qed.

(** ** The exceptions of [infer_schema] *)

Section Exceptions.

Context (rt : runtime) (sig : Signature).

Lemma re_ret {A} (a : A) : raises_expected (ret a).
Proof. intros g e g' H. discriminate. Qed.

Lemma re_gets {A} (f : module_state -> A) : raises_expected (gets f).
Proof. intros g e g' H. discriminate. Qed.

Lemma re_raise {A} e : expected_exception e -> raises_expected (@raise A e).
Proof. intros He g e' g' H. inversion H; subst. exact He. Qed.

Lemma re_error_fn what : raises_expected (error_fn rt sig what).
Proof. apply re_raise. exact I. Qed.

Lemma re_bind {A B} (c : M A) (k : A -> M B) :
  raises_expected c -> (forall a, raises_expected (k a)) -> raises_expected (bind c k).
Proof.
  intros Hc Hk g e g' H. apply bind_raises in H as [H | (a & g1 & _ & H)].
  - exact (Hc _ _ _ H).
  - exact (Hk _ _ _ _ H).
Qed.

Lemma re_when b (c : M unit) : raises_expected c -> raises_expected (when b c).
Proof. intros Hc. destruct b; [exact Hc | apply re_ret]. Qed.

Create HintDb expected.
#[local] Hint Resolve re_ret re_gets re_error_fn re_when : expected.

Lemma re_resolve_annotation a : raises_expected (resolve_annotation rt sig a).
Proof.
  unfold resolve_annotation. destruct a; auto with expected.
  intros g e g' H. unfold convert_type_string in H.
  destruct (py_eval rt s g) as [[v|] g1]; [discriminate|].
  apply bind_raises in H as [H | (a & g2 & H & _)].
  - eapply re_error_fn; eauto.
  - rewrite error_fn_raises in H. discriminate.
Qed.

Lemma re_unsupported_type p a : raises_expected (unsupported_type rt sig p a).
Proof.
  unfold unsupported_type. destruct (origin_attr a) as [[|]|]; cbv zeta.
  - apply re_bind; [auto with expected|]. intros keys.
    apply re_bind; auto with expected.
  - apply re_bind; auto with expected.
  - apply re_raise. reflexivity.
Qed.

Lemma re_render_default p : raises_expected (render_default rt sig p).
Proof.
  unfold render_default.
  destruct (default p) as [| |b|z|text|s|text|ty]; auto with expected.
  - apply re_bind; auto with expected.
  - apply re_bind; [|auto with expected].
    destruct (PyStr.startswith "torch." text); [auto with expected | apply re_raise; exact I].
  - apply re_bind; auto with expected.
Qed.

(** The lookup [SUPPORTED_PARAM_TYPES[annotation_type]] comes after the
    membership test, and so raises no KeyError. *)
Lemma re_lookup {B} p t (k : string -> M B) :
  (forall ty, raises_expected (k ty)) ->
  raises_expected
    (bind (gets param_types) (fun keys =>
     bind (when (negb (dict_contains keys t)) (unsupported_type rt sig p t)) (fun _ =>
     bind (gets param_types) (fun tbl =>
     bind (getitem tbl t) k)))).
Proof.
  intros Hk g e g' H. unfold bind at 1 in H. unfold gets at 1 in H.
  destruct (dict_contains (param_types g) t) eqn:Hc; cbn [negb when] in H.
  - unfold bind at 1 in H. unfold ret at 1 in H.
    unfold bind at 1 in H. unfold gets at 1 in H.
    apply dict_contains_get in Hc as [v Hv].
    unfold bind at 1 in H. unfold getitem in H. rewrite Hv in H. unfold ret at 1 in H.
    exact (Hk _ _ _ _ H).
  - apply bind_raises in H as [H | (u & g1 & H & _)].
    + exact (re_unsupported_type _ _ _ _ _ H).
    + destruct (unsupported_type_never_returns rt _ _ _ _ _ _ H).
Qed.

Lemma re_loop_body m idx p l : raises_expected (loop_body rt sig m idx p l).
Proof.
  unfold loop_body. cbv zeta.
  apply re_bind; [auto with expected|]. intros _.
  apply re_bind; [auto with expected|]. intros _.
  apply re_bind; [apply re_resolve_annotation|]. intros t.
  apply re_lookup. intros ty.
  apply re_bind.
  { destruct (name_in (name p) m); [|auto with expected].
    apply re_bind; auto with expected. }
  intros ty'. destruct (default p); auto with expected;
    (apply re_bind; [apply re_render_default | auto with expected]).
Qed.

Lemma re_loop m ps : forall idx l, raises_expected (loop rt sig m idx ps l).
Proof.
  induction ps as [|p ps IH]; intros idx l; cbn [loop]; [apply re_ret|].
  apply re_bind; [apply re_loop_body | intros l1; apply IH].
Qed.

Lemma re_parse_return a : raises_expected (parse_return rt a (error_fn rt sig)).
Proof.
  intros g e g' H. rewrite parse_return_eq in H.
  destruct (return_rendering (return_types g) a); [discriminate|].
  inversion H; subst. exact I.
Qed.

Lemma re_infer_schema m : raises_expected (infer_schema rt sig m).
Proof.
  unfold infer_schema.
  apply re_bind; [apply re_loop|]. intros l. cbv zeta.
  apply re_bind; [auto with expected|]. intros _.
  apply re_bind; [apply re_resolve_annotation|]. intros r.
  apply re_bind; [apply re_parse_return|]. intros text. apply re_ret.
Qed.

End Exceptions.

(** ** Optional return types *)

Lemma dedup_keeps_none l :
  In NoneType l -> In NoneType (dedup [] l).
Proof.
  intros H. pose proof (dedup_covers l [] NoneType H) as Hc.
  unfold seen_in in Hc. cbn [app] in Hc.
  apply existsb_exists in Hc as (y & Hy & E).
  rewrite py_eqb_sym in E. apply py_eqb_atom in E; [|exact I]. subst y. exact Hy.
Qed.

Lemma optional_has_none t :
  Optional t = NoneType \/ exists ms, Optional t = Union ms /\ In NoneType ms.
Proof.
  unfold Optional, mkUnion.
  assert (H : In NoneType (dedup [] (flatten_union [t; NoneType]))).
  { apply dedup_keeps_none. unfold flatten_union. cbn [flat_map].
    rewrite app_nil_r. apply in_or_app. right. left. reflexivity. }
  destruct (dedup [] (flatten_union [t; NoneType])) as [|x [|y ms]].
  - destruct H.
  - left. destruct H as [<- | []]. reflexivity.
  - right. eexists. split; [reflexivity | exact H].
Qed.

Lemma union_with_none_no_return ms :
  In NoneType ms -> dict_get SUPPORTED_RETURN_TYPES (PyType (Union ms)) = None.
Proof.
  intros H.
  assert (E : py_eqb (Union ms) Number = false).
  { unfold Number. change (mkUnion [Int; Float; Bool]) with (Union [Int; Float; Bool]).
    rewrite py_eqb_union. apply andb_false_iff. left.
    destruct (forallb (fun x => existsb (py_eqb x) [Int; Float; Bool]) ms) eqn:F;
      [|reflexivity].
    rewrite forallb_forall in F. specialize (F _ H). discriminate. }
  unfold dict_get.
  change SUPPORTED_RETURN_TYPES
    with [ (Tensor, "Tensor"); (List Tensor, "Tensor[]"); (Int, "SymInt");
           (Float, "float"); (Bool, "bool"); (Number, "Scalar") ].
  cbn [find key_matches fst]. rewrite E. reflexivity.
Qed.

(** * The claims *)

(** ** C1: the schema of a supported signature *)




(** ** C2: mutated parameters *)



(** ** C3: the return annotation *)


(** ** C4: has_tensor_arg *)

(** C4 (the code at the failing input). The schema that [infer_schema]
    returns for [sig_paren_default] has the input [Tensor? t=None], yet
    [has_tensor_arg] returns False on it: the text it inspects stops at
    the parenthesis inside the string default. *)
Theorem has_tensor_arg_misses_tensor :
  fst (infer_schema plain_runtime sig_paren_default [] import_state)
  = Return schema_paren_default
  /\ schema_inputs schema_paren_default = Return ["str s=" ++ PyStr.dquote]
  /\ has_tensor_arg schema_paren_default = Return false.
Proof. repeat split. Qed.

(** ** C5: get_device_arg_id *)

(** C5 (the code at the failing input). The schema that [infer_schema]
    returns for [sig_device] with [x] mutated has [Device device] as its
    second input, yet [get_device_arg_id] returns None on it: the text it
    inspects stops at the parenthesis of [Tensor(a0!)]. *)
Theorem get_device_arg_id_misses_device :
  fst (infer_schema plain_runtime sig_device ["x"] import_state)
  = Return "(Tensor(a0!) x, Device device) -> ()"
  /\ schema_inputs "(Tensor(a0!) x, Device device) -> ()" = Return ["Tensor"]
  /\ get_device_arg_id "(Tensor(a0!) x, Device device) -> ()" = Return None
  /\ get_device_arg_id "(Tensor x, Device device) -> ()" = Return (Some 1).
Proof. repeat split. Qed.

(** ** C6: repeated calls *)




(** ** C7: the module state *)




(** ** C8: rejections *)

(** C8 (the code at the failing input). A parameter annotated with a class
    that is no key of SUPPORTED_PARAM_TYPES is rejected with an
    AttributeError, raised by [annotation_type.__origin__], not with a
    ValueError. *)
Theorem unsupported_class_raises_AttributeError (rt : runtime) :
  infer_schema rt sig_complex [] import_state
  = (Raise (AttributeError "__origin__"), import_state).
Proof. reflexivity. Qed.

(** ** C9: the star entry *)

(** C9. In every schema string [infer_schema] returns, the joined list of
    entries holds ["*"] at most once, holds it exactly when the signature
    has a keyword-only parameter, and holds it immediately before the
    entry of the first keyword-only parameter: the entries before it are
    those of the positional-or-keyword parameters, the entries after it
    those of the keyword-only ones. *)
Theorem star_entry_placement (rt : runtime) (sig : Signature) (mutates_args : list string)
    (g : module_state) (s : string) (g' : module_state) :
  kinds_ordered (parameters sig) ->
  infer_schema rt sig mutates_args g = (Return s, g') ->
  exists l g1 text,
    loop rt sig mutates_args 0 (parameters sig) initial_locals g = (Return l, g1)
    /\ s = "(" ++ PyStr.join ", " (params l) ++ ") -> " ++ text
    /\ count_occ string_dec (params l) "*" <= 1
    /\ (In "*" (params l) <-> exists p, In p (parameters sig) /\ kind p = KEYWORD_ONLY)
    /\ forall pre p post,
         parameters sig = (pre ++ p :: post)%list ->
         kind p = KEYWORD_ONLY ->
         (forall q, In q pre -> kind q <> KEYWORD_ONLY) ->
         exists es_pre es_rest,
           params l = (es_pre ++ "*" :: es_rest)%list
           /\ Forall2 is_entry_of pre es_pre
           /\ Forall2 is_entry_of (p :: post) es_rest
           /\ Forall (fun q => kind q = POSITIONAL_OR_KEYWORD) pre
           /\ Forall (fun q => kind q = KEYWORD_ONLY) (p :: post).
Proof.
  intros Hord H.
  apply infer_schema_returns in H as (l & g1 & r & text & Hl & _ & _ & _ & ->).
  exists l, g1, text. split; [exact Hl|]. split; [reflexivity|].
  apply loop_returns in Hl as (es & Hrun & ->).
  apply run_entries in Hrun as [Hes Hsup].
  unfold locals_after. cbn [params initial_locals saw_kwarg_only_arg app].
  pose proof (star_count _ _ Hes) as Hcount.
  split; [|split].
  - rewrite Hcount. destruct (existsb is_kwonly (parameters sig)); lia.
  - rewrite (count_occ_In string_dec), Hcount. split.
    + destruct (existsb is_kwonly (parameters sig)) eqn:Hk; [|lia]. intros _.
      apply existsb_exists in Hk as (p & Hin & Hp). exists p. split; [exact Hin|].
      apply is_kwonly_kind. exact Hp.
    + intros (p & Hin & Hp).
      assert (Hk : existsb is_kwonly (parameters sig) = true).
      { apply existsb_exists. exists p. split; [exact Hin | apply is_kwonly_kind; exact Hp]. }
      rewrite Hk. lia.
  - intros pre p post Hps Hp Hpre.
    assert (Hpre' : existsb is_kwonly pre = false).
    { apply not_true_is_false. intros Hk. apply existsb_exists in Hk as (q & Hin & Hq).
      apply (Hpre q Hin). apply is_kwonly_kind. exact Hq. }
    rewrite Hps in Hes, Hsup, Hord |- *.
    destruct (insert_star_first _ _ _ _ Hes Hpre' (proj2 (is_kwonly_kind p) Hp))
      as (e1 & e2 & _ & H1 & H2 & ->).
    exists e1, e2. repeat split; auto.
    + apply Forall_app in Hsup as [Hsup _]. rewrite Forall_forall in *.
      intros q Hq. apply supported_not_kwonly; [auto|].
      apply not_true_is_false. intros Hk. apply (Hpre q Hq). apply is_kwonly_kind. exact Hk.
    + constructor; [exact Hp|].
      apply Forall_app in Hsup as [_ Hsup]. inversion Hsup; subst.
      eapply kinds_after_kwonly; eauto.
Qed.

Lemma star_entry_placement_witness :
  kinds_ordered (parameters sig_mixed)
  /\ infer_schema plain_runtime sig_mixed ["x"] import_state
     = (Return schema_mixed, import_state)
  /\ exists l g1 text,
       loop plain_runtime sig_mixed ["x"] 0 (parameters sig_mixed) initial_locals import_state
       = (Return l, g1)
       /\ schema_mixed = "(" ++ PyStr.join ", " (params l) ++ ") -> " ++ text
       /\ count_occ string_dec (params l) "*" <= 1
       /\ (In "*" (params l) <-> exists p, In p (parameters sig_mixed) /\ kind p = KEYWORD_ONLY)
       /\ forall pre p post,
            parameters sig_mixed = (pre ++ p :: post)%list ->
            kind p = KEYWORD_ONLY ->
            (forall q, In q pre -> kind q <> KEYWORD_ONLY) ->
            exists es_pre es_rest,
              params l = (es_pre ++ "*" :: es_rest)%list
              /\ Forall2 is_entry_of pre es_pre
              /\ Forall2 is_entry_of (p :: post) es_rest
              /\ Forall (fun q => kind q = POSITIONAL_OR_KEYWORD) pre
              /\ Forall (fun q => kind q = KEYWORD_ONLY) (p :: post).
Proof.
  assert (Hord : kinds_ordered (parameters sig_mixed)).
  { unfold kinds_ordered, sig_mixed, parameters.
    repeat (apply SSorted_cons; [|repeat (apply Forall_cons; [cbn; lia|]); apply Forall_nil]).
    apply SSorted_nil. }
  assert (Hrun : infer_schema plain_runtime sig_mixed ["x"] import_state
                 = (Return schema_mixed, import_state)) by (vm_compute; reflexivity).
  split; [exact Hord | split; [exact Hrun|]].
  exact (star_entry_placement plain_runtime sig_mixed ["x"] import_state
           schema_mixed import_state Hord Hrun).
Defined.

(** ** C10: tuple parameters *)



(** * Further properties *)







(** X4. When the loop reaches a parameter, each of these rejects the call
    with a ValueError: a kind other than POSITIONAL_OR_KEYWORD and
    KEYWORD_ONLY; no annotation; a string annotation whose evaluation
    raises; an annotation that is a generic alias of another origin than
    tuple and no key of SUPPORTED_PARAM_TYPES; a default value of an
    unsupported type. *)
Theorem parameter_rejections (rt : runtime) (sig : Signature) (mutates_args : list string)
    (g : module_state) (pre : list Param) (p : Param) (post : list Param)
    (l1 : locals) (g1 : module_state) :
  parameters sig = (pre ++ p :: post)%list ->
  loop rt sig mutates_args 0 pre initial_locals g = (Return l1, g1) ->
  (supported_param p = false ->
   infer_schema rt sig mutates_args g
   = (Raise (ValueError (error_text rt sig
        "We do not support positional-only args, varargs, or varkwargs.")), g1))
  /\ (supported_param p = true -> annotation p = Empty ->
      infer_schema rt sig mutates_args g
      = (Raise (ValueError (error_text rt sig
           ("Parameter " ++ name p ++ " must have a type annotation."))), g1))
  /\ (forall s g2,
        supported_param p = true -> annotation p = PyStr s ->
        py_eval rt s g1 = (None, g2) ->
        infer_schema rt sig mutates_args g
        = (Raise (ValueError (error_text rt sig
             ("Unsupported type annotation " ++ s ++ ". It is not a type."))), g2))
  /\ (forall t g2,
        supported_param p = true -> annotation p <> Empty ->
        resolve_st rt (annotation p) g1 = Some (t, g2) ->
        dict_contains (param_types g2) t = false ->
        origin_attr t = Some OriginOther ->
        infer_schema rt sig mutates_args g
        = (Raise (ValueError (error_text rt sig
             ("Parameter " ++ name p ++ " has unsupported type "
              ++ str_object rt (annotation p) ++ ". "
              ++ "The valid types are: " ++ str_keys rt (param_types g2) ++ "."))), g2))
  /\ (forall t g2 ty type_text,
        supported_param p = true ->
        resolve_st rt (annotation p) g1 = Some (t, g2) ->
        dict_get (param_types g2) t = Some ty ->
        (name_in (name p) mutates_args = true -> PyStr.startswith "Tensor" ty = true) ->
        default p = DOther type_text ->
        infer_schema rt sig mutates_args g
        = (Raise (ValueError (error_text rt sig
             ("Parameter " ++ name p ++ " has an unsupported default value type "
              ++ type_text ++ ". "
              ++ "Please file an issue on GitHub so we can prioritize this."))), g2)).
Proof.
  intros Hps Hpre. repeat split; intros.
  - eapply infer_schema_raises_at; [exact Hps | exact Hpre |].
    apply loop_body_unsupported_kind; assumption.
  - eapply infer_schema_raises_at; [exact Hps | exact Hpre |].
    apply loop_body_no_annotation; assumption.
  - eapply infer_schema_raises_at; [exact Hps | exact Hpre |].
    apply loop_body_not_a_type; assumption.
  - eapply infer_schema_raises_at; [exact Hps | exact Hpre |].
    eapply loop_body_unsupported_alias; eassumption.
  - eapply infer_schema_raises_at; [exact Hps | exact Hpre |].
    eapply loop_body_unsupported_default; eassumption.
Qed.

Lemma parameter_rejections_witness :
  infer_schema plain_runtime sig_varargs [] import_state
  = (Raise (ValueError (error_text plain_runtime sig_varargs
       "We do not support positional-only args, varargs, or varkwargs.")), import_state).
Proof.
  exact (proj1 (parameter_rejections plain_runtime sig_varargs [] import_state
                  [positional "x" (PyType Tensor) NoDefault]
                  {| name := "args"; kind := VAR_POSITIONAL; annotation := PyType Int;
                     default := NoDefault |}
                  [] _ import_state eq_refl eq_refl) eq_refl).
Defined.

(** X5. Once every parameter has been processed, a name in mutates_args
    that names no parameter of the signature makes [infer_schema] raise
    ValueError. *)
Theorem unknown_mutated_name_rejected (rt : runtime) (sig : Signature)
    (mutates_args : list string) (g : module_state) (l : locals) (g1 : module_state)
    (n : string) :
  loop rt sig mutates_args 0 (parameters sig) initial_locals g = (Return l, g1) ->
  In n mutates_args ->
  (forall p, In p (parameters sig) -> name p <> n) ->
  infer_schema rt sig mutates_args g
  = (Raise (ValueError (error_text rt sig
       (str_set rt (set_diff (set_of mutates_args) (seen_args l))
        ++ " in mutates_args were not found in "
        ++ "the custom op's signature. "
        ++ "mutates_args should contain the names of all args that the "
        ++ "custom op mutates."))), g1)
  /\ In n (set_diff (set_of mutates_args) (seen_args l)).
Proof.
  intros Hl Hn Hp.
  assert (Hin : In n (not_seen mutates_args l)).
  { unfold not_seen. apply set_diff_In. split.
    - unfold set_of. apply fold_set_add_In. auto.
    - pose proof Hl as Hl'. apply loop_returns in Hl' as (es & _ & ->).
      unfold locals_after. cbn [seen_args initial_locals].
      rewrite fold_set_add_In. intros [[] | H].
      apply in_map_iff in H as (p & E & Hin). exact (Hp p Hin E). }
  split; [|exact Hin].
  rewrite (infer_schema_after_loop rt _ _ _ _ _ Hl).
  change (set_diff (set_of mutates_args) (seen_args l)) with (not_seen mutates_args l).
  destruct (not_seen mutates_args l) eqn:E; [destruct Hin|].
  unfold not_seen_error, error_text. rewrite E. reflexivity.
Qed.

Lemma unknown_mutated_name_rejected_witness :
  loop plain_runtime sig_mixed ["z"] 0 (parameters sig_mixed) initial_locals import_state
  = (Return locals_mixed, import_state)
  /\ infer_schema plain_runtime sig_mixed ["z"] import_state
     = (Raise (ValueError (error_text plain_runtime sig_mixed
          (str_set plain_runtime (set_diff (set_of ["z"]) (seen_args locals_mixed))
           ++ " in mutates_args were not found in "
           ++ "the custom op's signature. "
           ++ "mutates_args should contain the names of all args that the "
           ++ "custom op mutates."))), import_state).
Proof.
  assert (Hl : loop plain_runtime sig_mixed ["z"] 0 (parameters sig_mixed) initial_locals
                 import_state = (Return locals_mixed, import_state))
    by (vm_compute; reflexivity).
  assert (Hp : forall p, In p (parameters sig_mixed) -> name p <> "z").
  { intros p [<- | [<- | [<- | [<- | []]]]]; discriminate. }
  split; [exact Hl|].
  exact (proj1 (unknown_mutated_name_rejected plain_runtime sig_mixed ["z"] import_state
                  locals_mixed import_state "z" Hl (or_introl eq_refl) Hp)).
Defined.

(** X6. Tuple inputs are never accepted: when evaluating the string
    annotations changes nothing, [infer_schema], called with the module's
    tables, returns no schema for a signature one of whose parameters is
    annotated with a tuple type. *)
Theorem tuple_parameter_never_accepted (rt : runtime) (sig : Signature)
    (mutates_args : list string) (p : Param) (t : pytype) (s : string) (g' : module_state) :
  evals_purely rt sig ->
  In p (parameters sig) ->
  denotes rt import_state (annotation p) (PyType t) ->
  type_origin t = Some OriginTuple ->
  infer_schema rt sig mutates_args import_state <> (Return s, g').
Proof.
  intros Hpure Hin Hden Ho H.
  destruct (accepted_entries _ _ _ _ _ _ Hpure H p Hin)
    as (i & e & _ & t' & ty & d & Hr & Hty & _).
  unfold denotes in Hden. rewrite Hden in Hr. inversion Hr; subst t'.
  assert (Hc : dict_contains SUPPORTED_PARAM_TYPES (PyType t) = true)
    by (apply dict_contains_get; eauto).
  rewrite (tuple_not_supported t Ho) in Hc. discriminate.
Qed.

Lemma tuple_parameter_never_accepted_witness :
  evals_purely plain_runtime sig_tuple
  /\ infer_schema plain_runtime sig_tuple [] import_state
     <> (Return "(Tensor x, Scalar[] t) -> ()", import_state).
Proof.
  split; [apply plain_runtime_pure|].
  refine (tuple_parameter_never_accepted plain_runtime sig_tuple []
            (positional "t" (PyType (Tuple [Int; Float; Bool])) NoDefault)
            (Tuple [Int; Float; Bool]) "(Tensor x, Scalar[] t) -> ()" import_state
            (plain_runtime_pure sig_tuple) _ eq_refl eq_refl).
  right. left. reflexivity.
Defined.

(** X7. When evaluating the string annotations changes nothing,
    [infer_schema] returns no schema for a signature one of whose
    parameters is listed in mutates_args and has a schema type that does
    not start with ["Tensor"]. *)
Theorem mutated_non_tensor_never_accepted (rt : runtime) (sig : Signature)
    (mutates_args : list string) (g : module_state) (p : Param) (t : pyobj) (ty : string)
    (s : string) (g' : module_state) :
  evals_purely rt sig ->
  In p (parameters sig) ->
  name_in (name p) mutates_args = true ->
  denotes rt g (annotation p) t ->
  dict_get (param_types g) t = Some ty ->
  PyStr.startswith "Tensor" ty = false ->
  infer_schema rt sig mutates_args g <> (Return s, g').
Proof.
  intros Hpure Hin Hm Hden Hty Hst H.
  destruct (accepted_entries _ _ _ _ _ _ Hpure H p Hin)
    as (i & e & _ & t' & ty' & d & Hr & Hty' & Hm' & _).
  unfold denotes in Hden. rewrite Hden in Hr. inversion Hr; subst t'.
  rewrite Hty in Hty'. inversion Hty'; subst ty'.
  rewrite (Hm' Hm) in Hst. discriminate.
Qed.

Lemma mutated_non_tensor_never_accepted_witness :
  evals_purely plain_runtime sig_mixed
  /\ infer_schema plain_runtime sig_mixed ["d"] import_state
     <> (Return schema_mixed, import_state).
Proof.
  split; [apply plain_runtime_pure|].
  refine (mutated_non_tensor_never_accepted plain_runtime sig_mixed ["d"] import_state
            (keyword_only "d" (PyType (Optional Dtype)) (DDtype "torch.float32"))
            (PyType (Optional Dtype)) "ScalarType?" schema_mixed import_state
            (plain_runtime_pure sig_mixed) _ eq_refl eq_refl eq_refl eq_refl).
  right. right. right. left. reflexivity.
Defined.









(** X12. From the schema back to the entries: for a signature with
    plain names and defaults and no mutated parameter, the inputs that
    the inspectors cut out of the schema [infer_schema] returns are,
    once stripped, exactly the entries [infer_schema] joined (the list
    [params] of its loop, with ["*"]); a schema without parameters
    gives the single empty input. *)
Theorem schema_inputs_round_trip (rt : runtime) (sig : Signature) (s : string)
    (g' : module_state) :
  evals_purely rt sig ->
  Forall (fun p => plain_param p = true) (parameters sig) ->
  infer_schema rt sig [] import_state = (Return s, g') ->
  exists l inputs,
    loop rt sig [] 0 (parameters sig) initial_locals import_state = (Return l, import_state)
    /\ schema_inputs s = Return inputs
    /\ map PyStr.strip inputs = match params l with [] => [""] | _ => params l end.
Proof.
  intros [Hpure Hret] Hplain H.
  apply infer_schema_returns in H as (l & g1 & r & text & Hl & _ & _ & _ & ->).
  pose proof Hl as Hl'. apply loop_returns in Hl' as (es & Hrun & ->).
  apply (run_entries_of _ _ _ _ _ _ _ Hpure) in Hrun as [-> Hes].
  exists (locals_after initial_locals (parameters sig) es).
  cbn [locals_after params initial_locals saw_kwarg_only_arg app].
  pose proof (entries_plain _ _ 0 false _ Hpure Hplain Hes) as Hall.
  assert (Hsep : Forall (fun e => separator_free e = true)
                   (insert_star false (parameters sig) es)).
  { eapply Forall_impl; [|exact Hall]. intros e [He _]. exact He. }
  destruct (separator_free_join _ Hsep) as (H1 & H2 & H3 & _).
  exists (PyStr.split "," (PyStr.join ", " (insert_star false (parameters sig) es))).
  split; [exact Hl | split].
  - rewrite <- (append_empty_r (PyStr.join ", " (insert_star false (parameters sig) es)))
      at 1.
    apply schema_inputs_cut; auto.
    rewrite append_empty_r. apply contains_gt_arrow. exact H3.
  - apply strip_inputs. exact Hall.
Qed.

Lemma schema_inputs_round_trip_witness :
  evals_purely plain_runtime sig_kw_device
  /\ Forall (fun p => plain_param p = true) (parameters sig_kw_device)
  /\ infer_schema plain_runtime sig_kw_device [] import_state
     = (Return "(Tensor x, *, Device device) -> ()", import_state)
  /\ exists l inputs,
       loop plain_runtime sig_kw_device [] 0 (parameters sig_kw_device) initial_locals
         import_state = (Return l, import_state)
       /\ schema_inputs "(Tensor x, *, Device device) -> ()" = Return inputs
       /\ map PyStr.strip inputs = match params l with [] => [""] | _ => params l end.
Proof.
  assert (Hplain : Forall (fun p => plain_param p = true) (parameters sig_kw_device)).
  { apply Forall_forall, forallb_forall. vm_compute. reflexivity. }
  assert (Hrun : infer_schema plain_runtime sig_kw_device [] import_state
                 = (Return "(Tensor x, *, Device device) -> ()", import_state))
    by (vm_compute; reflexivity).
  split; [apply plain_runtime_pure | split; [exact Hplain | split; [exact Hrun|]]].
  exact (schema_inputs_round_trip plain_runtime sig_kw_device _ import_state
           (plain_runtime_pure sig_kw_device) Hplain Hrun).
Defined.

(** X13. [tuple_to_list] on a homogeneous tuple: for a type [t] that
    is its own union ([Union[t]] is [t], as for every class and every
    alias that Python builds), [Tuple[t, ..., t]] of any length becomes
    [List[t]], and so does [Tuple[t, ...]]; the bare [Tuple] becomes the
    bare [List]. The result is never a tuple type. *)
Theorem tuple_to_list_homogeneous (t : pytype) (n : nat) :
  mkUnion [t] = t ->
  tuple_to_list (Tuple (repeat t (S n))) = List t
  /\ tuple_to_list (Tuple [t; Ellipsis]) = List t
  /\ tuple_to_list BareTuple = BareList
  /\ forall t', type_origin (tuple_to_list t') = Some OriginOther.
Proof.
  intros Ht. repeat split.
  - destruct n as [|n]; [reflexivity|].
    unfold tuple_to_list. cbn [type_args repeat].
    change (t :: t :: repeat t n) with (repeat t (S (S n))).
    rewrite mkUnion_repeat, Ht.
    destruct (Nat.eqb (List.length (repeat t (S (S n)))) 2 && is_ellipsis t); reflexivity.
  - intros t'. unfold tuple_to_list.
    destruct t' as [| | | | | | | | | |ms|x|x| |xs| |o xs]; try reflexivity;
      cbn [type_args];
      match goal with
      | |- context [match ?l with _ => _ end] => destruct l as [|a [|b l']]; try reflexivity
      end;
      match goal with
      | |- context [if ?c then _ else _] => destruct c; reflexivity
      end.
Qed.

Lemma tuple_to_list_homogeneous_witness :
  mkUnion [Int] = Int
  /\ tuple_to_list (Tuple [Int; Int; Int]) = List Int
  /\ mkUnion [Optional Tensor] = Optional Tensor
  /\ tuple_to_list (Tuple [Optional Tensor; Optional Tensor]) = List (Optional Tensor).
Proof.
  split; [reflexivity|]. split; [exact (proj1 (tuple_to_list_homogeneous Int 2 eq_refl))|].
  split; [reflexivity|].
  exact (proj1 (tuple_to_list_homogeneous (Optional Tensor) 1 eq_refl)).
Defined.

(** X14. [typing.Sequence[t]] and [typing.List[t]] are interchangeable
    as parameter annotations: for every [t], both are keys of
    SUPPORTED_PARAM_TYPES with the same schema type, or neither is; and
    likewise [Optional[Sequence[t]]] and [Optional[List[t]]]. *)
Theorem sequence_and_list_alike (t : pytype) :
  dict_get SUPPORTED_PARAM_TYPES (PyType (Sequence t))
  = dict_get SUPPORTED_PARAM_TYPES (PyType (List t))
  /\ dict_get SUPPORTED_PARAM_TYPES (PyType (Optional (Sequence t)))
     = dict_get SUPPORTED_PARAM_TYPES (PyType (Optional (List t))).
Proof.
  rewrite param_table_eq. unfold dict_get, param_table. split.
  - cbn [find key_matches fst py_eqb].
    repeat match goal with
           | |- context [if ?c then _ else _] => destruct c; try reflexivity
           end.
  - cbn.
    repeat match goal with
           | |- context [if ?c then _ else _] => destruct c; try reflexivity
           end.
Qed.

(** X15. Every supported return type is a supported parameter type
    with the same schema name: an annotation that [parse_return]
    renders from SUPPORTED_RETURN_TYPES has that very schema type in
    SUPPORTED_PARAM_TYPES. *)
Theorem return_types_are_param_types (t : pytype) (v : string) :
  dict_get SUPPORTED_RETURN_TYPES (PyType t) = Some v ->
  dict_get SUPPORTED_PARAM_TYPES (PyType t) = Some v.
Proof.
  intros H. apply dict_get_key in H as (k & Hin & Hk).
  rewrite (dict_get_respects _ _ _ Hk).
  assert (Hall : forallb (fun kv => match dict_get SUPPORTED_PARAM_TYPES (PyType (fst kv)) with
                                    | Some v' => String.eqb v' (snd kv)
                                    | None => false
                                    end) SUPPORTED_RETURN_TYPES = true)
    by (vm_compute; reflexivity).
  rewrite forallb_forall in Hall. specialize (Hall _ Hin). cbn [fst snd] in Hall.
  destruct (dict_get SUPPORTED_PARAM_TYPES (PyType k)) as [v'|]; [|discriminate].
  apply String.eqb_eq in Hall. congruence.
Qed.

Lemma return_types_are_param_types_witness :
  dict_get SUPPORTED_RETURN_TYPES (PyType (Union [Bool; Float; Int])) = Some "Scalar"
  /\ dict_get SUPPORTED_PARAM_TYPES (PyType (Union [Bool; Float; Int])) = Some "Scalar".
Proof.
  split; [reflexivity|].
  exact (return_types_are_param_types (Union [Bool; Float; Int]) "Scalar" eq_refl).
Defined.

(** X16. The only exception of the inspectors: [has_tensor_arg] and
    [get_device_arg_id] raise IndexError exactly when the text before
    the first ["->"] of the schema holds no ["("], and return a result
    for every other string. *)
Theorem inspectors_raise_IndexError (schema : string) :
  (has_tensor_arg schema = Raise IndexError
   <-> PyStr.contains "(" (before_arrow schema) = false)
  /\ (get_device_arg_id schema = Raise IndexError
      <-> PyStr.contains "(" (before_arrow schema) = false)
  /\ ((exists b, has_tensor_arg schema = Return b)
      <-> PyStr.contains "(" (before_arrow schema) = true)
  /\ ((exists i, get_device_arg_id schema = Return i)
      <-> PyStr.contains "(" (before_arrow schema) = true).
Proof.
  pose proof (schema_inputs_outcome schema) as H.
  unfold has_tensor_arg, get_device_arg_id.
  destruct (PyStr.contains "(" (before_arrow schema)).
  - destruct H as [inputs ->]. cbn [and_then]. rewrite collect_type_tokens. cbn [and_then].
    repeat split; intros; try discriminate; eauto.
  - rewrite H. cbn [and_then].
    repeat split; intros; try reflexivity; try discriminate;
      match goal with H : exists _, _ |- _ => destruct H; discriminate end.
Qed.

(** X17. [parse_return] and the callback it is given. For an annotation
    that is rendered, [parse_return] returns the text without calling
    [error_fn]: the result is the same for every callback. For an
    annotation that is not rendered (no key of SUPPORTED_RETURN_TYPES, or
    a tuple with such a component), a callback that returns instead of
    raising makes [parse_return] raise KeyError: it relies on [error_fn]
    not returning. *)
Theorem parse_return_callback (rt : runtime) (callback : string -> M unit)
    (annotation : pyobj) (g : module_state) :
  (forall text,
     return_rendering (return_types g) annotation = Some text ->
     parse_return rt annotation callback g = (Return text, g))
  /\ ((forall what g0, callback what g0 = (Return tt, g0)) ->
      return_rendering (return_types g) annotation = None ->
      parse_return rt annotation callback g = (Raise KeyError, g)).
Proof.
  split.
  - intros text. apply parse_return_rendered.
  - apply parse_return_quiet.
Qed.

(** X18. What may be named in mutates_args: the schema type of a key
    of SUPPORTED_PARAM_TYPES starts with ["Tensor"] exactly when the
    annotation is Tensor, Optional[Tensor], or a Sequence or List of
    one of these two. *)
Theorem mutable_annotations (t : pytype) (ty : string) :
  dict_get SUPPORTED_PARAM_TYPES (PyType t) = Some ty ->
  PyStr.startswith "Tensor" ty = existsb (py_eqb t) tensor_annotations.
Proof.
  intros H. apply dict_get_key in H as (k & Hin & Hk).
  assert (Hall : forallb (fun kv => Bool.eqb (PyStr.startswith "Tensor" (snd kv))
                                      (existsb (py_eqb (fst kv)) tensor_annotations))
                   SUPPORTED_PARAM_TYPES = true)
    by (vm_compute; reflexivity).
  rewrite forallb_forall in Hall. specialize (Hall _ Hin). cbn [fst snd] in Hall.
  apply Bool.eqb_prop in Hall. rewrite Hall.
  symmetry. apply existsb_ext_in. intros a _. apply py_eqb_congruence, Hk.
Qed.

Lemma mutable_annotations_witness :
  dict_get SUPPORTED_PARAM_TYPES (PyType (Union [NoneType; Tensor])) = Some "Tensor?"
  /\ PyStr.startswith "Tensor" "Tensor?"
     = existsb (py_eqb (Union [NoneType; Tensor])) tensor_annotations
  /\ dict_get SUPPORTED_PARAM_TYPES (PyType (List Int)) = Some "SymInt[]"
  /\ PyStr.startswith "Tensor" "SymInt[]" = existsb (py_eqb (List Int)) tensor_annotations.
Proof.
  split; [reflexivity|].
  split; [exact (mutable_annotations (Union [NoneType; Tensor]) "Tensor?" eq_refl)|].
  split; [reflexivity|].
  exact (mutable_annotations (List Int) "SymInt[]" eq_refl).
Defined.

(** X19. The order of the members of a Union does not matter, nor
    does the way an equal annotation was built: annotations that are
    [==] have the same schema type in SUPPORTED_PARAM_TYPES and in
    SUPPORTED_RETURN_TYPES (or are both missing); in particular two
    Unions with the same members, as [Union[None, int]] and
    [Optional[int]]. *)
Theorem equal_annotations_alike (d : dict) (a b : pytype) :
  (py_eqb a b = true -> dict_get d (PyType a) = dict_get d (PyType b))
  /\ (forall xs ys, a = Union xs -> b = Union ys ->
      (forall x, In x xs <-> In x ys) ->
      dict_get d (PyType a) = dict_get d (PyType b)).
Proof.
  split.
  - apply dict_get_respects.
  - intros xs ys -> -> H. apply dict_get_respects, union_members_eq, H.
Qed.

Lemma equal_annotations_alike_witness :
  dict_get SUPPORTED_PARAM_TYPES (PyType (Union [NoneType; Int]))
  = dict_get SUPPORTED_PARAM_TYPES (PyType (Optional Int))
  /\ dict_get SUPPORTED_PARAM_TYPES (PyType (Optional Int)) = Some "SymInt?".
Proof.
  split; [|reflexivity].
  apply (proj2 (equal_annotations_alike SUPPORTED_PARAM_TYPES
                  (Union [NoneType; Int]) (Optional Int)) [NoneType; Int] [Int; NoneType]
               eq_refl eq_refl).
  intros x. cbn [In]. tauto.
Defined.

(** X20. Once the loop has accepted every parameter and every name of
    mutates_args has been seen, the return annotation is looked at, and
    [infer_schema] raises ValueError for a string that does not
    evaluate, for an annotation that [parse_return] does not render
    (the message shows the evaluated annotation, not the string), and
    so for a missing return annotation. *)
Theorem return_rejections (rt : runtime) (sig : Signature) (mutates_args : list string)
    (g : module_state) (l : locals) (g1 : module_state) :
  loop rt sig mutates_args 0 (parameters sig) initial_locals g = (Return l, g1) ->
  set_diff (set_of mutates_args) (seen_args l) = [] ->
  (forall s g2,
     return_annotation sig = PyStr s ->
     py_eval rt s g1 = (None, g2) ->
     infer_schema rt sig mutates_args g
     = (Raise (ValueError (error_text rt sig
          ("Unsupported type annotation " ++ s ++ ". It is not a type."))), g2))
  /\ (forall r g2,
        resolve_st rt (return_annotation sig) g1 = Some (r, g2) ->
        return_rendering (return_types g2) r = None ->
        infer_schema rt sig mutates_args g
        = (Raise (ValueError (error_text rt sig
             ("Return has unsupported type " ++ str_object rt r ++ ". "
              ++ "The valid types are: " ++ str_dict rt (return_types g2) ++ "."))), g2))
  /\ (return_annotation sig = Empty ->
      infer_schema rt sig mutates_args g
      = (Raise (ValueError (error_text rt sig
           ("Return has unsupported type " ++ str_object rt Empty ++ ". "
            ++ "The valid types are: " ++ str_dict rt (return_types g1) ++ "."))), g1)).
Proof.
  intros Hl Hn. rewrite (infer_schema_after_loop rt _ _ _ _ _ Hl).
  change (set_diff (set_of mutates_args) (seen_args l)) with (not_seen mutates_args l) in Hn.
  rewrite Hn.
  assert (H2 : forall r g2,
             resolve_st rt (return_annotation sig) g1 = Some (r, g2) ->
             return_rendering (return_types g2) r = None ->
             match resolve_annotation rt sig (return_annotation sig) g1 with
             | (Return r, g2) =>
                 (match return_rendering (return_types g2) r with
                  | Some text =>
                      Return ("(" ++ PyStr.join ", " (params l) ++ ") -> " ++ text)
                  | None => Raise (return_error rt sig r (return_types g2))
                  end, g2)
             | (Raise e, g2) => (Raise e, g2)
             end
             = (Raise (ValueError (error_text rt sig
                  ("Return has unsupported type " ++ str_object rt r ++ ". "
                   ++ "The valid types are: " ++ str_dict rt (return_types g2) ++ "."))),
                g2)).
  { intros r g2 Hr Hnone. apply (resolve_annotation_returns rt sig) in Hr.
    rewrite Hr, Hnone. reflexivity. }
  split; [|split; [exact H2|]].
  - intros s g2 Hs Heval. rewrite Hs. unfold resolve_annotation, convert_type_string.
    rewrite Heval. reflexivity.
  - intros Hs. apply H2; [rewrite Hs; reflexivity|].
    unfold return_rendering. cbn [origin_is_tuple origin_attr].
    apply dict_get_not_type. intros t. discriminate.
Qed.

Lemma return_rejections_witness :
  loop plain_runtime sig_no_return [] 0 (parameters sig_no_return) initial_locals import_state
  = (Return {| params := ["Tensor x"]; seen_args := ["x"]; saw_kwarg_only_arg := false |},
     import_state)
  /\ infer_schema plain_runtime sig_no_return [] import_state
     = (Raise (ValueError (error_text plain_runtime sig_no_return
          ("Return has unsupported type " ++ str_object plain_runtime Empty ++ ". "
           ++ "The valid types are: "
           ++ str_dict plain_runtime (return_types import_state) ++ "."))), import_state).
Proof.
  assert (Hl : loop plain_runtime sig_no_return [] 0 (parameters sig_no_return)
                 initial_locals import_state
               = (Return {| params := ["Tensor x"]; seen_args := ["x"];
                            saw_kwarg_only_arg := false |}, import_state))
    by (vm_compute; reflexivity).
  split; [exact Hl|].
  exact (proj2 (proj2 (return_rejections plain_runtime sig_no_return [] import_state _
                         import_state Hl eq_refl)) eq_refl).
Defined.



(** X22. Optional return types are not supported: for every [t],
    [Optional[t]] is no key of SUPPORTED_RETURN_TYPES, so that
    [parse_return] rejects it through [error_fn] and [infer_schema]
    raises ValueError for a function annotated to return
    [Optional[t]], although [Optional[t]] is accepted for parameters. *)
Theorem optional_return_rejected (rt : runtime) (sig : Signature) (t : pytype)
    (g : module_state) :
  return_types g = SUPPORTED_RETURN_TYPES ->
  dict_get SUPPORTED_RETURN_TYPES (PyType (Optional t)) = None
  /\ parse_return rt (PyType (Optional t)) (error_fn rt sig) g
     = (Raise (ValueError (error_text rt sig
          ("Return has unsupported type " ++ str_object rt (PyType (Optional t)) ++ ". "
           ++ "The valid types are: " ++ str_dict rt SUPPORTED_RETURN_TYPES ++ "."))), g).
Proof.
  intros Hg.
  assert (Hnone : dict_get SUPPORTED_RETURN_TYPES (PyType (Optional t)) = None).
  { destruct (optional_has_none t) as [-> | (ms & -> & Hin)];
      [reflexivity | apply union_with_none_no_return; exact Hin]. }
  split; [exact Hnone|].
  rewrite parse_return_eq, Hg.
  assert (Hr : return_rendering SUPPORTED_RETURN_TYPES (PyType (Optional t)) = None).
  { unfold return_rendering.
    destruct (optional_has_none t) as [-> | (ms & -> & Hin)]; [reflexivity|].
    cbn [origin_is_tuple origin_attr type_origin]. apply union_with_none_no_return, Hin. }
  rewrite Hr. reflexivity.
Qed.

Lemma optional_return_rejected_witness :
  return_types import_state = SUPPORTED_RETURN_TYPES
  /\ dict_get SUPPORTED_PARAM_TYPES (PyType (Optional Tensor)) = Some "Tensor?"
  /\ dict_get SUPPORTED_RETURN_TYPES (PyType (Optional Tensor)) = None.
Proof.
  split; [reflexivity|]. split; [reflexivity|].
  exact (proj1 (optional_return_rejected plain_runtime sig_mixed Tensor import_state eq_refl)).
Defined.
